(** * factu_mail_reader: billing extraction and mail routing

    A shallow embedding of [src/parser.js] (class [BillingParser]) and
    [src/processor.js] (class [MailProcessor]).

    - Parsed XML trees are JavaScript values ([val]); property reads that
      JavaScript rejects (a read off [undefined] or [null]) are [Throw]n.
    - The methods of [BillingParser] that do no I/O are functions into
      [result]; the methods that touch the file system, the mail session,
      the logger or the document builder live in the monad [M], which
      threads the file system and records every requested effect, in
      request order, as an [event].
    - Collaborators that are not code of the two classes (the XML parser,
      [JSON.stringify], the IMAP client, the zip reader, the operating
      system) are fields of the record [Env].
    - A promise that is rejected while nothing awaits or catches it ends
      the process with code 1, as Node does by default: not at once, but
      when the microtasks are drained, that is at the first [await]
      after it whose answer takes a turn of the event loop.  The file
      system never answers without one; whether the mail session does is
      a field of [Env]. *)

From Stdlib Require Import String Ascii List Bool Arith ZArith QArith.
From Stdlib Require Import DecimalString.
Import ListNotations.
Local Open Scope list_scope.
Local Open Scope string_scope.

(* ================================================================== *)
(** ** JavaScript strings *)

Module JsString.

(** [s.includes(sub)] *)
Fixpoint includes (sub s : string) : bool :=
  String.prefix sub s ||
  match s with
  | EmptyString => false
  | String _ s' => includes sub s'
  end.

(** Drop the first [n] characters. *)
Fixpoint skip (n : nat) (s : string) : string :=
  match n, s with
  | O, _ => s
  | S n', String _ s' => skip n' s'
  | S _, EmptyString => EmptyString
  end.

(** [s.replace(pat, rep)] with a string pattern: only the first
    occurrence is replaced.  ([rep] never holds a [$] in this program.) *)
Fixpoint replace (pat rep s : string) : string :=
  if String.prefix pat s then rep ++ skip (String.length pat) s
  else match s with
       | EmptyString => EmptyString
       | String c s' => String c (replace pat rep s')
       end.

Definition lower_ascii (c : ascii) : ascii :=
  let n := nat_of_ascii c in
  if (65 <=? n)%nat && (n <=? 90)%nat then ascii_of_nat (n + 32) else c.

(** [s.toLowerCase()] on the characters a [string] holds here.  No
    character outside [A-Z] lower-cases to one of the letters of
    [.xml], [.pdf] or [.zip], which is all the program asks of it. *)
Fixpoint toLowerCase (s : string) : string :=
  match s with
  | EmptyString => EmptyString
  | String c s' => String (lower_ascii c) (toLowerCase s')
  end.

Definition is_space (c : ascii) : bool :=
  let n := nat_of_ascii c in
  (n =? 32)%nat || ((9 <=? n)%nat && (n <=? 13)%nat).

Fixpoint trimStart (s : string) : string :=
  match s with
  | String c s' => if is_space c then trimStart s' else s
  | EmptyString => EmptyString
  end.

Fixpoint rev_string (s acc : string) : string :=
  match s with
  | EmptyString => acc
  | String c s' => rev_string s' (String c acc)
  end.

(** [s.trim()] *)
Definition trim (s : string) : string :=
  rev_string (trimStart (rev_string (trimStart s) "")) "".

Definition is_empty (s : string) : bool :=
  match s with EmptyString => true | _ => false end.

End JsString.

(* ================================================================== *)
(** ** JavaScript values, exceptions and completions *)

#[local] Set Warnings "-register-all".

(** The values an XML tree parsed by fast-xml-parser is made of.  Numbers
    are only carried and tested for truthiness, never computed on. *)
Inductive val : Type :=
| VUndefined
| VNull
| VBool (b : bool)
| VNum (q : Q)
| VStr (s : string)
| VArr (items : list val)
| VObj (fields : list (string * val)).

Inductive exn : Type :=
| TypeError (message : string)
| ReferenceError (message : string)
| Error (message : string)
  (** a rejection coming from a collaborator: whether it is an [Error]
      instance, its [message] and its [stdout] when it has one *)
| Rejected (instanceof_Error : bool) (message : option string)
           (stdout : option string).

Inductive result (A : Type) : Type :=
| Ok (a : A)
| Throw (e : exn).
Arguments Ok {A} a.
Arguments Throw {A} e.

Definition rbind {A B} (r : result A) (k : A -> result B) : result B :=
  match r with
  | Ok a => k a
  | Throw e => Throw e
  end.

Notation "'let?' x ':=' r 'in' k" := (rbind r (fun x => k))
  (at level 10, x name, r at level 100, k at level 200).

Module Js.

Definition nullish (v : val) : bool :=
  match v with
  | VUndefined | VNull => true
  | _ => false
  end.

(** [ToBoolean] *)
Definition truthy (v : val) : bool :=
  match v with
  | VUndefined | VNull => false
  | VBool b => b
  | VNum q => negb (Qnum q =? 0)%Z
  | VStr s => negb (JsString.is_empty s)
  | VArr _ | VObj _ => true
  end.

Fixpoint lookup (k : string) (fields : list (string * val)) : val :=
  match fields with
  | [] => VUndefined
  | (k', v) :: rest => if String.eqb k k' then v else lookup k rest
  end.

(** [v.k].  None of the property names this program reads is defined on
    a primitive's or an array's prototype, so off those the read is
    [undefined]. *)
Definition get (v : val) (k : string) : result val :=
  match v with
  | VUndefined =>
      Throw (TypeError ("Cannot read properties of undefined (reading '" ++ k ++ "')"))
  | VNull =>
      Throw (TypeError ("Cannot read properties of null (reading '" ++ k ++ "')"))
  | VObj fields => Ok (lookup k fields)
  | _ => Ok VUndefined
  end.

(** [v?.rest]: a nullish [v] short-circuits the whole rest of the chain. *)
Definition opt (v : val) (rest : val -> result val) : result val :=
  if nullish v then Ok VUndefined else rest v.

(** [a ?? b]: [b] is only evaluated when [a] is nullish. *)
Definition coalesce (a b : result val) : result val :=
  match a with
  | Ok v => if nullish v then b else Ok v
  | Throw e => Throw e
  end.

(** [a || b] *)
Definition or (a b : result val) : result val :=
  match a with
  | Ok v => if truthy v then Ok v else b
  | Throw e => Throw e
  end.

(** [v === 'lit'] *)
Definition strict_eq_str (v : val) (lit : string) : bool :=
  match v with
  | VStr s => String.eqb s lit
  | _ => false
  end.

(** [v.replace(pat, rep)] *)
Definition call_replace (v : val) (pat rep : string) : result val :=
  match v with
  | VStr s => Ok (VStr (JsString.replace pat rep s))
  | VUndefined =>
      Throw (TypeError "Cannot read properties of undefined (reading 'replace')")
  | VNull =>
      Throw (TypeError "Cannot read properties of null (reading 'replace')")
  | _ => Throw (TypeError "replace is not a function")
  end.

End Js.

Notation "a ?? b" := (Js.coalesce a b) (at level 65, left associativity).
Notation "v ?. f" := (Js.opt v f) (at level 41, left associativity).
Notation "v ! k" := (Js.get v k) (at level 41, left associativity).

Definition zero : val := VNum (0 # 1)%Q.

(* ================================================================== *)
(** ** BillingParser: the field extractors (parser.js) *)

Record Entity : Type := { nit : val; nombre : val }.

Record Billing : Type := {
  id : val;
  cufe : val;
  date : val;
  value : val;
  proveedor : Entity;
  cliente : Entity
}.

Section BillingExtractor.

(** [this.#parser.parse]: fast-xml-parser.  It may throw on input it
    cannot read. *)
Variable xml_parse : val -> result val.

(** [#extractID] *)
Definition extractID (document attachment : val) : result val :=
  (attachment ?. (fun a => a ! "ID"))
  ?? (attachment ?. (fun a => let? i := a ! "Invoice" in i ?. (fun i => i ! "ID")))
  ?? (attachment ?. (fun a => let? c := a ! "CreditNote" in c ?. (fun c => c ! "ID")))
  ?? (let? p := document ! "ParentDocumentID" in
      if Js.strict_eq_str p "null" then Ok VNull
      else (document ! "ParentDocumentID") ?? Ok VNull)
  ?? (document ! "AltID")
  ?? (let? r := document ! "ParentDocumentLineReference" in
      r ?. (fun r => let? d := r ! "DocumentReference" in d ! "ID"))
  ?? (document ! "ID")
  ?? Ok (VStr "").

(** [#extractCUFE] *)
Definition extractCUFE (document : val) : result val :=
  (document ! "UUID")
  ?? (let? r := document ! "ParentDocumentLineReference" in
      r ?. (fun r => let? d := r ! "DocumentReference" in
                     d ?. (fun d => d ! "UUID")))
  ?? Ok (VStr "").

(** [#extractEntityData] *)
Definition extractEntityData (entity : val) : result Entity :=
  let? nit_ :=
    (entity ?. (fun e => let? p := e ! "PartyTaxScheme" in p ! "CompanyID"))
    ?? (entity ?. (fun e => let? p := e ! "PartyTaxScheme" in p ! "CompanyID"))
    ?? Ok (VStr "") in
  let? nombre_ :=
    (entity ?. (fun e => let? p := e ! "PartyTaxScheme" in p ! "RegistrationName"))
    ?? (entity ?. (fun e => let? p := e ! "PartyTaxScheme" in p ! "RegistrationName"))
    ?? Ok (VStr "") in
  Ok {| nit := nit_; nombre := nombre_ |}.

(** [#extractValue] *)
Definition extractValue (attachment : val) : result val :=
  (let? i := attachment ! "Invoice" in
   i ?. (fun i => let? t := i ! "LegalMonetaryTotal" in
                  t ?. (fun t => t ! "PayableAmount")))
  ?? (attachment ?. (fun a => let? t := a ! "LegalMonetaryTotal" in
                              t ?. (fun t => t ! "PayableAmount")))
  ?? Ok zero.

(** [#extractAttachment] *)
Definition extractAttachment (document : val) : result val :=
  let? a := document ! "Attachment" in
  let? r := a ! "ExternalReference" in
  let? d := r ! "Description" in
  let? c := d ! "__cdata" in
  let? s1 := Js.call_replace c "<![CDATA[" "" in
  let? s2 := Js.call_replace s1 "]]" "" in
  xml_parse s2.

(** [#extractBilling]: the [AttachedDocument] variant *)
Definition extractBilling (document : val) : result Billing :=
  let? attachment := extractAttachment document in
  let? id_ := extractID document attachment in
  let? cufe_ := extractCUFE document in
  let? date_ := document ! "IssueDate" in
  let? value_ := extractValue attachment in
  let? proveedor_ :=
    (let? e := (document ! "SenderParty")
               ?? (let? s := document ! "AccountingSupplierParty" in
                   s ?. (fun s => s ! "Party")) in
     extractEntityData e) in
  let? cliente_ :=
    (let? e := (document ! "ReceiverParty")
               ?? (let? s := document ! "AccountingCustomerParty" in
                   s ?. (fun s => s ! "Party")) in
     extractEntityData e) in
  Ok {| id := id_; cufe := cufe_; date := date_; value := value_;
        proveedor := proveedor_; cliente := cliente_ |}.

(** [#extractAttachmentBilling]: the [Invoice] and [CreditNote] variants *)
Definition extractAttachmentBilling (document : val) : result Billing :=
  let? attachment := extractAttachment document in
  let? id_ := extractID document attachment in
  let? cufe_ := document ! "UUID" in
  let? date_ := document ! "IssueDate" in
  let? value_ := extractValue document in
  let? proveedor_ :=
    (let? s := document ! "AccountingSupplierParty" in
     let? e := s ! "Party" in
     extractEntityData e) in
  let? cliente_ :=
    (let? s := document ! "AccountingCustomerParty" in
     let? e := s ! "Party" in
     extractEntityData e) in
  Ok {| id := id_; cufe := cufe_; date := date_; value := value_;
        proveedor := proveedor_; cliente := cliente_ |}.

End BillingExtractor.

(* ================================================================== *)
(** ** The world the two classes run in *)

(** Modelled from the spec: [utils.js] ([buildCommand], [exec]) is not
    among the sources.  The Document Builder is an external process
    started with three positional file paths, (jsonOutputPath,
    xmlInputPath, pdfInputPath); [buildCommand] is the command made of
    them and [exec] (a field of [Env]) runs it. *)
Record Command : Type := buildCommand {
  jsonOutputPath : string;
  xmlInputPath : string;
  pdfInputPath : string
}.

(** imapflow's message structure, as far as [#processMessage] reads it. *)
Record DispositionParameters : Type := { filename : option string }.

Record BodyNode : Type := {
  part : string;
  dispositionParameters : option DispositionParameters
}.

(** [childNodes] is only there on a multipart node. *)
Record BodyStructure : Type := { childNodes : option (list BodyNode) }.

Record FetchMessageObject : Type := {
  uid : N;
  bodyStructure : BodyStructure
}.

(** [msg.uid.toString()] *)
Definition uid_toString (msg : FetchMessageObject) : string :=
  NilZero.string_of_uint (N.to_uint (uid msg)).

Record DownloadMeta : Type := {
  meta_filename : string;
  expectedSize : Z
}.

Record Download : Type := {
  content : string;
  meta : DownloadMeta
}.

(** An entry of the stream [unzipper.Parse] yields. *)
Record Entry : Type := {
  path : string;
  data : string
}.

(** A private method started without [await]: [#processMessage] does not
    wait for the routine it starts. *)
Inductive Task : Type :=
| XmlPdfTask (xmlNode pdfNode : string) (msg : FetchMessageObject)
| ZipTask (zipNode tmpdir : string) (msg : FetchMessageObject).

(** The files written so far, newest first: path and content.  A file
    that is there can be read. *)
Definition Files : Type := list (string * string).

Fixpoint file_lookup (p : string) (fs : Files) : option string :=
  match fs with
  | [] => None
  | (p', c) :: rest => if String.eqb p p' then Some c else file_lookup p rest
  end.

Inductive level : Type := LInfo | LError.

(** The first argument of a logger call: an object literal, an error, or
    the value that is the message. *)
Inductive log_object : Type :=
| Fields (fields : list (string * val))
| ErrObject (e : exn)
| Text (v : val).

(** Every effect the classes request, in the order they request it. *)
Inductive event : Type :=
| EDownload (uid part : string)
| EMkdir (path : string)
| EMkdtemp (prefix : string)
| EAccess (path : string)
| EReadFile (path : string)
| EWriteFile (path content : string)
| ERm (path : string)
| EAutodrain (entry_path : string)
  (** the builder is started; [seen] is the file system it finds *)
| EExec (cmd : Command) (seen : Files)
| EMessageMove (uid : string) (mailbox : option string)
| EFetch
  (** [#processXmlPdfNode] or [#processZipNode] is called, not awaited *)
| ESpawn (task : Task)
| ELockRelease
| ELogout
| EProcessExit (code : Z)
  (** a promise rejected with [e] that nothing awaits or catches: Node
      reports it once the microtasks are drained, when the event loop
      turns, and ends the process *)
| EUnhandledRejection (e : exn)
| EConsoleError (e : exn)
| EConsoleLog (message : string)
| ELog (lvl : level) (obj : log_object) (message : option string).

(** What the collaborators answer.  [process.env] entries may be unset. *)
Record Env : Type := {
  ATTACHMENTS_PATH : option string;
  GOOD_MAILBOX : option string;
  BAD_MAILBOX : option string;
  (** [DateTime.now().toFormat('yyyyMMddHHmm')] *)
  now : string;
  (** fast-xml-parser's [parse] *)
  xml_parse : val -> result val;
  JSON_stringify : val -> string;
  (** [typeof client.mailbox === 'boolean']: no mailbox is selected *)
  mailbox_is_boolean : bool;
  usable : bool;
  (** the messages [client.fetch] yields and the error that ends the
      iteration, if one does *)
  fetch : list FetchMessageObject * option exn;
  (** whether the [n]-th answer of that iteration (a message, its end or
      its error) is there when it is asked for, so that the loop goes on
      without a turn of the event loop *)
  fetch_at_hand : nat -> bool;
  download : string -> string -> result Download;
  (** the [destination] of what [client.messageMove] answers, if any *)
  messageMove : string -> option string -> result (option string);
  logout : result unit;
  (** whether [client.logout] answers without a turn of the event loop
      (it does when the connection is gone) *)
  logout_at_hand : bool;
  (** the entries [unzipper.Parse] yields from a content and the error
      that ends the stream, if one does *)
  unzip : string -> list Entry * option exn;
  mkdir : string -> result unit;
  mkdtemp : string -> result string;
  (** the error a write to a path is rejected with, if it is (a path into
      a directory that is not there is one) *)
  writeFile_rejects : string -> option exn;
  exec : Command -> Files -> result unit
}.

(** How a method ends. *)
Inductive completion (A : Type) : Type :=
| Return (a : A)
| Raise (e : exn)
| Exit (code : Z).
Arguments Return {A} a.
Arguments Raise {A} e.
Arguments Exit {A} code.

(** A method with effects: from the files it finds to its completion,
    the files it leaves and the effects it requested. *)
Definition M (A : Type) : Type := Files -> completion A * Files * list event.

Definition ret {A} (a : A) : M A := fun fs => (Return a, fs, []).

Definition throw {A} (e : exn) : M A := fun fs => (Raise e, fs, []).

Definition bind {A B} (m : M A) (k : A -> M B) : M B :=
  fun fs =>
    match m fs with
    | (Return a, fs1, t1) =>
        let '(c, fs2, t2) := k a fs1 in (c, fs2, (t1 ++ t2)%list)
    | (Raise e, fs1, t1) => (Raise e, fs1, t1)
    | (Exit n, fs1, t1) => (Exit n, fs1, t1)
    end.

Notation "x <- m ;; k" := (bind m (fun x => k))
  (at level 61, m at next level, right associativity).
Notation "m ;; k" := (bind m (fun _ => k))
  (at level 61, right associativity).

(** [try { body } catch (e) { handler }], and [promise.catch(handler)] *)
Definition try_catch {A} (body : M A) (handler : exn -> M A) : M A :=
  fun fs =>
    match body fs with
    | (Raise e, fs1, t1) =>
        let '(c, fs2, t2) := handler e fs1 in (c, fs2, (t1 ++ t2)%list)
    | other => other
    end.

Definition emit (e : event) : M unit := fun fs => (Return tt, fs, [e]).

Definition lift {A} (r : result A) : M A :=
  match r with
  | Ok a => ret a
  | Throw e => throw e
  end.

(** The end of a process in which a promise rejected with [e] was left
    with nothing to await or catch it: Node's exit code for it is 1. *)
Definition unhandled {A} (e : exn) : M A :=
  fun fs => (Exit 1, fs, [EUnhandledRejection e]).

Definition trace_of {A} (out : completion A * Files * list event) : list event :=
  snd out.

Definition files_of {A} (out : completion A * Files * list event) : Files :=
  snd (fst out).

Definition completion_of {A} (out : completion A * Files * list event)
  : completion A := fst (fst out).

(** [e instanceof Error] *)
Definition instanceof_Error (e : exn) : bool :=
  match e with
  | TypeError _ | ReferenceError _ | Error _ => true
  | Rejected b _ _ => b
  end.

(** [e.message] *)
Definition message_of (e : exn) : val :=
  match e with
  | TypeError m | ReferenceError m | Error m => VStr m
  | Rejected _ (Some m) _ => VStr m
  | Rejected _ None _ => VUndefined
  end.

(** [e.stdout?.trim()] *)
Definition stdout_trim (e : exn) : val :=
  match e with
  | Rejected _ _ (Some out) => VStr (JsString.trim out)
  | _ => VUndefined
  end.

(** A template literal or [+] turns an unset variable into ['undefined']. *)
Definition env_string (v : option string) : string :=
  match v with
  | Some s => s
  | None => "undefined"
  end.

(** [Array.prototype.join] turns an [undefined] element into ['']. *)
Definition join_string (v : option string) : string :=
  match v with
  | Some s => s
  | None => ""
  end.

Definition or_default (v : val) (d : string) : val :=
  if Js.nullish v then VStr d else v.

(* ================================================================== *)
(** ** The methods that have effects *)

(** The private fields [#client], [#lock], [#log] and [#parser] are what
    the constructor of [MailProcessor] documents them to be; [env] is what
    they answer. *)

Section Methods.

Variable env : Env.

(** *** Primitives *)

Definition console_error (e : exn) : M unit := emit (EConsoleError e).
Definition console_log (s : string) : M unit := emit (EConsoleLog s).

Definition log_info (s : string) : M unit := emit (ELog LInfo (Text (VStr s)) None).
Definition log_info_fields (f : list (string * val)) : M unit :=
  emit (ELog LInfo (Fields f) None).
Definition log_error_fields (f : list (string * val)) (s : string) : M unit :=
  emit (ELog LError (Fields f) (Some s)).
Definition log_error_exn (e : exn) (s : string) : M unit :=
  emit (ELog LError (ErrObject e) (Some s)).
(** [log.error(e.message)] *)
Definition log_error_message (e : exn) : M unit :=
  emit (ELog LError (Text (message_of e)) None).

Definition client_download (uid part : string) : M Download :=
  emit (EDownload uid part) ;; lift (download env uid part).

Definition client_messageMove (uid : string) (mailbox : option string)
  : M (option string) :=
  emit (EMessageMove uid mailbox) ;; lift (messageMove env uid mailbox).

Definition fs_mkdir (p : string) : M unit :=
  emit (EMkdir p) ;; lift (mkdir env p).

Definition fs_mkdtemp (prefix : string) : M string :=
  emit (EMkdtemp prefix) ;; lift (mkdtemp env prefix).

(** [fs.access(p, constants.R_OK)] where the call is not awaited: what
    comes back is the rejection of the promise that is dropped, when the
    file is not there. *)
Definition fs_access (p : string) : M (option exn) :=
  emit (EAccess p) ;;
  fun fs =>
    (Return
       match file_lookup p fs with
       | Some _ => None
       | None =>
           Some (Rejected true
                   (Some ("ENOENT: no such file or directory, access '" ++ p ++ "'"))
                   None)
       end, fs, []).

Definition fs_readFile (p : string) : M string :=
  emit (EReadFile p) ;;
  fun fs =>
    match file_lookup p fs with
    | Some c => (Return c, fs, [])
    | None =>
        (Raise (Rejected true
                  (Some ("ENOENT: no such file or directory, open '" ++ p ++ "'"))
                  None), fs, [])
    end.

Definition fs_writeFile (p c : string) : M unit :=
  emit (EWriteFile p c) ;;
  fun fs =>
    match writeFile_rejects env p with
    | Some e => (Raise e, fs, [])
    | None => (Return tt, (p, c) :: fs, [])
    end.

(** [fs.rm(dir, { recursive: true, force: true })].  Neither call site
    awaits it: what is recorded is the request. *)
Definition fs_rm (dir : string) : M unit := emit (ERm dir).

Definition run_exec (cmd : Command) : M unit :=
  fun fs =>
    match exec env cmd fs with
    | Ok _ => (Return tt, fs, [EExec cmd fs])
    | Throw e => (Raise e, fs, [EExec cmd fs])
    end.

(** *** MailProcessor: [#moveMessage] *)

Definition moveMessage (uid : string) (mailbox : option string) : M unit :=
  try_catch
    (log_info_fields
       [("message", VStr ("Requesting move to " ++ join_string mailbox
                          ++ " - MSG: " ++ uid))] ;;
     destination <- client_messageMove uid mailbox ;;
     log_info_fields
       [("message", VStr ("Message moved to " ++ join_string destination
                          ++ " - MSG: " ++ uid))])
    (fun e =>
       console_error e ;;
       if instanceof_Error e
       then log_error_fields [("error", message_of e)] "Error moving message"
       else log_error_fields [] "Error moving message").

(** *** BillingParser: [#parse], [#parseXML], [parse] *)

Definition Billing_to_val (b : Billing) : val :=
  VObj [("id", id b); ("cufe", cufe b); ("date", date b); ("value", value b);
        ("proveedor", VObj [("nit", nit (proveedor b));
                            ("nombre", nombre (proveedor b))]);
        ("cliente", VObj [("nit", nit (cliente b));
                          ("nombre", nombre (cliente b))])].

(** [#parse] *)
Definition parse_private (p : string) : M val :=
  buffer <- fs_readFile p ;;
  data <- lift (xml_parse env (VStr buffer)) ;;
  if negb (Js.truthy data) then ret VNull else ret data.

(** [#parseXML] from line 147 on, when the access check found the file. *)
Definition parseXML_read (xmlPath : string) : M (option Billing) :=
  parsedXML <- parse_private xmlPath ;;
  if negb (Js.truthy parsedXML) then throw (Error "El XML no pudo ser leido")
  else
    known <- lift (Js.or (Js.or (parsedXML ! "Invoice")
                                (parsedXML ! "AttachedDocument"))
                         (parsedXML ! "CreditNote")) ;;
    if negb (Js.truthy known)
    then throw (Error "El XML no contiene datos válidos")
    else
      try_catch
        (invoice <- lift (parsedXML ! "Invoice") ;;
         if Js.truthy invoice then
           console_log "Found an Invoice" ;;
           log_info "Found an Invoice" ;;
           b <- lift (extractAttachmentBilling (xml_parse env) invoice) ;;
           ret (Some b)
         else
           creditNote <- lift (parsedXML ! "CreditNote") ;;
           if Js.truthy creditNote then
             console_log "Found a Credit Note" ;;
             log_info "Found a Credit Note" ;;
             b <- lift (extractAttachmentBilling (xml_parse env) creditNote) ;;
             ret (Some b)
           else
             attached <- lift (parsedXML ! "AttachedDocument") ;;
             if Js.truthy attached then
               console_log "Found an AttachedDocument" ;;
               log_info "Found an AttachedDocument" ;;
               b <- lift (extractBilling (xml_parse env) attached) ;;
               ret (Some b)
             else ret None)
        (fun e =>
           log_error_exn e "Error al leer los datos de la factura" ;;
           throw (Error "Error al leer los datos de la factura")).

(** [#parseXML].  The promise of [fs.access] is neither awaited nor
    caught.  The file system answers in the order it is asked: when the
    file is not there, the rejection of the access check comes first,
    while [#parse] waits for [fs.readFile], and with nothing to handle it
    the process ends there; the rejection of the read is never seen. *)
Definition parseXML (xmlPath : string) : M (option Billing) :=
  dropped <- fs_access xmlPath ;;
  match dropped with
  | Some rejection => emit (EReadFile xmlPath) ;; unhandled rejection
  | None => parseXML_read xmlPath
  end.

(** [parse] *)
Definition parse (xmlPath : string) : M Billing :=
  data <- parseXML xmlPath ;;
  match data with
  | None => throw (TypeError "Cannot read properties of null (reading 'id')")
  | Some b =>
      if negb (Js.truthy (id b)) then throw (Error "La factura no tiene un ID")
      else ret b
  end.

(** *** MailProcessor: [#processXmlPdfNode] *)

(** What a name in a method body of processor.js can stand for. *)
Inductive binding : Type :=
| BString (s : string)
| BMessage (m : FetchMessageObject)
| BImport.

(** The imports of processor.js and the globals its bodies use. *)
Definition module_scope : list (string * binding) :=
  map (fun x => (x, BImport))
      ["fs"; "os"; "path"; "unzipper"; "DateTime"; "ImapFlow"; "buildCommand";
       "exec"; "BillingParser"; "MailProcessor"; "process"; "console";
       "Promise"; "Error"].

Fixpoint resolve (scope : list (string * binding)) (x : string) : result binding :=
  match scope with
  | [] => Throw (ReferenceError (x ++ " is not defined"))
  | (y, b) :: rest => if String.eqb x y then Ok b else resolve rest x
  end.

(** [b.uid.toString()] *)
Definition binding_uid_toString (b : binding) : result string :=
  match b with
  | BMessage m => Ok (uid_toString m)
  | _ => Throw (TypeError "Cannot read properties of undefined (reading 'toString')")
  end.

(** The method declares two parameters, [(xmlNode, pdfNode)]; what a
    caller passes beyond them ([surplus]) is bound to no name. *)
Definition processXmlPdfNode (xmlNode pdfNode : string) (surplus : list binding)
  : M unit :=
  let scope :=
    ([("xmlNode", BString xmlNode); ("pdfNode", BString pdfNode)]
       ++ module_scope)%list in
  let msg_uid_toString : M string :=
    lift (let? msg := resolve scope "msg" in binding_uid_toString msg) in
  try_catch
    ((* Promise.all: both downloads are requested, then awaited *)
     uid1 <- msg_uid_toString ;;
     emit (EDownload uid1 xmlNode) ;;
     uid2 <- msg_uid_toString ;;
     emit (EDownload uid2 pdfNode) ;;
     xmlDownload <- lift (download env uid1 xmlNode) ;;
     pdfDownload <- lift (download env uid2 pdfNode) ;;
     (* fs.mkdtemp is not awaited: tmpdir is a promise *)
     emit (EMkdtemp (env_string (ATTACHMENTS_PATH env) ++ "/")) ;;
     let tmpdir := "[object Promise]" in
     let xmlPath := tmpdir ++ "/" ++ meta_filename (meta xmlDownload) in
     let pdfPath := tmpdir ++ "/" ++ meta_filename (meta pdfDownload) in
     fs_writeFile xmlPath (content xmlDownload) ;;
     fs_writeFile pdfPath (content pdfDownload) ;;
     let jsonPath := JsString.replace ".xml" ".json" xmlPath in
     run_exec (buildCommand jsonPath xmlPath pdfPath) ;;
     uid3 <- msg_uid_toString ;;
     lift (resolve scope "client") ;;
     moveMessage uid3 (GOOD_MAILBOX env))
    (fun e =>
       console_error e ;;
       (if instanceof_Error e
        then log_error_fields [("error", message_of e)] "Error processing Message"
        else ret tt) ;;
       uid4 <- msg_uid_toString ;;
       moveMessage uid4 (BAD_MAILBOX env)).

(** *** MailProcessor: [#processZipNode] *)

(** The locals of the loop over the archive's entries. *)
Record ZipLocals : Type := {
  xml : option Entry;
  xmlPath : string;
  pdf : option Entry;
  pdfPath : string;
  jsonPath : string
}.

Definition zip_init : ZipLocals :=
  {| xml := None; xmlPath := ""; pdf := None; pdfPath := ""; jsonPath := "" |}.

(** One turn of [for await (const entry of zip)].  The entry is a stream
    and [fs.writeFile] reads it to its end: when the path holds both
    [.xml] and [.pdf] the second write finds nothing left in it ([read])
    and leaves an empty file.  A write that is rejected is rejected on
    opening the file, before it reads. *)
Definition zip_entry (tmpdir : string) (st : ZipLocals) (entry : Entry)
  : M ZipLocals :=
  first <- (if JsString.includes ".xml" (path entry) then
              let p := tmpdir ++ "/" ++ path entry in
              read <- try_catch (fs_writeFile p (data entry) ;; ret true)
                                (fun e => console_error e ;; ret false) ;;
              ret ({| xml := Some entry; xmlPath := p;
                      pdf := pdf st; pdfPath := pdfPath st;
                      jsonPath := JsString.replace ".xml" ".json" p |}, read)
            else ret (st, false)) ;;
  let st1 := fst first in
  let read := snd first in
  st2 <- (if JsString.includes ".pdf" (path entry) then
            let p := tmpdir ++ "/" ++ path entry in
            try_catch (fs_writeFile p (if read then "" else data entry))
                      (fun e => if instanceof_Error e
                                then log_error_message e else ret tt) ;;
            ret {| xml := xml st1; xmlPath := xmlPath st1;
                   pdf := Some entry; pdfPath := p;
                   jsonPath := jsonPath st1 |}
          else ret st1) ;;
  emit (EAutodrain (path entry)) ;;
  ret st2.

Fixpoint zip_loop (tmpdir : string) (entries : list Entry) (stream_error : option exn)
                  (st : ZipLocals) : M ZipLocals :=
  match entries with
  | [] => match stream_error with
          | Some e => throw e
          | None => ret st
          end
  | entry :: rest =>
      st' <- zip_entry tmpdir st entry ;;
      zip_loop tmpdir rest stream_error st'
  end.

(** Lines 140-154: what follows the loop. *)
Definition zip_finish (tmpdir : string) (msg : FetchMessageObject) (st : ZipLocals)
  : M unit :=
  match xml st, pdf st with
  | Some _, Some _ =>
      billing <- parse (xmlPath st) ;;
      if negb (Js.truthy (Billing_to_val billing))
      then throw (Error "Could not get data from XML")
      else
        fs_writeFile (jsonPath st) (JSON_stringify env (Billing_to_val billing)) ;;
        run_exec (buildCommand (jsonPath st) (xmlPath st) (pdfPath st)) ;;
        moveMessage (uid_toString msg) (GOOD_MAILBOX env) ;;
        fs_rm tmpdir
  | _, _ => throw (Error "No contenía una factura válida")
  end.

(** The [try] block of [#processZipNode] *)
Definition processZipNode_try (zipNode tmpdir : string) (msg : FetchMessageObject)
  : M unit :=
  d <- client_download (uid_toString msg) zipNode ;;
  if (expectedSize (meta d) >? 4 * 1024 * 1024)%Z
  then throw (Error "Size too big")
  else
    let zip := unzip env (content d) in
    st <- zip_loop tmpdir (fst zip) (snd zip) zip_init ;;
    zip_finish tmpdir msg st.

(** Its [catch] block *)
Definition processZipNode_catch (tmpdir : string) (msg : FetchMessageObject)
    (e : exn) : M unit :=
  console_error e ;;
  log_error_fields
    [("output", or_default (stdout_trim e) "");
     ("error", or_default (message_of e) "")]
    "Could not process mail data" ;;
  fs_rm tmpdir ;;
  moveMessage (uid_toString msg) (BAD_MAILBOX env).

Definition processZipNode (zipNode tmpdir : string) (msg : FetchMessageObject)
  : M unit :=
  try_catch (processZipNode_try zipNode tmpdir msg)
            (processZipNode_catch tmpdir msg).

(** *** MailProcessor: [#processMessage] *)

(** [xmlNode], [pdfNode] and [zipNode]: [None] is [undefined] or [null]. *)
Record Selection : Type := {
  xmlNode : option string;
  pdfNode : option string;
  zipNode : option string
}.

Definition no_selection : Selection :=
  {| xmlNode := None; pdfNode := None; zipNode := None |}.

(** [filename.toLowerCase().includes(suffix)] *)
Definition names (suffix : string) (filename : string) : bool :=
  JsString.includes suffix (JsString.toLowerCase filename).

(** One turn of [for (const node of msg.bodyStructure.childNodes)] *)
Definition look (sel : Selection) (node : BodyNode) : Selection :=
  match dispositionParameters node with
  | None => sel
  | Some params =>
      match filename params with
      | None => sel
      | Some f =>
          if JsString.is_empty f then sel
          else
            let sel1 :=
              if names ".xml" f
              then {| xmlNode := Some (part node); pdfNode := pdfNode sel;
                      zipNode := zipNode sel |}
              else sel in
            let sel2 :=
              if names ".pdf" f
              then {| xmlNode := xmlNode sel1; pdfNode := Some (part node);
                      zipNode := zipNode sel1 |}
              else sel1 in
            if names ".zip" f
            then {| xmlNode := xmlNode sel2; pdfNode := pdfNode sel2;
                    zipNode := Some (part node) |}
            else sel2
      end
  end.

Definition classify (nodes : list BodyNode) : Selection :=
  fold_left look nodes no_selection.

Inductive Strategy : Type :=
| DirectPair (xmlNode pdfNode : string)
| Bundle (zipNode : string)
| Skip.

(** A part path that is truthy. *)
Definition truthy_node (n : option string) : option string :=
  match n with
  | Some s => if JsString.is_empty s then None else Some s
  | None => None
  end.

(** Lines 195-200 *)
Definition strategy (sel : Selection) : Strategy :=
  match truthy_node (xmlNode sel), truthy_node (pdfNode sel),
        truthy_node (zipNode sel) with
  | Some x, Some p, _ => DirectPair x p
  | _, _, Some z => Bundle z
  | _, _, _ => Skip
  end.

Definition processMessage (msg : FetchMessageObject) (timestampDir : string)
  : M unit :=
  match childNodes (bodyStructure msg) with
  | None => throw (TypeError "msg.bodyStructure.childNodes is not iterable")
  | Some nodes =>
      match strategy (classify nodes) with
      | DirectPair x p => emit (ESpawn (XmlPdfTask x p msg))
      | Bundle z =>
          tmpdir <- fs_mkdtemp timestampDir ;;
          emit (ESpawn (ZipTask z tmpdir msg))
      | Skip => ret tt
      end
  end.

(** What a started routine does, on its own. *)
Definition run_task (t : Task) : M unit :=
  match t with
  | XmlPdfTask x p msg => processXmlPdfNode x p [BMessage msg]
  | ZipTask z tmpdir msg => processZipNode z tmpdir msg
  end.

(** *** MailProcessor: [#fetchMessages], [processMessages] *)

Definition process_exit {A} (code : Z) : M A :=
  fun fs => (Exit code, fs, [EProcessExit code]).

(** The strategy lines 195-200 choose for a message that has a part list. *)
Definition strategy_of (msg : FetchMessageObject) : option Strategy :=
  option_map (fun nodes => strategy (classify nodes))
             (childNodes (bodyStructure msg)).

(** The promise of the routine that [#processMessage] starts at line 196
    and drops.  The direct-pair routine ends before its first [await]:
    when it throws, its promise is rejected by the time [#processMessage]
    returns, and nothing awaits or catches it.  The bundle routine first
    waits for its download. *)
Definition dropped_rejection (msg : FetchMessageObject) : M (option exn) :=
  fun fs =>
    (Return
       match strategy_of msg with
       | Some (DirectPair x p) =>
           match completion_of (processXmlPdfNode x p [BMessage msg] fs) with
           | Raise e => Some e
           | _ => None
           end
       | _ => None
       end, fs, []).

(** [await this.#processMessage(msg, timestampDir)] when a rejected
    promise may have been left behind ([pending]).  The method waits once,
    for [fs.mkdtemp] under the bundle strategy, and the file system does
    not answer without a turn of the event loop: with a rejection pending
    the process ends there. *)
Definition processMessage_after (pending : option exn) (msg : FetchMessageObject)
    (timestampDir : string) : M unit :=
  match pending, strategy_of msg with
  | Some rejection, Some (Bundle _) =>
      emit (EMkdtemp timestampDir) ;; unhandled rejection
  | _, _ => processMessage msg timestampDir
  end.

(** How the loop of lines 222-224 is left: by the end of the messages, or
    by what is thrown inside the [try] block. *)
Inductive loop_end : Type :=
| Completed
| Thrown (e : exn).

(** Lines 222-224.  [pending] is the first rejected promise left
    unhandled so far (the one Node reports) and [n] counts the answers of
    the iteration; the loop hands both its end and [pending] to what
    follows it.  Waiting for an answer that is not at hand lets the event
    loop turn. *)
Fixpoint for_await (messages : list FetchMessageObject) (stream_error : option exn)
                   (timestampDir : string) (pending : option exn) (n : nat)
  : M (loop_end * option exn) :=
  match pending, fetch_at_hand env n with
  | Some rejection, false => unhandled rejection
  | _, _ =>
      match messages with
      | [] =>
          ret (match stream_error with
               | Some e => Thrown e
               | None => Completed
               end, pending)
      | msg :: rest =>
          turn <- try_catch (processMessage_after pending msg timestampDir ;;
                             ret Completed)
                            (fun e => ret (Thrown e)) ;;
          match turn with
          | Thrown e => ret (Thrown e, pending)
          | Completed =>
              rejected <- dropped_rejection msg ;;
              for_await rest stream_error timestampDir
                        (match pending with
                         | Some _ => pending
                         | None => rejected
                         end) (S n)
          end
      end
  end.

(** Lines 206-236.  The [catch] block (lines 225-235) waits once, for
    [client.logout].  When the loop is completed with a rejection still
    pending the method returns all the same: the process ends later, at
    the next turn of the event loop, outside of it. *)
Definition fetchMessages : M unit :=
  let timestampDir :=
    env_string (ATTACHMENTS_PATH env) ++ "/" ++ now env ++ "/" in
  fs_mkdir timestampDir ;;
  if mailbox_is_boolean env then ret tt
  else if negb (usable env) then ret tt
  else
    emit EFetch ;;
    ended <- for_await (fst (fetch env)) (snd (fetch env)) timestampDir None 0 ;;
    match fst ended with
    | Completed => ret tt
    | Thrown e =>
        console_error e ;;
        (if instanceof_Error e then log_error_message e else ret tt) ;;
        emit ELockRelease ;;
        emit ELogout ;;
        match snd ended, logout_at_hand env with
        | Some rejection, false => unhandled rejection
        | _, _ => lift (logout env) ;; process_exit 1
        end
    end.

Definition processMessages : M unit := fetchMessages.

End Methods.


(* ================================================================== *)
(** ** Vocabulary of the statements *)

(** [v.k1.k2...] read leniently: absent ([undefined]) as soon as a step
    of the path is. *)
Fixpoint field (v : val) (path : list string) : val :=
  match path with
  | [] => v
  | k :: rest =>
      match v with
      | VObj fields => field (Js.lookup k fields) rest
      | _ => VUndefined
      end
  end.

(** The first candidate that is neither [null] nor [undefined]. *)
Definition first_non_null (candidates : list val) (default : val) : val :=
  match find (fun v => negb (Js.nullish v)) candidates with
  | Some v => v
  | None => default
  end.

(** The identifier chain in the specification's words: attachment ID,
    attachment Invoice.ID, attachment CreditNote.ID, ParentDocumentID
    (the string "null" counting as absent), AltID,
    ParentDocumentLineReference.DocumentReference.ID, ID, else the empty
    string. *)
Definition id_chain (document attachment : val) : val :=
  first_non_null
    [ field attachment ["ID"];
      field attachment ["Invoice"; "ID"];
      field attachment ["CreditNote"; "ID"];
      (if Js.strict_eq_str (field document ["ParentDocumentID"]) "null"
       then VNull else field document ["ParentDocumentID"]);
      field document ["AltID"];
      field document ["ParentDocumentLineReference"; "DocumentReference"; "ID"];
      field document ["ID"] ]
    (VStr "").

(** The chain once ParentDocumentID is left out of it. *)
Definition id_chain_without_parent (document attachment : val) : val :=
  first_non_null
    [ field attachment ["ID"];
      field attachment ["Invoice"; "ID"];
      field attachment ["CreditNote"; "ID"];
      field document ["AltID"];
      field document ["ParentDocumentLineReference"; "DocumentReference"; "ID"];
      field document ["ID"] ]
    (VStr "").

(** A document whose ParentDocumentLineReference, when it has one, holds
    a DocumentReference. *)
Definition reference_complete (document : val) : Prop :=
  Js.nullish (field document ["ParentDocumentLineReference"]) = true \/
  Js.nullish (field document ["ParentDocumentLineReference"; "DocumentReference"])
  = false.

Definition empty_entity : Entity := {| nit := VStr ""; nombre := VStr "" |}.

(** A part the router takes for a [suffix] file: it has a non-empty
    disposition filename that contains the suffix, whatever the case. *)
Definition part_names (suffix : string) (node : BodyNode) : bool :=
  match dispositionParameters node with
  | Some params =>
      match filename params with
      | Some f => negb (JsString.is_empty f) && names suffix f
      | None => false
      end
  | None => false
  end.

Definition first_part (suffix : string) (nodes : list BodyNode) : option string :=
  option_map part (find (part_names suffix) nodes).

Definition last_part (suffix : string) (nodes : list BodyNode) : option string :=
  option_map part (find (part_names suffix) (rev nodes)).

Definition or_else {X : Type} (a b : option X) : option X :=
  match a with
  | Some x => Some x
  | None => b
  end.

(** What the loop over an archive's entries leaves in its locals, told
    from the entry paths alone. *)
Definition capture (tmpdir : string) (st : ZipLocals) (entry : Entry) : ZipLocals :=
  let st1 :=
    if JsString.includes ".xml" (path entry)
    then {| xml := Some entry; xmlPath := tmpdir ++ "/" ++ path entry;
            pdf := pdf st; pdfPath := pdfPath st;
            jsonPath := JsString.replace ".xml" ".json" (tmpdir ++ "/" ++ path entry) |}
    else st in
  if JsString.includes ".pdf" (path entry)
  then {| xml := xml st1; xmlPath := xmlPath st1;
          pdf := Some entry; pdfPath := tmpdir ++ "/" ++ path entry;
          jsonPath := jsonPath st1 |}
  else st1.

Definition captured (tmpdir : string) (entries : list Entry) : ZipLocals :=
  fold_left (capture tmpdir) entries zip_init.

(** A method that requests only events that satisfy [q] and does not end
    the process. *)
Definition confined {A} (q : event -> bool) (m : M A) : Prop :=
  forall fs,
    forallb q (trace_of (m fs)) = true /\
    forall code, completion_of (m fs) <> Exit code.

(** A method that leaves the files as it found them. *)
Definition keeps_files {A} (m : M A) : Prop :=
  forall fs, files_of (m fs) = fs.

Definition is_rm (e : event) : bool :=
  match e with ERm _ => true | _ => false end.

Definition is_move (e : event) : bool :=
  match e with EMessageMove _ _ => true | _ => false end.

Definition is_exec (e : event) : bool :=
  match e with EExec _ _ => true | _ => false end.

Definition not_rm_nor_move (e : event) : bool := negb (is_rm e) && negb (is_move e).

Definition not_exec (e : event) : bool := negb (is_exec e).

(** What is requested while a message's files are fetched, unpacked and
    read: no build, no move, no removal. *)
Definition preparatory (e : event) : bool :=
  match e with
  | EDownload _ _ | EAccess _ | EReadFile _ | EWriteFile _ _ | EAutodrain _
  | EConsoleError _ | EConsoleLog _ | ELog _ _ _ => true
  | _ => false
  end.

(** The sidecar path is the xml path with its first [.xml] replaced. *)
Definition sidecar_ok (st : ZipLocals) : Prop :=
  jsonPath st = JsString.replace ".xml" ".json" (xmlPath st).

(** A trace in which the builder is started at most once and, when it is,
    both entries were captured, the command is made of the three paths of
    [st], and the builder finds the files the loop left ([unpacked]) and,
    on top of them, at the json path, the serialized Billing that [parse]
    returns for the xml path on those files, written by a request that
    precedes the start. *)
Definition single_build (env : Env) (st : ZipLocals) (unpacked : Files)
    (t : list event) : Prop :=
  forallb not_exec t = true \/
  exists pre post billing,
    t = (pre ++ EExec (buildCommand (jsonPath st) (xmlPath st) (pdfPath st))
                      ((jsonPath st, JSON_stringify env (Billing_to_val billing))
                       :: unpacked)
             :: post)%list /\
    forallb not_exec pre = true /\
    forallb not_exec post = true /\
    xml st <> None /\
    pdf st <> None /\
    completion_of (parse env (xmlPath st) unpacked) = Return billing /\
    In (EWriteFile (jsonPath st) (JSON_stringify env (Billing_to_val billing))) pre.

(** An outcome that is either a failure after events that satisfy [q], or
    a normal return after such events followed by [suffix]. *)
Definition ends_with (q : event -> bool) (suffix : list event)
    (out : completion unit * Files * list event) : Prop :=
  exists t,
    forallb q t = true /\
    ((exists e, completion_of out = Raise e /\ trace_of out = t) \/
     (completion_of out = Return tt /\ trace_of out = (t ++ suffix)%list)).

(** The trace of [#moveMessage]: it does not depend on the files. *)
Definition move_trace (env : Env) (uid : string) (mailbox : option string)
  : list event :=
  trace_of (moveMessage env uid mailbox []).

(** Position of the first event that satisfies [q]. *)
Fixpoint position (q : event -> bool) (t : list event) : option nat :=
  match t with
  | [] => None
  | e :: rest => if q e then Some O else option_map S (position q rest)
  end.

(** The [error] fields logged with 'Could not process mail data'. *)
Fixpoint processing_errors (t : list event) : list val :=
  match t with
  | [] => []
  | ELog LError (Fields f) (Some "Could not process mail data") :: rest =>
      Js.lookup "error" f :: processing_errors rest
  | _ :: rest => processing_errors rest
  end.

(* ================================================================== *)
(** ** Sample inputs *)

Module Sample.

Definition party (company name : string) : val :=
  VObj [("Party",
         VObj [("PartyTaxScheme",
                VObj [("CompanyID", VStr company);
                      ("RegistrationName", VStr name)])])].

(** The minimal Invoice of the specification's round-trip property. *)
Definition minimal_invoice : val :=
  VObj [("ID", VStr "X"); ("UUID", VStr "Y"); ("IssueDate", VStr "2024-01-01");
        ("AccountingSupplierParty", party "1" "A");
        ("AccountingCustomerParty", party "2" "B")].

Definition expected_billing : Billing :=
  {| id := VStr "X"; cufe := VStr "Y"; date := VStr "2024-01-01"; value := zero;
     proveedor := {| nit := VStr "1"; nombre := VStr "A" |};
     cliente := {| nit := VStr "2"; nombre := VStr "B" |} |}.

(** The same Invoice carrying an embedded attachment. *)
Definition invoice_with_attachment : val :=
  VObj [("ID", VStr "X"); ("UUID", VStr "Y"); ("IssueDate", VStr "2024-01-01");
        ("Attachment",
         VObj [("ExternalReference",
                VObj [("Description", VObj [("__cdata", VStr "<a/>")])])]);
        ("AccountingSupplierParty", party "1" "A");
        ("AccountingCustomerParty", party "2" "B")].

(** A party entity without PartyTaxScheme. *)
Definition bare_entity : val := VObj [].

Definition null_parent : val :=
  VObj [("ParentDocumentID", VStr "null"); ("ID", VStr "null")].

Definition null_parent_alt : val :=
  VObj [("ParentDocumentID", VStr "null"); ("AltID", VStr "SETT-1");
        ("ID", VStr "9")].

Definition named (p f : string) : BodyNode :=
  {| part := p; dispositionParameters := Some {| filename := Some f |} |}.

Definition two_xml_parts : list BodyNode :=
  [named "1" "a.xml"; named "2" "b.XML"; named "3" "a.pdf"; named "4" "all.zip"].

Definition message (nodes : list BodyNode) : FetchMessageObject :=
  {| uid := 7; bodyStructure := {| childNodes := Some nodes |} |}.

Definition a_xml : Entry := {| path := "a.xml"; data := "doc" |}.
Definition a_pdf : Entry := {| path := "a.pdf"; data := "%PDF" |}.

Definition EACCES : exn := Rejected true (Some "EACCES: permission denied") None.

(** A mail session and an operating system that answer every request;
    [rejects] tells which writes fail. *)
Definition world (rejects : string -> option exn) (selected : bool) : Env :=
  {| ATTACHMENTS_PATH := Some "/att";
     GOOD_MAILBOX := Some "GOOD";
     BAD_MAILBOX := Some "BAD";
     now := "202401010000";
     xml_parse := fun v =>
       match v with
       | VStr "doc" => Ok (VObj [("Invoice", invoice_with_attachment)])
       | _ => Ok (VObj [])
       end;
     JSON_stringify := fun _ => "{json}";
     mailbox_is_boolean := negb selected;
     usable := true;
     fetch := ([], None);
     fetch_at_hand := fun _ => true;
     download := fun _ _ =>
       Ok {| content := "PK";
             meta := {| meta_filename := "f.zip"; expectedSize := 10 |} |};
     messageMove := fun _ mailbox => Ok mailbox;
     logout := Ok tt;
     logout_at_hand := false;
     unzip := fun _ => ([a_xml; a_pdf], None);
     mkdir := fun _ => Ok tt;
     mkdtemp := fun prefix => Ok (prefix ++ "Ab12Cd");
     writeFile_rejects := rejects;
     exec := fun _ _ => Ok tt |}.

Definition writable : Env := world (fun _ => None) true.
Definition unwritable : Env := world (fun _ => Some EACCES) true.
Definition unselected : Env := world (fun _ => None) false.

End Sample.

(* ================================================================== *)
(** ** Vocabulary of the further properties *)

(** The CUFE chain: UUID, then the UUID of the referenced document, then
    the empty string. *)
Definition cufe_chain (document : val) : val :=
  first_non_null
    [ field document ["UUID"];
      field document ["ParentDocumentLineReference"; "DocumentReference"; "UUID"] ]
    (VStr "").

(** The payable amount: under [Invoice] first, then at the top, then 0. *)
Definition value_chain (attachment : val) : val :=
  first_non_null
    [ field attachment ["Invoice"; "LegalMonetaryTotal"; "PayableAmount"];
      field attachment ["LegalMonetaryTotal"; "PayableAmount"] ]
    zero.

(** Where the embedded document is looked for. *)
Definition cdata_of (document : val) : val :=
  field document ["Attachment"; "ExternalReference"; "Description"; "__cdata"].

(** The two [replace] calls of [#extractAttachment]. *)
Definition strip_cdata (s : string) : string :=
  JsString.replace "]]" "" (JsString.replace "<![CDATA[" "" s).

(** The party an AttachedDocument names: SenderParty (ReceiverParty),
    else the Party of AccountingSupplierParty (AccountingCustomerParty). *)
Definition party_of (document : val) (direct accounting : string) : val :=
  if Js.nullish (field document [direct])
  then field document [accounting; "Party"]
  else field document [direct].

(** An entity the projection accepts: absent, or with a PartyTaxScheme. *)
Definition projectable (entity : val) : Prop :=
  Js.nullish entity = true \/
  Js.nullish (field entity ["PartyTaxScheme"]) = false.

Definition projection (entity : val) : Entity :=
  {| nit := or_default (field entity ["PartyTaxScheme"; "CompanyID"]) "";
     nombre := or_default (field entity ["PartyTaxScheme"; "RegistrationName"]) "" |}.

(** Events that only look: file reads and reports. *)
Definition reads_only (e : event) : bool :=
  match e with
  | EAccess _ | EReadFile _ | EConsoleLog _ | ELog _ _ _ => true
  | _ => false
  end.

(** The entry paths drained, in order. *)
Fixpoint autodrained (t : list event) : list string :=
  match t with
  | [] => []
  | EAutodrain p :: rest => p :: autodrained rest
  | _ :: rest => autodrained rest
  end.

(** The paths written to, in order. *)
Fixpoint written (t : list event) : list string :=
  match t with
  | [] => []
  | EWriteFile p _ :: rest => p :: written rest
  | _ :: rest => written rest
  end.

(** The routines started, in order. *)
Fixpoint spawned (t : list event) : list Task :=
  match t with
  | [] => []
  | ESpawn task :: rest => task :: spawned rest
  | _ :: rest => spawned rest
  end.

(** What the fatal path of a cycle requests. *)
Definition is_shutdown (e : event) : bool :=
  match e with
  | ELockRelease | ELogout | EProcessExit _ => true
  | _ => false
  end.

Definition not_shutdown (e : event) : bool := negb (is_shutdown e).

(** What [#processMessage] may request. *)
Definition routing_only (e : event) : bool :=
  match e with
  | EMkdtemp _ | ESpawn _ => true
  | _ => false
  end.

(** What the [catch] block of [#fetchMessages] reports before it shuts
    the session down. *)
Definition fatal_report (e : exn) : list event :=
  (EConsoleError e
   :: (if instanceof_Error e then [ELog LError (Text (message_of e)) None] else []))%list.

(** The paths one entry is written to. *)
Definition entry_targets (tmpdir : string) (entry : Entry) : list string :=
  ((if JsString.includes ".xml" (path entry)
    then [(tmpdir ++ "/" ++ path entry)%string] else [])
   ++ (if JsString.includes ".pdf" (path entry)
       then [(tmpdir ++ "/" ++ path entry)%string] else []))%list.

(** What the [catch] block of [#processZipNode] requests for an error the
    routine built itself. *)
Definition failure_trace (env : Env) (tmpdir : string) (msg : FetchMessageObject)
    (message : string) : list event :=
  ([EConsoleError (Error message);
    ELog LError (Fields [("output", VStr ""); ("error", VStr message)])
         (Some "Could not process mail data");
    ERm tmpdir]
   ++ move_trace env (uid_toString msg) (BAD_MAILBOX env))%list.

(** The message a started routine works on. *)
Definition task_message (t : Task) : FetchMessageObject :=
  match t with
  | XmlPdfTask _ _ m | ZipTask _ _ m => m
  end.

(** A message for which a routine is started. *)
Definition is_routed (m : FetchMessageObject) : bool :=
  match childNodes (bodyStructure m) with
  | Some nodes =>
      match strategy (classify nodes) with
      | Skip => false
      | _ => true
      end
  | None => false
  end.

(** How the [catch] block of [#fetchMessages] ends, after [logout]. *)
Definition shutdown_trace (env : Env) (e : exn) : list event :=
  (fatal_report e
   ++ [ELockRelease; ELogout]
   ++ match logout env with
      | Ok _ => [EProcessExit 1]
      | Throw _ => []
      end)%list.

Definition shutdown_completion (env : Env) : completion unit :=
  match logout env with
  | Ok _ => Exit 1
  | Throw e => Raise e
  end.

(** A message routed to the direct pair. *)
Definition is_direct (m : FetchMessageObject) : bool :=
  match strategy_of m with
  | Some (DirectPair _ _) => true
  | _ => false
  end.

(** The ways a cycle that is past its guards ends, after what it
    requested for routing: it returns; the process ends on a rejection
    that nothing handles; the [catch] block shuts the session down; the
    process ends on such a rejection while the [catch] block waits for
    the logout. *)
Inductive cycle_end (env : Env) : completion unit -> list event -> Prop :=
| Returns : cycle_end env (Return tt) []
| Dies (rejection : exn) :
    cycle_end env (Exit 1) [EUnhandledRejection rejection]
| ShutsDown (e : exn) :
    cycle_end env (shutdown_completion env) (shutdown_trace env e)
| DiesAtLogout (e rejection : exn) :
    logout_at_hand env = false ->
    cycle_end env (Exit 1)
      (fatal_report e ++ [ELockRelease; ELogout; EUnhandledRejection rejection])%list.

Module Cases.

(** An AttachedDocument with an embedded invoice and both parties. *)
Definition attached : val :=
  VObj [("ID", VStr "AD-1"); ("UUID", VStr "cufe-1");
        ("IssueDate", VStr "2024-02-03");
        ("ParentDocumentID", VStr "FV-77");
        ("Attachment",
         VObj [("ExternalReference",
                VObj [("Description", VObj [("__cdata", VStr "<Invoice/>")])])]);
        ("SenderParty",
         VObj [("PartyTaxScheme",
                VObj [("CompanyID", VStr "900"); ("RegistrationName", VStr "ACME")])]);
        ("AccountingCustomerParty", Sample.party "800" "Buyer")].

Definition embedded : val :=
  VObj [("Invoice",
         VObj [("ID", VStr "FV-77");
               ("LegalMonetaryTotal", VObj [("PayableAmount", VNum (1500 # 1)%Q)])])].

Definition reparse (v : val) : result val :=
  match v with
  | VStr "<Invoice/>" => Ok embedded
  | _ => Ok (VObj [])
  end.

(** An archive with a text file only. *)
Definition readme : Entry := {| path := "README.txt"; data := "hello" |}.

(** An entry whose path holds both [.xml] and [.pdf]. *)
Definition both : Entry := {| path := "f.xml.pdf"; data := "doc" |}.

(** A plain message: its structure has no child nodes. *)
Definition plain_message : FetchMessageObject :=
  {| uid := 9; bodyStructure := {| childNodes := None |} |}.

(** A download that is over the size ceiling. *)
Definition oversized (w : Env) : Env :=
  {| ATTACHMENTS_PATH := ATTACHMENTS_PATH w;
     GOOD_MAILBOX := GOOD_MAILBOX w;
     BAD_MAILBOX := BAD_MAILBOX w;
     now := now w;
     xml_parse := xml_parse w;
     JSON_stringify := JSON_stringify w;
     mailbox_is_boolean := mailbox_is_boolean w;
     usable := usable w;
     fetch := fetch w;
     fetch_at_hand := fetch_at_hand w;
     download := fun _ _ =>
       Ok {| content := "PK";
             meta := {| meta_filename := "big.zip";
                        expectedSize := 4 * 1024 * 1024 + 1 |} |};
     messageMove := messageMove w;
     logout := logout w;
     logout_at_hand := logout_at_hand w;
     unzip := unzip w;
     mkdir := mkdir w;
     mkdtemp := mkdtemp w;
     writeFile_rejects := writeFile_rejects w;
     exec := exec w |}.

(** The same world with other messages to fetch and another archive. *)
Definition with_mail (w : Env) (mail : list FetchMessageObject * option exn)
    (archive : list Entry * option exn) : Env :=
  {| ATTACHMENTS_PATH := ATTACHMENTS_PATH w;
     GOOD_MAILBOX := GOOD_MAILBOX w;
     BAD_MAILBOX := BAD_MAILBOX w;
     now := now w;
     xml_parse := xml_parse w;
     JSON_stringify := JSON_stringify w;
     mailbox_is_boolean := mailbox_is_boolean w;
     usable := usable w;
     fetch := mail;
     fetch_at_hand := fetch_at_hand w;
     download := download w;
     messageMove := messageMove w;
     logout := logout w;
     logout_at_hand := logout_at_hand w;
     unzip := fun _ => archive;
     mkdir := mkdir w;
     mkdtemp := mkdtemp w;
     writeFile_rejects := writeFile_rejects w;
     exec := exec w |}.

(** The same world in which every answer of the enumeration takes a turn
    of the event loop. *)
Definition slow (w : Env) : Env :=
  {| ATTACHMENTS_PATH := ATTACHMENTS_PATH w;
     GOOD_MAILBOX := GOOD_MAILBOX w;
     BAD_MAILBOX := BAD_MAILBOX w;
     now := now w;
     xml_parse := xml_parse w;
     JSON_stringify := JSON_stringify w;
     mailbox_is_boolean := mailbox_is_boolean w;
     usable := usable w;
     fetch := fetch w;
     fetch_at_hand := fun _ => false;
     download := download w;
     messageMove := messageMove w;
     logout := logout w;
     logout_at_hand := logout_at_hand w;
     unzip := unzip w;
     mkdir := mkdir w;
     mkdtemp := mkdtemp w;
     writeFile_rejects := writeFile_rejects w;
     exec := exec w |}.

(** A world whose XML parser refuses every input. *)
Definition unparsable (w : Env) : Env :=
  {| ATTACHMENTS_PATH := ATTACHMENTS_PATH w;
     GOOD_MAILBOX := GOOD_MAILBOX w;
     BAD_MAILBOX := BAD_MAILBOX w;
     now := now w;
     xml_parse := fun _ => Throw (Error "Unexpected end of input");
     JSON_stringify := JSON_stringify w;
     mailbox_is_boolean := mailbox_is_boolean w;
     usable := usable w;
     fetch := fetch w;
     fetch_at_hand := fetch_at_hand w;
     download := download w;
     messageMove := messageMove w;
     logout := logout w;
     logout_at_hand := logout_at_hand w;
     unzip := unzip w;
     mkdir := mkdir w;
     mkdtemp := mkdtemp w;
     writeFile_rejects := writeFile_rejects w;
     exec := exec w |}.

End Cases.


(* ================================================================== *)
(** ** The Billing Extractor *)

Section ExtractorFacts.

Variable xml_parse : val -> result val.

Lemma field_absent (path : list string) : field VUndefined path = VUndefined.
Proof. destruct path; reflexivity. Qed.

Lemma field_cons (v : val) (k : string) (rest : list string) :
  field v (k :: rest) = field (field v [k]) rest.
Proof.
  destruct v; simpl; try (symmetry; apply field_absent); reflexivity.
Qed.

Lemma get_field (v : val) (k : string) :
  Js.nullish v = false -> v ! k = Ok (field v [k]).
Proof. destruct v; simpl; intros H; try discriminate H; reflexivity. Qed.

Lemma opt_field (a : val) (k : string) :
  (a ?. (fun a => a ! k)) = Ok (field a [k]).
Proof. destruct a; reflexivity. Qed.

Lemma opt_field2 (a : val) (k1 k2 : string) :
  (a ?. (fun a => let? i := a ! k1 in i ?. (fun i => i ! k2)))
  = Ok (field a [k1; k2]).
Proof.
  destruct a; try reflexivity.
  change (Js.lookup k1 fields ?. (fun i => i ! k2)
          = Ok (field (Js.lookup k1 fields) [k2])).
  apply opt_field.
Qed.

(** The link through ParentDocumentLineReference, on a document whose
    reference is complete. *)
Lemma reference_link (document : val) :
  Js.nullish document = false ->
  reference_complete document ->
  (let? r := document ! "ParentDocumentLineReference" in
   r ?. (fun r => let? d := r ! "DocumentReference" in d ! "ID"))
  = Ok (field document ["ParentDocumentLineReference"; "DocumentReference"; "ID"]).
Proof.
  intros Hdoc Href.
  rewrite (get_field _ _ Hdoc). cbn [rbind].
  rewrite (field_cons document "ParentDocumentLineReference" ["DocumentReference"; "ID"]).
  unfold reference_complete in Href.
  rewrite (field_cons document "ParentDocumentLineReference" ["DocumentReference"])
    in Href.
  remember (field document ["ParentDocumentLineReference"]) as r eqn:Er.
  clear Er. unfold Js.opt.
  destruct (Js.nullish r) eqn:Hr.
  - destruct r; try discriminate Hr; reflexivity.
  - destruct Href as [Href | Href]; [discriminate Href |].
    rewrite (get_field _ _ Hr). cbn [rbind].
    rewrite (field_cons r "DocumentReference" ["ID"]).
    apply get_field. exact Href.
Qed.

Lemma coalesce_Ok (v : val) (r : result val) :
  (Ok v ?? r) = if Js.nullish v then r else Ok v.
Proof. reflexivity. Qed.

Lemma coalesce_assoc (a b c : result val) : (a ?? b ?? c) = (a ?? (b ?? c)).
Proof.
  destruct a as [v | e]; [| reflexivity].
  unfold Js.coalesce.
  destruct (Js.nullish v) eqn:Hv; [reflexivity | now rewrite Hv].
Qed.

Lemma coalesce_tail (a b c : val) (d : string) :
  (Ok a ?? (Ok b ?? (Ok c ?? Ok (VStr d)))) = Ok (first_non_null [a; b; c] (VStr d)).
Proof. destruct a; destruct b; destruct c; reflexivity. Qed.

Lemma first_non_null_cons (v : val) (rest : list val) (d : val) :
  first_non_null (v :: rest) d
  = if Js.nullish v then first_non_null rest d else v.
Proof.
  unfold first_non_null. cbn [find]. destruct (Js.nullish v); reflexivity.
Qed.

Lemma coalesce_twice (v : val) (d : string) :
  (Ok v ?? Ok v ?? Ok (VStr d)) = Ok (or_default v d).
Proof. destruct v; reflexivity. Qed.

(** The ParentDocumentID link: ["null"] and an absent field both give way
    to the next link. *)
Lemma parent_link (document : val) (next : result val) :
  Js.nullish document = false ->
  ((let? p := document ! "ParentDocumentID" in
    if Js.strict_eq_str p "null" then Ok VNull
    else (document ! "ParentDocumentID") ?? Ok VNull) ?? next)
  = if Js.strict_eq_str (field document ["ParentDocumentID"]) "null" then next
    else if Js.nullish (field document ["ParentDocumentID"]) then next
         else Ok (field document ["ParentDocumentID"]).
Proof.
  intros Hdoc. rewrite (get_field _ _ Hdoc). cbn [rbind].
  destruct (Js.strict_eq_str (field document ["ParentDocumentID"]) "null");
    [reflexivity |].
  rewrite coalesce_Ok.
  destruct (Js.nullish (field document ["ParentDocumentID"])) eqn:Hp;
    [reflexivity |].
  rewrite coalesce_Ok, Hp. reflexivity.
Qed.

End ExtractorFacts.

(** The extractor finds the specification's Billing in the minimal
    Invoice once the Invoice carries an embedded attachment. *)
Lemma invoice_with_attachment_extracted :
  extractAttachmentBilling (fun _ => Ok (VObj [])) Sample.invoice_with_attachment
  = Ok Sample.expected_billing.
Proof. reflexivity. Qed.

(** C1: the minimal Invoice of the round-trip property (no Attachment
    element) is not turned into a Billing: [#extractAttachment] reads
    [document.Attachment.ExternalReference] off an absent [Attachment] and
    the extraction ends in a TypeError, whatever the XML parser is. *)
Theorem minimal_invoice_extraction_throws (xml_parse : val -> result val) :
  extractAttachmentBilling xml_parse Sample.minimal_invoice
  = Throw (TypeError "Cannot read properties of undefined (reading 'ExternalReference')").
Proof. reflexivity. Qed.

(** What [parse] makes of it: the TypeError is logged and replaced by the
    parser's own error. *)
Lemma minimal_invoice_parse_raises (env : Env) (xmlPath content : string) (fs : Files) :
  file_lookup xmlPath fs = Some content ->
  xml_parse env (VStr content) = Ok (VObj [("Invoice", Sample.minimal_invoice)]) ->
  completion_of (parse env xmlPath fs)
  = Raise (Error "Error al leer los datos de la factura").
Proof.
  intros Hfile Hxml.
  unfold parse, parseXML, fs_access, parseXML_read, parse_private, fs_readFile,
    bind, emit, completion_of.
  simpl. rewrite Hfile. simpl. rewrite Hfile. simpl. rewrite Hxml. reflexivity.
Qed.

(** C2 (as amended): the projection of a party entity is [{nit:'',
    nombre:''}] on an absent entity; on an entity that holds a
    PartyTaxScheme it is the scheme's CompanyID and RegistrationName, each
    replaced by [''] when absent; on an entity without PartyTaxScheme it
    is a TypeError. *)
Theorem extractEntityData_projection (entity : val) :
  if Js.nullish entity then extractEntityData entity = Ok empty_entity
  else if Js.nullish (field entity ["PartyTaxScheme"])
       then exists m, extractEntityData entity = Throw (TypeError m)
       else extractEntityData entity
            = Ok {| nit := or_default (field entity ["PartyTaxScheme"; "CompanyID"]) "";
                    nombre := or_default
                                (field entity ["PartyTaxScheme"; "RegistrationName"]) "" |}.
Proof.
  destruct (Js.nullish entity) eqn:He.
  - destruct entity; try discriminate He; reflexivity.
  - rewrite (field_cons entity "PartyTaxScheme" ["CompanyID"]).
    rewrite (field_cons entity "PartyTaxScheme" ["RegistrationName"]).
    unfold extractEntityData, Js.opt. rewrite He, (get_field _ _ He). cbn [rbind].
    remember (field entity ["PartyTaxScheme"]) as scheme eqn:Es. clear Es.
    destruct (Js.nullish scheme) eqn:Hs.
    + destruct scheme; try discriminate Hs; eexists; reflexivity.
    + rewrite !(get_field _ _ Hs), !coalesce_twice. reflexivity.
Qed.

(** C2, the claim as written fails: an entity that is there but has no
    PartyTaxScheme is not projected to empty strings, the projection
    throws; and so does the extraction from an AttachedDocument whose
    SenderParty is such an entity. *)
Lemma entity_without_tax_scheme_throws :
  field Sample.bare_entity ["PartyTaxScheme"] = VUndefined /\
  extractEntityData Sample.bare_entity
  = Throw (TypeError "Cannot read properties of undefined (reading 'CompanyID')") /\
  extractBilling (fun _ => Ok (VObj []))
    (VObj [("ID", VStr "X");
           ("Attachment",
            VObj [("ExternalReference",
                   VObj [("Description", VObj [("__cdata", VStr "<a/>")])])]);
           ("SenderParty", Sample.bare_entity)])
  = Throw (TypeError "Cannot read properties of undefined (reading 'CompanyID')").
Proof. repeat split. Qed.

(** C4 (as amended): on a document whose ParentDocumentLineReference, if
    any, holds a DocumentReference, the identifier is the first non-null
    link of the chain; a ParentDocumentID that is the string "null" is
    passed over and the chain goes on with AltID. *)
Theorem extractID_follows_chain (document attachment : val) :
  Js.nullish document = false ->
  reference_complete document ->
  extractID document attachment = Ok (id_chain document attachment) /\
  (field document ["ParentDocumentID"] = VStr "null" ->
   extractID document attachment
   = Ok (id_chain_without_parent document attachment)).
Proof.
  intros Hdoc Href.
  set (tail := first_non_null
                 [field document ["AltID"];
                  field document
                    ["ParentDocumentLineReference"; "DocumentReference"; "ID"];
                  field document ["ID"]] (VStr "")).
  assert (Hcode :
    extractID document attachment
    = if Js.nullish (field attachment ["ID"]) then
        if Js.nullish (field attachment ["Invoice"; "ID"]) then
          if Js.nullish (field attachment ["CreditNote"; "ID"]) then
            (if Js.strict_eq_str (field document ["ParentDocumentID"]) "null"
             then Ok tail
             else if Js.nullish (field document ["ParentDocumentID"])
                  then Ok tail
                  else Ok (field document ["ParentDocumentID"]))
          else Ok (field attachment ["CreditNote"; "ID"])
        else Ok (field attachment ["Invoice"; "ID"])
      else Ok (field attachment ["ID"])).
  { unfold extractID.
    rewrite opt_field, !opt_field2, (reference_link _ Hdoc Href).
    rewrite !coalesce_assoc, (parent_link _ _ Hdoc).
    rewrite !(get_field document) by exact Hdoc.
    rewrite coalesce_tail. fold tail.
    rewrite coalesce_Ok.
    destruct (Js.nullish (field attachment ["ID"])); [| reflexivity].
    rewrite coalesce_Ok.
    destruct (Js.nullish (field attachment ["Invoice"; "ID"])); [| reflexivity].
    rewrite coalesce_Ok.
    destruct (Js.nullish (field attachment ["CreditNote"; "ID"])); reflexivity. }
  split.
  - rewrite Hcode. unfold id_chain.
    do 4 rewrite first_non_null_cons. fold tail.
    destruct (Js.nullish (field attachment ["ID"])); [| reflexivity].
    destruct (Js.nullish (field attachment ["Invoice"; "ID"])); [| reflexivity].
    destruct (Js.nullish (field attachment ["CreditNote"; "ID"])); [| reflexivity].
    destruct (Js.strict_eq_str (field document ["ParentDocumentID"]) "null");
      [reflexivity |].
    destruct (Js.nullish (field document ["ParentDocumentID"])); reflexivity.
  - intros Hnull. rewrite Hcode, Hnull.
    change (Js.strict_eq_str (VStr "null") "null") with true. cbv iota.
    unfold id_chain_without_parent.
    do 3 rewrite first_non_null_cons. fold tail.
    destruct (Js.nullish (field attachment ["ID"])); [| reflexivity].
    destruct (Js.nullish (field attachment ["Invoice"; "ID"])); [| reflexivity].
    destruct (Js.nullish (field attachment ["CreditNote"; "ID"])); reflexivity.
Qed.


(* ================================================================== *)
(** ** Reasoning about methods with effects *)

Section Effects.

Context {A B : Type}.

Lemma confined_ret (q : event -> bool) (a : A) : confined q (ret a).
Proof. intros fs; split; [reflexivity | discriminate]. Qed.

Lemma confined_throw (q : event -> bool) (e : exn) : confined q (@throw A e).
Proof. intros fs; split; [reflexivity | discriminate]. Qed.

Lemma confined_lift (q : event -> bool) (r : result A) : confined q (lift r).
Proof. destruct r; [apply confined_ret | apply confined_throw]. Qed.

Lemma confined_bind (q : event -> bool) (m : M A) (k : A -> M B) :
  confined q m -> (forall a, confined q (k a)) -> confined q (bind m k).
Proof.
  intros Hm Hk fs. unfold bind, trace_of, completion_of.
  destruct (Hm fs) as [Ht Hc]. unfold trace_of, completion_of in Ht, Hc.
  destruct (m fs) as [[c fs1] t1]. simpl in Ht, Hc.
  destruct c as [a | e | code].
  - destruct (Hk a fs1) as [Ht2 Hc2]. unfold trace_of, completion_of in Ht2, Hc2.
    destruct (k a fs1) as [[c2 fs2] t2]. simpl in *.
    split; [rewrite forallb_app, Ht, Ht2; reflexivity | exact Hc2].
  - simpl. split; [exact Ht | discriminate].
  - exfalso. exact (Hc code eq_refl).
Qed.

Lemma confined_try_catch (q : event -> bool) (body : M A) (handler : exn -> M A) :
  confined q body -> (forall e, confined q (handler e)) ->
  confined q (try_catch body handler).
Proof.
  intros Hm Hk fs. unfold try_catch, trace_of, completion_of.
  destruct (Hm fs) as [Ht Hc]. unfold trace_of, completion_of in Ht, Hc.
  destruct (body fs) as [[c fs1] t1]. simpl in Ht, Hc.
  destruct c as [a | e | code].
  - simpl. split; [exact Ht | discriminate].
  - destruct (Hk e fs1) as [Ht2 Hc2]. unfold trace_of, completion_of in Ht2, Hc2.
    destruct (handler e fs1) as [[c2 fs2] t2]. simpl in *.
    split; [rewrite forallb_app, Ht, Ht2; reflexivity | exact Hc2].
  - exfalso. exact (Hc code eq_refl).
Qed.

Lemma confined_weaken (q q' : event -> bool) (m : M A) :
  (forall e, q e = true -> q' e = true) -> confined q m -> confined q' m.
Proof.
  intros Hq Hm fs. destruct (Hm fs) as [Ht Hc]. split; [| exact Hc].
  rewrite forallb_forall in *. intros e He. apply Hq, Ht, He.
Qed.

Lemma keeps_files_ret (a : A) : keeps_files (ret a).
Proof. intros fs; reflexivity. Qed.

Lemma keeps_files_throw (e : exn) : keeps_files (@throw A e).
Proof. intros fs; reflexivity. Qed.

Lemma keeps_files_lift (r : result A) : keeps_files (lift r).
Proof. destruct r; intros fs; reflexivity. Qed.

Lemma keeps_files_bind (m : M A) (k : A -> M B) :
  keeps_files m -> (forall a, keeps_files (k a)) -> keeps_files (bind m k).
Proof.
  intros Hm Hk fs. unfold bind, files_of. specialize (Hm fs). unfold files_of in Hm.
  destruct (m fs) as [[c fs1] t1]. simpl in Hm. subst fs1.
  destruct c as [a | e | code]; try reflexivity.
  specialize (Hk a fs). unfold files_of in Hk.
  destruct (k a fs) as [[c2 fs2] t2]. exact Hk.
Qed.

Lemma keeps_files_try_catch (body : M A) (handler : exn -> M A) :
  keeps_files body -> (forall e, keeps_files (handler e)) ->
  keeps_files (try_catch body handler).
Proof.
  intros Hm Hk fs. unfold try_catch, files_of. specialize (Hm fs).
  unfold files_of in Hm.
  destruct (body fs) as [[c fs1] t1]. simpl in Hm. subst fs1.
  destruct c as [a | e | code]; try reflexivity.
  specialize (Hk e fs). unfold files_of in Hk.
  destruct (handler e fs) as [[c2 fs2] t2]. exact Hk.
Qed.

End Effects.

Lemma confined_emit (q : event -> bool) (e : event) :
  q e = true -> confined q (emit e).
Proof.
  intros He fs; split; [simpl; rewrite He; reflexivity | discriminate].
Qed.

Lemma keeps_files_emit (e : event) : keeps_files (emit e).
Proof. intros fs; reflexivity. Qed.

(** Composition steps, for the goals [confined] and [keeps_files]. *)
Ltac effects_step :=
  first
    [ apply confined_bind; [| intros ? ]
    | apply confined_try_catch; [| intros ? ]
    | apply confined_ret
    | apply confined_throw
    | apply confined_lift
    | apply confined_emit; reflexivity
    | apply keeps_files_bind; [| intros ? ]
    | apply keeps_files_try_catch; [| intros ? ]
    | apply keeps_files_ret
    | apply keeps_files_throw
    | apply keeps_files_lift
    | apply keeps_files_emit ].

Section MethodFacts.

Variable env : Env.

Lemma confined_readFile (q : event -> bool) (p : string) :
  q (EReadFile p) = true -> confined q (fs_readFile p).
Proof.
  intros Hq fs. unfold fs_readFile, bind, emit, trace_of, completion_of. simpl.
  destruct (file_lookup p fs); simpl; rewrite Hq; split;
    try reflexivity; discriminate.
Qed.

Lemma keeps_files_readFile (p : string) : keeps_files (fs_readFile p).
Proof.
  intros fs. unfold fs_readFile, bind, emit, files_of. simpl.
  destruct (file_lookup p fs); reflexivity.
Qed.

Lemma confined_writeFile (q : event -> bool) (p c : string) :
  q (EWriteFile p c) = true -> confined q (fs_writeFile env p c).
Proof.
  intros Hq fs. unfold fs_writeFile, bind, emit, trace_of, completion_of. simpl.
  destruct (writeFile_rejects env p); simpl; rewrite Hq; split;
    try reflexivity; discriminate.
Qed.

Lemma confined_download (q : event -> bool) (uid p : string) :
  q (EDownload uid p) = true -> confined q (client_download env uid p).
Proof.
  intros Hq. unfold client_download. repeat effects_step.
  apply confined_emit, Hq.
Qed.

(** [#moveMessage] never throws, leaves the files alone and requests the
    same events whatever the files are. *)
Lemma moveMessage_run (uid : string) (mailbox : option string) (fs : Files) :
  moveMessage env uid mailbox fs = (Return tt, fs, move_trace env uid mailbox).
Proof.
  unfold move_trace, moveMessage, try_catch, bind, client_messageMove,
    log_info_fields, log_error_fields, console_error, emit, lift, trace_of.
  simpl. destruct (messageMove env uid mailbox) as [dest | e]; simpl.
  - reflexivity.
  - destruct (instanceof_Error e); reflexivity.
Qed.

(** It asks for the move once, between log entries. *)
Lemma move_trace_shape (uid : string) (mailbox : option string) :
  exists before after,
    move_trace env uid mailbox = (before ++ EMessageMove uid mailbox :: after)%list /\
    forallb preparatory (before ++ after)%list = true.
Proof.
  unfold move_trace, moveMessage, try_catch, bind, client_messageMove,
    log_info_fields, log_error_fields, console_error, emit, lift, trace_of.
  simpl. destruct (messageMove env uid mailbox) as [dest | e]; simpl.
  - eexists [_], [_]. split; reflexivity.
  - destruct (instanceof_Error e); eexists [_], [_; _]; split; reflexivity.
Qed.

Lemma confined_parseXML_read (xmlPath : string) :
  confined reads_only (parseXML_read env xmlPath).
Proof.
  unfold parseXML_read, parse_private, console_log, log_info, log_error_exn.
  repeat first
    [ apply confined_readFile; reflexivity
    | effects_step
    | match goal with
      | |- confined _ (if ?c then _ else _) => destruct c
      end ].
Qed.

Lemma keeps_files_parseXML_read (xmlPath : string) :
  keeps_files (parseXML_read env xmlPath).
Proof.
  unfold parseXML_read, parse_private, console_log, log_info, log_error_exn.
  repeat first
    [ apply keeps_files_readFile
    | effects_step
    | match goal with
      | |- keeps_files (if ?c then _ else _) => destruct c
      end ].
Qed.

(** [parse] leaves the files alone.  On a file that is there it only
    reads and reports; on a file that is not there it ends the process. *)
Lemma parse_run (xmlPath : string) (fs : Files) :
  files_of (parse env xmlPath fs) = fs /\
  match file_lookup xmlPath fs with
  | Some _ =>
      forallb reads_only (trace_of (parse env xmlPath fs)) = true /\
      forall code, completion_of (parse env xmlPath fs) <> Exit code
  | None =>
      parse env xmlPath fs
      = (Exit 1, fs,
         [EAccess xmlPath; EReadFile xmlPath;
          EUnhandledRejection
            (Rejected true
               (Some ("ENOENT: no such file or directory, access '"
                      ++ xmlPath ++ "'"))
               None)])
  end.
Proof.
  destruct (confined_parseXML_read xmlPath fs) as [Qr Xr].
  pose proof (keeps_files_parseXML_read xmlPath fs) as Fr.
  unfold parse, parseXML, fs_access, unhandled, bind, emit, throw, ret,
    files_of, trace_of, completion_of in *.
  cbn [fst snd app].
  destruct (file_lookup xmlPath fs) as [c |]; [| split; reflexivity].
  destruct (parseXML_read env xmlPath fs) as [[c1 fs1] t1].
  cbn [fst snd] in Qr, Xr, Fr. subst fs1.
  destruct c1 as [[b |] | e | code]; cbn [fst snd app].
  - destruct (negb (Js.truthy (id b))); cbn [fst snd app forallb reads_only andb];
      rewrite ?app_nil_r; (split; [reflexivity | split; [exact Qr | discriminate]]).
  - cbn [fst snd app forallb reads_only andb]. rewrite ?app_nil_r.
    split; [reflexivity | split; [exact Qr | discriminate]].
  - split; [reflexivity | split; [exact Qr | discriminate]].
  - exfalso. exact (Xr code eq_refl).
Qed.

End MethodFacts.

(* ================================================================== *)
(** ** The Attachment Router *)

Lemma find_app_first {X : Type} (f : X -> bool) (l1 l2 : list X) :
  find f (l1 ++ l2)%list
  = match find f l1 with
    | Some x => Some x
    | None => find f l2
    end.
Proof.
  induction l1 as [| x l1 IH]; simpl; [reflexivity |].
  destruct (f x); [reflexivity | exact IH].
Qed.

Lemma last_part_cons (suffix : string) (n : BodyNode) (nodes : list BodyNode) :
  last_part suffix (n :: nodes)
  = match last_part suffix nodes with
    | Some p => Some p
    | None => if part_names suffix n then Some (part n) else None
    end.
Proof.
  unfold last_part. simpl rev. rewrite find_app_first.
  destruct (find (part_names suffix) (rev nodes)); simpl; [reflexivity |].
  destruct (part_names suffix n); reflexivity.
Qed.

Lemma look_fields (sel : Selection) (n : BodyNode) :
  xmlNode (look sel n)
  = (if part_names ".xml" n then Some (part n) else xmlNode sel) /\
  pdfNode (look sel n)
  = (if part_names ".pdf" n then Some (part n) else pdfNode sel) /\
  zipNode (look sel n)
  = (if part_names ".zip" n then Some (part n) else zipNode sel).
Proof.
  unfold look, part_names.
  destruct (dispositionParameters n) as [params |]; [| repeat split].
  destruct (filename params) as [f |]; [| repeat split].
  destruct (JsString.is_empty f); [repeat split |].
  cbn [negb andb].
  destruct (names ".xml" f); destruct (names ".pdf" f);
    destruct (names ".zip" f); repeat split.
Qed.

Lemma classify_from (nodes : list BodyNode) (sel : Selection) :
  fold_left look nodes sel
  = {| xmlNode := or_else (last_part ".xml" nodes) (xmlNode sel);
       pdfNode := or_else (last_part ".pdf" nodes) (pdfNode sel);
       zipNode := or_else (last_part ".zip" nodes) (zipNode sel) |}.
Proof.
  revert sel. induction nodes as [| n nodes IH]; intros sel.
  - destruct sel; reflexivity.
  - cbn [fold_left]. rewrite IH, !last_part_cons.
    destruct (look_fields sel n) as [Hx [Hp Hz]]. rewrite Hx, Hp, Hz.
    unfold or_else.
    destruct (last_part ".xml" nodes); destruct (last_part ".pdf" nodes);
      destruct (last_part ".zip" nodes);
      destruct (part_names ".xml" n); destruct (part_names ".pdf" n);
      destruct (part_names ".zip" n); reflexivity.
Qed.

Lemma classify_last (nodes : list BodyNode) :
  classify nodes
  = {| xmlNode := last_part ".xml" nodes;
       pdfNode := last_part ".pdf" nodes;
       zipNode := last_part ".zip" nodes |}.
Proof.
  unfold classify. rewrite classify_from. unfold or_else, no_selection. simpl.
  destruct (last_part ".xml" nodes); destruct (last_part ".pdf" nodes);
    destruct (last_part ".zip" nodes); reflexivity.
Qed.

(** Which part the router keeps for a suffix, when every part carries a
    part path. *)
Lemma kept_part (suffix : string) (nodes : list BodyNode) :
  Forall (fun n => part n <> "") nodes ->
  truthy_node (last_part suffix nodes)
  = (if existsb (part_names suffix) nodes then last_part suffix nodes else None) /\
  (existsb (part_names suffix) nodes = true ->
   exists p, last_part suffix nodes = Some p).
Proof.
  intros Hparts. unfold last_part.
  destruct (find (part_names suffix) (rev nodes)) as [n |] eqn:Hfind.
  - apply find_some in Hfind. destruct Hfind as [Hin Hn].
    apply in_rev in Hin.
    assert (Hex : existsb (part_names suffix) nodes = true).
    { apply existsb_exists. exists n. split; assumption. }
    rewrite Hex. split; [| intros _; eexists; reflexivity].
    rewrite Forall_forall in Hparts. specialize (Hparts n Hin).
    simpl. destruct (part n); [contradiction | reflexivity].
  - assert (Hex : existsb (part_names suffix) nodes = false).
    { apply not_true_is_false. intros Hex.
      apply existsb_exists in Hex. destruct Hex as [n [Hin Hn]].
      rewrite (find_none _ _ Hfind n) in Hn; [discriminate |].
      apply in_rev in Hin. exact Hin. }
    rewrite Hex. split; [reflexivity | discriminate].
Qed.

(** C3 (as amended): for each of the three suffixes the router keeps the
    part path of the last part, in list order, whose filename contains
    the suffix; the classification is a total function of the part list. *)
Theorem router_keeps_last_match (nodes : list BodyNode) :
  xmlNode (classify nodes) = last_part ".xml" nodes /\
  pdfNode (classify nodes) = last_part ".pdf" nodes /\
  zipNode (classify nodes) = last_part ".zip" nodes.
Proof. rewrite classify_last. repeat split. Qed.

(** C3, the claim as written fails: with two parts named [a.xml] and
    [b.XML] the router keeps the second, not the first. *)
Lemma router_does_not_keep_first_match :
  first_part ".xml" Sample.two_xml_parts = Some "1" /\
  xmlNode (classify Sample.two_xml_parts) = Some "2" /\
  xmlNode (classify Sample.two_xml_parts) <> first_part ".xml" Sample.two_xml_parts.
Proof. repeat split. discriminate. Qed.

(** The strategy of a message that has a part list: when the list has a
    part named for [.xml] and one named for [.pdf], the direct-pair
    routine is started, even if a [.zip] part is there too; otherwise,
    when it has a part named for [.zip], a workspace is made and the
    bundle routine is started; otherwise nothing is requested and the
    method returns normally. *)
Lemma strategy_by_suffixes (env : Env) (msg : FetchMessageObject)
    (nodes : list BodyNode) (timestampDir : string) (fs : Files) :
  childNodes (bodyStructure msg) = Some nodes ->
  Forall (fun n => part n <> "") nodes ->
  if existsb (part_names ".xml") nodes && existsb (part_names ".pdf") nodes
  then exists x p,
      last_part ".xml" nodes = Some x /\ last_part ".pdf" nodes = Some p /\
      strategy (classify nodes) = DirectPair x p /\
      processMessage env msg timestampDir fs
      = (Return tt, fs, [ESpawn (XmlPdfTask x p msg)])
  else if existsb (part_names ".zip") nodes
  then exists z,
      last_part ".zip" nodes = Some z /\
      strategy (classify nodes) = Bundle z /\
      processMessage env msg timestampDir fs
      = match mkdtemp env timestampDir with
        | Ok tmpdir =>
            (Return tt, fs, [EMkdtemp timestampDir; ESpawn (ZipTask z tmpdir msg)])
        | Throw e => (Raise e, fs, [EMkdtemp timestampDir])
        end
  else strategy (classify nodes) = Skip /\
       processMessage env msg timestampDir fs = (Return tt, fs, []).
Proof.
  intros Hnodes Hparts.
  destruct (kept_part ".xml" nodes Hparts) as [Hx Hx'].
  destruct (kept_part ".pdf" nodes Hparts) as [Hp Hp'].
  destruct (kept_part ".zip" nodes Hparts) as [Hz Hz'].
  unfold processMessage. rewrite Hnodes.
  unfold strategy. rewrite classify_last. cbn [xmlNode pdfNode zipNode].
  rewrite Hx, Hp, Hz.
  destruct (existsb (part_names ".xml") nodes);
    destruct (existsb (part_names ".pdf") nodes); cbn [andb].
  - destruct (Hx' eq_refl) as [x Ex]. destruct (Hp' eq_refl) as [p Ep].
    rewrite Ex, Ep. exists x, p. repeat split.
  - destruct (Hx' eq_refl) as [x Ex]. rewrite Ex.
    destruct (existsb (part_names ".zip") nodes).
    + destruct (Hz' eq_refl) as [z Ez]. rewrite Ez. exists z.
      repeat split. unfold bind, fs_mkdtemp, emit, lift. simpl.
      destruct (mkdtemp env timestampDir); reflexivity.
    + split; reflexivity.
  - destruct (existsb (part_names ".zip") nodes).
    + destruct (Hz' eq_refl) as [z Ez]. rewrite Ez. exists z.
      repeat split. unfold bind, fs_mkdtemp, emit, lift. simpl.
      destruct (mkdtemp env timestampDir); reflexivity.
    + split; reflexivity.
  - destruct (existsb (part_names ".zip") nodes).
    + destruct (Hz' eq_refl) as [z Ez]. rewrite Ez. exists z.
      repeat split. unfold bind, fs_mkdtemp, emit, lift. simpl.
      destruct (mkdtemp env timestampDir); reflexivity.
    + split; reflexivity.
Qed.

(** A message whose structure has no part list is not skipped: the loop
    over [childNodes] throws. *)
Lemma single_part_message_throws (env : Env) (msg : FetchMessageObject)
    (timestampDir : string) (fs : Files) :
  childNodes (bodyStructure msg) = None ->
  processMessage env msg timestampDir fs
  = (Raise (TypeError "msg.bodyStructure.childNodes is not iterable"), fs, []).
Proof. intros H. unfold processMessage. rewrite H. reflexivity. Qed.

(** C7: a message that is not multipart, whatever its uid, is not skipped
    untouched and without error.  Its structure has no part list
    ([childNodes] is absent), so the loop of line 177 throws a TypeError
    before a strategy is chosen; nothing is requested for it. *)
Theorem plain_message_is_not_skipped (env : Env) (uid : N) (timestampDir : string)
    (fs : Files) :
  processMessage env
    {| uid := uid; bodyStructure := {| childNodes := None |} |} timestampDir fs
  = (Raise (TypeError "msg.bodyStructure.childNodes is not iterable"), fs, []).
Proof. apply single_part_message_throws. reflexivity. Qed.

(* ================================================================== *)
(** ** The direct-pair routine and the polling cycle *)

(** C8: [#processXmlPdfNode] names [msg], which is neither one of its
    parameters nor a name of the module.  Its [try] block throws a
    ReferenceError before any request is made; the [catch] block prints
    and logs it and throws the same error again.  Nothing else is
    requested: no download, no write, no build, no move. *)
Theorem processXmlPdfNode_raises_ReferenceError (env : Env)
    (xmlNode pdfNode : string) (surplus : list binding) (fs : Files) :
  processXmlPdfNode env xmlNode pdfNode surplus fs
  = (Raise (ReferenceError "msg is not defined"), fs,
     [EConsoleError (ReferenceError "msg is not defined");
      ELog LError (Fields [("error", VStr "msg is not defined")])
           (Some "Error processing Message")]).
Proof. reflexivity. Qed.

(** C10: when no mailbox is selected, or the client is not usable, a
    cycle whose timestamp directory is created requests nothing but that
    directory and returns normally: no fetch, no message is looked at. *)
Theorem idle_cycle_is_a_no_op (env : Env) (fs : Files) :
  mailbox_is_boolean env = true \/ usable env = false ->
  mkdir env (env_string (ATTACHMENTS_PATH env) ++ "/" ++ now env ++ "/") = Ok tt ->
  processMessages env fs
  = (Return tt, fs,
     [EMkdir (env_string (ATTACHMENTS_PATH env) ++ "/" ++ now env ++ "/")]).
Proof.
  intros Hidle Hmkdir.
  unfold processMessages, fetchMessages.
  set (timestampDir := env_string (ATTACHMENTS_PATH env) ++ "/" ++ now env ++ "/") in *.
  unfold bind, fs_mkdir, emit, lift. simpl.
  rewrite Hmkdir. simpl.
  destruct (mailbox_is_boolean env); [reflexivity |].
  destruct Hidle as [H | H]; [discriminate H |].
  rewrite H. reflexivity.
Qed.

(** When the directory cannot be created the cycle ends there, with the
    rejection of [mkdir]. *)
Lemma cycle_without_directory (env : Env) (fs : Files) (e : exn) :
  mkdir env (env_string (ATTACHMENTS_PATH env) ++ "/" ++ now env ++ "/") = Throw e ->
  processMessages env fs
  = (Raise e, fs,
     [EMkdir (env_string (ATTACHMENTS_PATH env) ++ "/" ++ now env ++ "/")]).
Proof.
  intros Hmkdir.
  unfold processMessages, fetchMessages.
  set (timestampDir := env_string (ATTACHMENTS_PATH env) ++ "/" ++ now env ++ "/") in *.
  unfold bind, fs_mkdir, emit, lift. simpl.
  rewrite Hmkdir. reflexivity.
Qed.

(* ================================================================== *)
(** ** The bundle routine *)

Local Open Scope list_scope.

(** A property of outcomes that holds of every failure after [q]-events
    and survives a prefix of [q]-events holds of [bind m k] as soon as it
    holds of every [k a]. *)
Lemma bind_prefix_at {A B : Type} (q : event -> bool)
    (P : completion B * Files * list event -> Prop) (m : M A) (k : A -> M B)
    (fs : Files) :
  forallb q (trace_of (m fs)) = true ->
  (forall code, completion_of (m fs) <> Exit code) ->
  (forall t e fs1, forallb q t = true -> P (Raise e, fs1, t)) ->
  (forall t c fs2 t2, forallb q t = true -> P (c, fs2, t2) -> P (c, fs2, t ++ t2)) ->
  (forall a fs1, P (k a fs1)) ->
  P (bind m k fs).
Proof.
  intros Ht Hc Hraise Hprefix Hk. unfold bind.
  unfold trace_of, completion_of in Ht, Hc.
  destruct (m fs) as [[c fs1] t1]. simpl in Ht, Hc.
  destruct c as [a | e | code].
  - specialize (Hk a fs1). destruct (k a fs1) as [[c2 fs2] t2].
    apply Hprefix; assumption.
  - apply Hraise, Ht.
  - exfalso. exact (Hc code eq_refl).
Qed.

Lemma bind_prefix {A B : Type} (q : event -> bool)
    (P : completion B * Files * list event -> Prop) (m : M A) (k : A -> M B) :
  confined q m ->
  (forall t e fs1, forallb q t = true -> P (Raise e, fs1, t)) ->
  (forall t c fs2 t2, forallb q t = true -> P (c, fs2, t2) -> P (c, fs2, t ++ t2)) ->
  (forall a fs1, P (k a fs1)) ->
  forall fs, P (bind m k fs).
Proof.
  intros Hm Hraise Hprefix Hk fs. destruct (Hm fs) as [Ht Hc].
  apply (bind_prefix_at q); assumption.
Qed.

Lemma forallb_weaken (q q' : event -> bool) (t : list event) :
  (forall e, q e = true -> q' e = true) ->
  forallb q t = true -> forallb q' t = true.
Proof.
  intros Hq Ht. rewrite forallb_forall in *. intros e He. apply Hq, Ht, He.
Qed.

Lemma preparatory_not_rm_nor_move (e : event) :
  preparatory e = true -> not_rm_nor_move e = true.
Proof. destruct e; simpl; intros H; try discriminate H; reflexivity. Qed.

Lemma preparatory_not_exec (e : event) :
  preparatory e = true -> not_exec e = true.
Proof. destruct e; simpl; intros H; try discriminate H; reflexivity. Qed.

Lemma reads_only_preparatory (e : event) :
  reads_only e = true -> preparatory e = true.
Proof. destruct e; simpl; intros H; try discriminate H; reflexivity. Qed.

Section BundleFacts.

Variable env : Env.

(** One turn of the loop never throws: a rejected write is reported and
    the entry is recorded all the same. *)
Lemma zip_entry_run (tmpdir : string) (st : ZipLocals) (entry : Entry) (fs : Files) :
  exists fs' t,
    zip_entry env tmpdir st entry fs = (Return (capture tmpdir st entry), fs', t) /\
    forallb preparatory t = true /\
    (forall e, JsString.includes ".xml" (path entry) = true ->
               writeFile_rejects env (tmpdir ++ "/" ++ path entry)%string = Some e ->
               In (EConsoleError e) t) /\
    (forall e, JsString.includes ".pdf" (path entry) = true ->
               writeFile_rejects env (tmpdir ++ "/" ++ path entry)%string = Some e ->
               instanceof_Error e = true ->
               In (ELog LError (Text (message_of e)) None) t).
Proof.
  unfold zip_entry, capture.
  remember (tmpdir ++ "/" ++ path entry)%string as p eqn:Ep. clear Ep.
  unfold bind, try_catch, fs_writeFile, bind, emit, ret, console_error,
    log_error_message.
  destruct (JsString.includes ".xml" (path entry));
    destruct (JsString.includes ".pdf" (path entry)); simpl;
    destruct (writeFile_rejects env p) as [e |];
    simpl; try destruct (instanceof_Error e) eqn:He; simpl;
    eexists _, _; (split; [reflexivity |]); (split; [reflexivity |]);
    split; intros e' Hin Hrej; try discriminate; try (injection Hrej as <-);
    try (intros He'; rewrite He' in He; try discriminate He);
    simpl; auto 10.
Qed.

Lemma zip_loop_run (tmpdir : string) (entries : list Entry)
    (stream_error : option exn) (st : ZipLocals) (fs : Files) :
  exists fs' t,
    zip_loop env tmpdir entries stream_error st fs
    = (match stream_error with
       | None => Return (fold_left (capture tmpdir) entries st)
       | Some e => Raise e
       end, fs', t) /\
    forallb preparatory t = true /\
    (forall entry e,
        In entry entries ->
        JsString.includes ".xml" (path entry) = true ->
        writeFile_rejects env (tmpdir ++ "/" ++ path entry)%string = Some e ->
        In (EConsoleError e) t) /\
    (forall entry e,
        In entry entries ->
        JsString.includes ".pdf" (path entry) = true ->
        writeFile_rejects env (tmpdir ++ "/" ++ path entry)%string = Some e ->
        instanceof_Error e = true ->
        In (ELog LError (Text (message_of e)) None) t).
Proof.
  revert st fs. induction entries as [| entry rest IH]; intros st fs.
  - simpl. destruct stream_error; eexists _, _;
      (split; [reflexivity |]); (split; [reflexivity |]);
      split; intros ? ? [].
  - destruct (zip_entry_run tmpdir st entry fs) as [fs1 [t1 [E1 [Q1 [X1 P1]]]]].
    destruct (IH (capture tmpdir st entry) fs1) as [fs2 [t2 [E2 [Q2 [X2 P2]]]]].
    exists fs2, (t1 ++ t2). cbn [zip_loop fold_left]. unfold bind at 1.
    rewrite E1, E2. split; [reflexivity |].
    split; [rewrite forallb_app, Q1, Q2; reflexivity |].
    split.
    + intros x e [<- | Hin] Hx Hrej; apply in_or_app; [left | right]; eauto.
    + intros x e [<- | Hin] Hx Hrej He; apply in_or_app; [left | right]; eauto.
Qed.

Lemma confined_zip_loop (tmpdir : string) (entries : list Entry)
    (stream_error : option exn) (st : ZipLocals) :
  confined preparatory (zip_loop env tmpdir entries stream_error st).
Proof.
  intros fs.
  destruct (zip_loop_run tmpdir entries stream_error st fs) as [fs' [t [E [Q _]]]].
  rewrite E. split; [exact Q |].
  unfold completion_of. simpl. destruct stream_error; discriminate.
Qed.

Lemma capture_sidecar (tmpdir : string) (st : ZipLocals) (entry : Entry) :
  sidecar_ok st -> sidecar_ok (capture tmpdir st entry).
Proof.
  unfold sidecar_ok, capture. intros Hst.
  destruct (JsString.includes ".xml" (path entry));
    destruct (JsString.includes ".pdf" (path entry)); simpl; auto.
Qed.

Lemma fold_capture_sidecar (tmpdir : string) (entries : list Entry) (st : ZipLocals) :
  sidecar_ok st -> sidecar_ok (fold_left (capture tmpdir) entries st).
Proof.
  revert st. induction entries as [| entry rest IH]; intros st Hst; simpl.
  - exact Hst.
  - apply IH, capture_sidecar, Hst.
Qed.

End BundleFacts.

Lemma bind_Return {A B : Type} (m : M A) (k : A -> M B) (fs fs1 : Files)
    (a : A) (t1 : list event) :
  m fs = (Return a, fs1, t1) ->
  bind m k fs = (completion_of (k a fs1), files_of (k a fs1), t1 ++ trace_of (k a fs1)).
Proof.
  intros Hm. unfold bind, completion_of, files_of, trace_of. rewrite Hm.
  destruct (k a fs1) as [[c fs2] t2]. reflexivity.
Qed.

Lemma bind_Raise {A B : Type} (m : M A) (k : A -> M B) (fs fs1 : Files)
    (e : exn) (t1 : list event) :
  m fs = (Raise e, fs1, t1) -> bind m k fs = (Raise e, fs1, t1).
Proof. intros Hm. unfold bind. rewrite Hm. reflexivity. Qed.

Lemma outcome_eta {A : Type} (out : completion A * Files * list event) :
  out = (completion_of out, files_of out, trace_of out).
Proof. destruct out as [[c fs] t]. reflexivity. Qed.

Lemma ends_with_raise (q : event -> bool) (suffix t : list event) (e : exn)
    (fs : Files) :
  forallb q t = true -> ends_with q suffix (Raise e, fs, t).
Proof. intros Ht. exists t. split; [exact Ht |]. left. exists e. split; reflexivity. Qed.

Lemma ends_with_prefix (q : event -> bool) (suffix t t2 : list event)
    (c : completion unit) (fs2 : Files) :
  forallb q t = true ->
  ends_with q suffix (c, fs2, t2) -> ends_with q suffix (c, fs2, t ++ t2).
Proof.
  intros Ht [t' [Ht' H]]. exists (t ++ t'). split.
  - rewrite forallb_app, Ht, Ht'. reflexivity.
  - unfold completion_of, trace_of in *. simpl in *.
    destruct H as [[e [Hc Htr]] | [Hc Htr]]; subst.
    + left. exists e. split; reflexivity.
    + right. split; [reflexivity | apply app_assoc].
Qed.

Section BundleOutcome.

Variable env : Env.
Variables (zipNode tmpdir : string) (msg : FetchMessageObject).

Lemma download_run (fs : Files) :
  client_download env (uid_toString msg) zipNode fs
  = (match download env (uid_toString msg) zipNode with
     | Ok d => Return d
     | Throw e => Raise e
     end, fs, [EDownload (uid_toString msg) zipNode]).
Proof.
  unfold client_download, bind, emit, lift. simpl.
  destruct (download env (uid_toString msg) zipNode); reflexivity.
Qed.

Lemma confined_exec (q : event -> bool) (cmd : Command) :
  (forall seen, q (EExec cmd seen) = true) -> confined q (run_exec env cmd).
Proof.
  intros Hq fs. unfold run_exec, trace_of, completion_of.
  destruct (exec env cmd fs); simpl; rewrite Hq; split;
    try reflexivity; discriminate.
Qed.

(** The [catch] block never throws: it reports, asks for the removal of
    the workspace, then moves the message to the failure mailbox. *)
Lemma processZipNode_catch_run (e : exn) (fs : Files) :
  processZipNode_catch env tmpdir msg e fs
  = (Return tt, fs,
     [EConsoleError e;
      ELog LError (Fields [("output", or_default (stdout_trim e) "");
                           ("error", or_default (message_of e) "")])
           (Some "Could not process mail data"%string);
      ERm tmpdir] ++ move_trace env (uid_toString msg) (BAD_MAILBOX env)).
Proof.
  unfold processZipNode_catch, bind, console_error, log_error_fields, fs_rm, emit.
  cbv beta iota. rewrite moveMessage_run. reflexivity.
Qed.

(** How the [try] block ends. *)
Lemma processZipNode_try_cases (fs : Files) :
  (exists e t, forallb preparatory t = true /\
               exists fs1, processZipNode_try env zipNode tmpdir msg fs = (Raise e, fs1, t))
  \/
  (exists d t1,
      download env (uid_toString msg) zipNode = Ok d /\
      snd (unzip env (content d)) = None /\
      forallb preparatory t1 = true /\
      let st := captured tmpdir (fst (unzip env (content d))) in
      let unpacked :=
        files_of (zip_loop env tmpdir (fst (unzip env (content d))) None zip_init fs) in
      processZipNode_try env zipNode tmpdir msg fs
      = (completion_of (zip_finish env tmpdir msg st unpacked),
         files_of (zip_finish env tmpdir msg st unpacked),
         t1 ++ trace_of (zip_finish env tmpdir msg st unpacked))).
Proof.
  unfold processZipNode_try.
  pose proof (download_run fs) as Hd.
  destruct (download env (uid_toString msg) zipNode) as [d | e] eqn:Edl.
  - rewrite (bind_Return _ _ _ _ _ _ Hd).
    destruct (expectedSize (meta d) >? 4 * 1024 * 1024)%Z.
    + left. eexists _, _. split; [| eexists; reflexivity]. reflexivity.
    + destruct (zip_loop_run env tmpdir (fst (unzip env (content d)))
                  (snd (unzip env (content d))) zip_init fs)
        as [fs1 [t1 [E1 [Q1 _]]]].
      destruct (snd (unzip env (content d))) as [e |] eqn:Ezip.
      * left. rewrite (bind_Raise _ _ _ _ _ _ E1). simpl.
        eexists _, _. split; [| eexists; reflexivity]. simpl. exact Q1.
      * right. exists d, (EDownload (uid_toString msg) zipNode :: t1).
        split; [reflexivity |]. split; [exact Ezip |]. split; [simpl; exact Q1 |].
        cbv zeta. rewrite (bind_Return _ _ _ _ _ _ E1), E1.
        unfold completion_of, files_of, trace_of. simpl. reflexivity.
  - left. rewrite (bind_Raise _ _ _ _ _ _ Hd).
    eexists _, _. split; [| eexists; reflexivity]. reflexivity.
Qed.

(** After the loop: a failure before any move or removal, or the move to
    the success mailbox followed by the removal request; or, when both
    entries were captured and the xml file is not there, the end of the
    process. *)
Lemma zip_finish_ends (st : ZipLocals) (fs : Files) :
  ends_with not_rm_nor_move
    (move_trace env (uid_toString msg) (GOOD_MAILBOX env) ++ [ERm tmpdir])
    (zip_finish env tmpdir msg st fs)
  \/
  (xml st <> None /\ pdf st <> None /\
   file_lookup (xmlPath st) fs = None /\
   completion_of (zip_finish env tmpdir msg st fs) = Exit 1 /\
   forallb not_rm_nor_move (trace_of (zip_finish env tmpdir msg st fs)) = true).
Proof.
  set (suffix := move_trace env (uid_toString msg) (GOOD_MAILBOX env) ++ [ERm tmpdir]).
  assert (Hraise : forall t e fs1, forallb not_rm_nor_move t = true ->
                     ends_with not_rm_nor_move suffix (Raise e, fs1, t)).
  { intros; apply ends_with_raise; assumption. }
  assert (Hprefix : forall t c fs2 t2, forallb not_rm_nor_move t = true ->
                     ends_with not_rm_nor_move suffix (c, fs2, t2) ->
                     ends_with not_rm_nor_move suffix (c, fs2, t ++ t2)).
  { intros; apply ends_with_prefix; assumption. }
  unfold zip_finish.
  destruct (xml st) as [x |]; [destruct (pdf st) as [p |] |];
    try (left; apply ends_with_raise; reflexivity).
  destruct (parse_run env (xmlPath st) fs) as [_ Hp].
  destruct (file_lookup (xmlPath st) fs) as [c |].
  - left. destruct Hp as [Qp Xp].
    apply (bind_prefix_at not_rm_nor_move (ends_with not_rm_nor_move suffix));
      [ apply (forallb_weaken reads_only); [| exact Qp];
        intros e He; apply preparatory_not_rm_nor_move, reads_only_preparatory, He
      | exact Xp | exact Hraise | exact Hprefix | ].
    intros billing fs1.
    destruct (negb (Js.truthy (Billing_to_val billing)));
      [apply ends_with_raise; reflexivity |].
    revert fs1.
    apply (bind_prefix not_rm_nor_move (ends_with not_rm_nor_move suffix));
      [ apply confined_writeFile; reflexivity | exact Hraise | exact Hprefix | ].
    intros _.
    apply (bind_prefix not_rm_nor_move (ends_with not_rm_nor_move suffix));
      [ apply confined_exec; reflexivity | exact Hraise | exact Hprefix | ].
    intros _ fs2.
    rewrite (bind_Return _ _ _ _ _ _ (moveMessage_run env _ _ fs2)).
    exists []. split; [reflexivity |]. right. split; reflexivity.
  - right. unfold bind. rewrite Hp.
    repeat split; discriminate.
Qed.

End BundleOutcome.

Section BundleTheorems.

Variable env : Env.
Variables (zipNode tmpdir : string) (msg : FetchMessageObject).

Lemma move_trace_not_exec (uid : string) (mailbox : option string) :
  forallb not_exec (move_trace env uid mailbox) = true.
Proof.
  destruct (move_trace_shape env uid mailbox) as [before [after [E Q]]].
  rewrite E. rewrite forallb_app in *. simpl.
  apply andb_true_iff in Q. destruct Q as [Qb Qa].
  rewrite (forallb_weaken _ _ _ preparatory_not_exec Qb).
  rewrite (forallb_weaken _ _ _ preparatory_not_exec Qa). reflexivity.
Qed.

Lemma writeFile_run (p c : string) (fs : Files) :
  fs_writeFile env p c fs
  = match writeFile_rejects env p with
    | Some e => (Raise e, fs, [EWriteFile p c])
    | None => (Return tt, (p, c) :: fs, [EWriteFile p c])
    end.
Proof.
  unfold fs_writeFile, bind, emit. simpl.
  destruct (writeFile_rejects env p); reflexivity.
Qed.

Lemma exec_run (cmd : Command) (fs : Files) :
  run_exec env cmd fs
  = (match exec env cmd fs with
     | Ok _ => Return tt
     | Throw e => Raise e
     end, fs, [EExec cmd fs]).
Proof. unfold run_exec. destruct (exec env cmd fs); reflexivity. Qed.

Lemma single_build_frame (st : ZipLocals) (unpacked : Files)
    (t1 t2 t3 : list event) :
  forallb not_exec t1 = true ->
  forallb not_exec t3 = true ->
  single_build env st unpacked t2 ->
  single_build env st unpacked (t1 ++ t2 ++ t3).
Proof.
  intros Q1 Q3 [Q2 | [pre [post [billing [E [Qpre [Qpost H]]]]]]].
  - left. rewrite !forallb_app, Q1, Q2, Q3. reflexivity.
  - right. exists (t1 ++ pre), (post ++ t3), billing.
    split; [| split; [| split]].
    + rewrite E, <- !app_assoc. reflexivity.
    + rewrite forallb_app, Q1, Qpre. reflexivity.
    + rewrite forallb_app, Qpost, Q3. reflexivity.
    + destruct H as [Hx [Hp [Hparse Hin]]].
      repeat split; try assumption. apply in_or_app. right. exact Hin.
Qed.

(** After the loop the builder is started at most once, and only once
    the serialized Billing is in the sidecar file. *)
Lemma zip_finish_build (st : ZipLocals) (fs : Files) :
  single_build env st fs (trace_of (zip_finish env tmpdir msg st fs)).
Proof.
  unfold zip_finish.
  destruct (xml st) as [x |] eqn:Ex; [| left; reflexivity].
  destruct (pdf st) as [p |] eqn:Epdf; [| left; reflexivity].
  destruct (parse_run env (xmlPath st) fs) as [Fp Rp].
  destruct (file_lookup (xmlPath st) fs) as [c |];
    [| left; unfold bind; rewrite Rp; reflexivity].
  destruct Rp as [Qp Xp].
  pose proof (outcome_eta (parse env (xmlPath st) fs)) as Hp.
  rewrite Fp in Hp.
  apply (forallb_weaken _ _ _ reads_only_preparatory) in Qp.
  apply (forallb_weaken _ _ _ preparatory_not_exec) in Qp.
  set (t1 := trace_of (parse env (xmlPath st) fs)) in *.
  destruct (completion_of (parse env (xmlPath st) fs)) as [billing | e | code] eqn:Cp.
  - rewrite (bind_Return _ _ _ _ _ _ Hp).
    change (negb (Js.truthy (Billing_to_val billing))) with false. cbv iota.
    set (content := JSON_stringify env (Billing_to_val billing)).
    set (cmd := buildCommand (jsonPath st) (xmlPath st) (pdfPath st)).
    pose proof (writeFile_run (jsonPath st) content fs) as Hw.
    destruct (writeFile_rejects env (jsonPath st)) as [e |].
    + rewrite (bind_Raise _ _ _ _ _ _ Hw). left. unfold trace_of. simpl.
      rewrite forallb_app, Qp. reflexivity.
    + rewrite (bind_Return _ _ _ _ _ _ Hw).
      pose proof (exec_run cmd ((jsonPath st, content) :: fs)) as Hx.
      right.
      destruct (exec env cmd ((jsonPath st, content) :: fs)) as [u | e].
      * rewrite (bind_Return _ _ _ _ _ _ Hx).
        rewrite (bind_Return _ _ _ _ _ _ (moveMessage_run env _ _ _)).
        exists (t1 ++ [EWriteFile (jsonPath st) content]),
          (move_trace env (uid_toString msg) (GOOD_MAILBOX env) ++ [ERm tmpdir]),
          billing.
        unfold trace_of. simpl.
        split; [rewrite <- app_assoc; reflexivity |].
        split; [rewrite forallb_app, Qp; reflexivity |].
        split; [rewrite forallb_app, move_trace_not_exec; reflexivity |].
        split; [rewrite Ex; discriminate |].
        split; [rewrite Epdf; discriminate |].
        split; [exact Cp |].
        apply in_or_app; right; left; reflexivity.
      * rewrite (bind_Raise _ _ _ _ _ _ Hx).
        exists (t1 ++ [EWriteFile (jsonPath st) content]), [], billing.
        unfold trace_of. simpl.
        split; [rewrite <- app_assoc; reflexivity |].
        split; [rewrite forallb_app, Qp; reflexivity |].
        split; [reflexivity |].
        split; [rewrite Ex; discriminate |].
        split; [rewrite Epdf; discriminate |].
        split; [exact Cp |].
        apply in_or_app; right; left; reflexivity.
  - rewrite (bind_Raise _ _ _ _ _ _ Hp). left. exact Qp.
  - exfalso. exact (Xp code eq_refl).
Qed.

Lemma catch_trace_not_exec (e : exn) (fs : Files) :
  forallb not_exec (trace_of (processZipNode_catch env tmpdir msg e fs)) = true.
Proof.
  rewrite processZipNode_catch_run. unfold trace_of. simpl.
  apply move_trace_not_exec.
Qed.

Lemma try_catch_trace {A : Type} (body : M A) (handler : exn -> M A) (fs : Files) :
  trace_of (try_catch body handler fs)
  = trace_of (body fs)
    ++ match body fs with
       | (Raise e, fs1, _) => trace_of (handler e fs1)
       | _ => []
       end.
Proof.
  unfold try_catch, trace_of.
  destruct (body fs) as [[c fs1] t1]. destruct c as [a | e | code]; simpl.
  - symmetry. apply app_nil_r.
  - destruct (handler e fs1) as [[c2 fs2] t2]. reflexivity.
  - symmetry. apply app_nil_r.
Qed.

Lemma processZipNode_build (fs : Files) :
  forallb not_exec (trace_of (processZipNode env zipNode tmpdir msg fs)) = true \/
  exists d,
    download env (uid_toString msg) zipNode = Ok d /\
    snd (unzip env (content d)) = None /\
    single_build env (captured tmpdir (fst (unzip env (content d))))
      (files_of (zip_loop env tmpdir (fst (unzip env (content d))) None zip_init fs))
      (trace_of (processZipNode env zipNode tmpdir msg fs)).
Proof.
  unfold processZipNode. rewrite try_catch_trace.
  destruct (processZipNode_try_cases env zipNode tmpdir msg fs)
    as [[e [t [Q [fs1 E]]]] | [d [t1 [Hd [Hzip [Q1 E]]]]]].
  - left. rewrite E. unfold trace_of at 1. simpl fst. simpl snd.
    rewrite forallb_app, (forallb_weaken _ _ _ preparatory_not_exec Q).
    apply catch_trace_not_exec.
  - right. exists d. split; [exact Hd |]. split; [exact Hzip |].
    cbv zeta in E. rewrite E.
    set (st := captured tmpdir (fst (unzip env (content d)))).
    set (unpacked := files_of (zip_loop env tmpdir (fst (unzip env (content d)))
                                 None zip_init fs)).
    unfold trace_of at 1. simpl snd.
    rewrite <- app_assoc.
    apply single_build_frame.
    + apply (forallb_weaken _ _ _ preparatory_not_exec Q1).
    + destruct (completion_of (zip_finish env tmpdir msg st unpacked));
        try reflexivity. apply catch_trace_not_exec.
    + apply zip_finish_build.
Qed.

End BundleTheorems.

Lemma capture_fields (tmpdir : string) (st : ZipLocals) (entry : Entry) :
  xml (capture tmpdir st entry)
  = (if JsString.includes ".xml" (path entry) then Some entry else xml st) /\
  pdf (capture tmpdir st entry)
  = (if JsString.includes ".pdf" (path entry) then Some entry else pdf st).
Proof.
  unfold capture.
  destruct (JsString.includes ".xml" (path entry));
    destruct (JsString.includes ".pdf" (path entry)); split; reflexivity.
Qed.

Lemma fold_capture_last (tmpdir : string) (entries : list Entry) (st : ZipLocals) :
  xml (fold_left (capture tmpdir) entries st)
  = or_else (find (fun e => JsString.includes ".xml" (path e)) (rev entries)) (xml st) /\
  pdf (fold_left (capture tmpdir) entries st)
  = or_else (find (fun e => JsString.includes ".pdf" (path e)) (rev entries)) (pdf st).
Proof.
  revert st. induction entries as [| entry rest IH]; intros st.
  - split; reflexivity.
  - cbn [fold_left rev]. destruct (IH (capture tmpdir st entry)) as [Hx Hp].
    destruct (capture_fields tmpdir st entry) as [Cx Cp].
    rewrite Hx, Hp, Cx, Cp, !find_app_first. unfold or_else. cbn [find].
    split.
    + destruct (find (fun e => JsString.includes ".xml" (path e)) (rev rest));
        [reflexivity |].
      destruct (JsString.includes ".xml" (path entry)); reflexivity.
    + destruct (find (fun e => JsString.includes ".pdf" (path e)) (rev rest));
        [reflexivity |].
      destruct (JsString.includes ".pdf" (path entry)); reflexivity.
Qed.

(** C5 (as amended): a write that is rejected for an entry whose path
    contains [.xml] or [.pdf] is reported (the xml one on the console, the
    pdf one in the log when it is an Error) and the loop goes on to the
    end of the archive without throwing; the entry is recorded as captured
    all the same: the locals the loop leaves are the last entries whose
    paths contain [.xml] and [.pdf], whatever became of their writes. *)
Theorem rejected_write_is_reported_and_entry_kept (env : Env) (tmpdir : string)
    (entries : list Entry) (fs : Files) :
  exists fs' t,
    zip_loop env tmpdir entries None zip_init fs
    = (Return (captured tmpdir entries), fs', t) /\
    xml (captured tmpdir entries)
    = find (fun e => JsString.includes ".xml" (path e)) (rev entries) /\
    pdf (captured tmpdir entries)
    = find (fun e => JsString.includes ".pdf" (path e)) (rev entries) /\
    (forall entry e,
        In entry entries ->
        JsString.includes ".xml" (path entry) = true ->
        writeFile_rejects env (tmpdir ++ "/" ++ path entry)%string = Some e ->
        In (EConsoleError e) t) /\
    (forall entry e,
        In entry entries ->
        JsString.includes ".pdf" (path entry) = true ->
        writeFile_rejects env (tmpdir ++ "/" ++ path entry)%string = Some e ->
        instanceof_Error e = true ->
        In (ELog LError (Text (message_of e)) None) t).
Proof.
  destruct (zip_loop_run env tmpdir entries None zip_init fs)
    as [fs' [t [E [_ [X P]]]]].
  destruct (fold_capture_last tmpdir entries zip_init) as [Hx Hp].
  exists fs', t. split; [exact E |].
  unfold captured. rewrite Hx, Hp. unfold or_else. simpl.
  split;
    [destruct (find (fun e => JsString.includes ".xml" (path e)) (rev entries));
     reflexivity |].
  split;
    [destruct (find (fun e => JsString.includes ".pdf" (path e)) (rev entries));
     reflexivity |].
  split; assumption.
Qed.

Lemma rejected_write_is_reported_and_entry_kept_witness :
  exists fs' t,
    zip_loop Sample.unwritable "/att/202401010000/Ab12Cd"
      [Sample.a_xml; Sample.a_pdf] None zip_init []
    = (Return (captured "/att/202401010000/Ab12Cd" [Sample.a_xml; Sample.a_pdf]),
       fs', t) /\
    In (EConsoleError Sample.EACCES) t.
Proof.
  destruct (rejected_write_is_reported_and_entry_kept Sample.unwritable
              "/att/202401010000/Ab12Cd" [Sample.a_xml; Sample.a_pdf] [])
    as [fs' [t [E [_ [_ [X _]]]]]].
  exists fs', t. split; [exact E |].
  apply (X Sample.a_xml); [left; reflexivity | reflexivity | reflexivity].
Defined.

(** C5, the claim as written fails: when every write is rejected the xml
    and pdf entries are captured nevertheless and no file is written; the
    bundle does not end with 'No contenía una factura válida': the routine
    goes on to parse the xml file that was never written, and the process
    ends there with code 1, on the rejection of the access check that
    nothing handles, before any failure of the message is reported. *)
Lemma unwritten_bundle_is_not_NoValidInvoice :
  let out := processZipNode Sample.unwritable "2" "/att/202401010000/Ab12Cd"
               (Sample.message []) [] in
  xml (captured "/att/202401010000/Ab12Cd" [Sample.a_xml; Sample.a_pdf])
  = Some Sample.a_xml /\
  pdf (captured "/att/202401010000/Ab12Cd" [Sample.a_xml; Sample.a_pdf])
  = Some Sample.a_pdf /\
  files_of out = [] /\
  completion_of out = Exit 1 /\
  nth_error (trace_of out) 7 = Some (EAccess "/att/202401010000/Ab12Cd/a.xml") /\
  nth_error (trace_of out) 9
  = Some (EUnhandledRejection
            (Rejected true
               (Some "ENOENT: no such file or directory, access '/att/202401010000/Ab12Cd/a.xml'")
               None)) /\
  processing_errors (trace_of out) = [] /\
  processing_errors (trace_of out) <> [VStr "No contenía una factura válida"].
Proof. vm_compute. repeat split. discriminate. Qed.

(** C6 (as amended): under the bundle strategy the routine, when it comes
    to its end, returns normally, having asked once for the removal of the
    workspace and once for a move of the message: when the message goes to
    the failure mailbox the removal is requested before the move, when it
    goes to the success mailbox the removal is requested after the move.
    The one case in which it does not come to its end is told apart: both
    entries were captured and the xml file is not in the workspace when it
    is parsed; then the process ends with code 1 and neither a removal nor
    a move was requested. *)
Theorem bundle_removal_request_order (env : Env) (zipNode tmpdir : string)
    (msg : FetchMessageObject) (fs : Files) :
  (exists pre mid post,
      forallb not_rm_nor_move (pre ++ mid ++ post) = true /\
      completion_of (processZipNode env zipNode tmpdir msg fs) = Return tt /\
      (trace_of (processZipNode env zipNode tmpdir msg fs)
       = pre ++ ERm tmpdir
             :: mid ++ EMessageMove (uid_toString msg) (BAD_MAILBOX env) :: post
       \/
       trace_of (processZipNode env zipNode tmpdir msg fs)
       = pre ++ EMessageMove (uid_toString msg) (GOOD_MAILBOX env)
             :: mid ++ ERm tmpdir :: post))
  \/
  (exists d,
      download env (uid_toString msg) zipNode = Ok d /\
      xml (captured tmpdir (fst (unzip env (content d)))) <> None /\
      pdf (captured tmpdir (fst (unzip env (content d)))) <> None /\
      file_lookup (xmlPath (captured tmpdir (fst (unzip env (content d)))))
        (files_of (zip_loop env tmpdir (fst (unzip env (content d))) None zip_init fs))
      = None /\
      completion_of (processZipNode env zipNode tmpdir msg fs) = Exit 1 /\
      forallb not_rm_nor_move (trace_of (processZipNode env zipNode tmpdir msg fs))
      = true).
Proof.
  destruct (move_trace_shape env (uid_toString msg) (BAD_MAILBOX env))
    as [bb [ba [Eb Qb]]].
  destruct (move_trace_shape env (uid_toString msg) (GOOD_MAILBOX env))
    as [gb [ga [Eg Qg]]].
  apply (forallb_weaken _ _ _ preparatory_not_rm_nor_move) in Qb, Qg.
  rewrite forallb_app in Qb, Qg.
  apply andb_true_iff in Qb, Qg. destruct Qb as [Qbb Qba]. destruct Qg as [Qgb Qga].
  assert (Hfail : forall e fs1 t,
    forallb not_rm_nor_move t = true ->
    processZipNode_try env zipNode tmpdir msg fs = (Raise e, fs1, t) ->
    exists pre mid post,
      forallb not_rm_nor_move (pre ++ mid ++ post) = true /\
      completion_of (processZipNode env zipNode tmpdir msg fs) = Return tt /\
      trace_of (processZipNode env zipNode tmpdir msg fs)
      = pre ++ ERm tmpdir
            :: mid ++ EMessageMove (uid_toString msg) (BAD_MAILBOX env) :: post).
  { intros e fs1 t Qt E. unfold processZipNode, try_catch. rewrite E.
    rewrite processZipNode_catch_run, Eb.
    exists (t ++ [EConsoleError e;
                  ELog LError
                    (Fields [("output"%string, or_default (stdout_trim e) "");
                             ("error"%string, or_default (message_of e) "")])
                    (Some "Could not process mail data"%string)]), bb, ba.
    split; [| split].
    - rewrite !forallb_app, Qt, Qbb, Qba. reflexivity.
    - reflexivity.
    - unfold trace_of. simpl. rewrite <- app_assoc. reflexivity. }
  destruct (processZipNode_try_cases env zipNode tmpdir msg fs)
    as [[e [t [Q [fs1 E]]]] | [d [t1 [Hd [Hzip [Q1 E]]]]]].
  - left. apply (forallb_weaken _ _ _ preparatory_not_rm_nor_move) in Q.
    destruct (Hfail e fs1 t Q E) as [pre [mid [post [H1 [H2 H3]]]]].
    exists pre, mid, post. auto.
  - cbv zeta in E.
    apply (forallb_weaken _ _ _ preparatory_not_rm_nor_move) in Q1.
    destruct (zip_finish_ends env tmpdir msg
                (captured tmpdir (fst (unzip env (content d))))
                (files_of (zip_loop env tmpdir (fst (unzip env (content d)))
                             None zip_init fs)))
      as [[t [Qt [[e [Hc Ht]] | [Hc Ht]]]] | [Hx [Hp [Hfile [Hc Qt]]]]].
    + left. rewrite Hc, Ht in E.
      assert (Q : forallb not_rm_nor_move (t1 ++ t) = true)
        by (rewrite forallb_app, Q1, Qt; reflexivity).
      destruct (Hfail e _ _ Q E) as [pre [mid [post [H1 [H2 H3]]]]].
      exists pre, mid, post. auto.
    + left. rewrite Hc, Ht in E.
      exists (t1 ++ t ++ gb), ga, []. split; [| split].
      * rewrite !forallb_app, Q1, Qt, Qgb, Qga. reflexivity.
      * unfold processZipNode, try_catch. rewrite E. reflexivity.
      * right. unfold processZipNode, try_catch. rewrite E, Eg.
        unfold trace_of. simpl. rewrite <- !app_assoc. reflexivity.
    + right. exists d. rewrite Hc in E.
      split; [exact Hd |]. split; [exact Hx |]. split; [exact Hp |].
      split; [exact Hfile |].
      unfold processZipNode, try_catch. rewrite E.
      split; [reflexivity |].
      unfold trace_of at 1. cbn [snd]. rewrite forallb_app, Q1, Qt. reflexivity.
Qed.

(** C6, the claim as written fails: on the success outcome of the bundle
    strategy the message is moved to the success mailbox first (event 12
    of the trace) and the removal of the workspace is requested only
    afterwards (event 14). *)
Lemma workspace_removal_follows_success_move :
  let out := processZipNode Sample.writable "2" "/att/202401010000/Ab12Cd"
               (Sample.message []) [] in
  completion_of out = Return tt /\
  position is_move (trace_of out) = Some 12%nat /\
  position is_rm (trace_of out) = Some 14%nat /\
  nth_error (trace_of out) 12 = Some (EMessageMove "7" (Some "GOOD"%string)).
Proof. vm_compute. repeat split. Qed.

(** C9: whenever the bundle routine starts the builder, the archive was
    unpacked to its end, both an xml and a pdf entry of it were captured,
    and the command is (jsonPath, xmlPath, pdfPath) with jsonPath the xml
    path in which the first [.xml] is replaced by [.json].  The xml file
    is among the files the unpacking left, [parse] returned a Billing for
    it on those very files, and before the start the serialized Billing
    was written to jsonPath: the builder finds the unpacked files and, on
    top of them, the sidecar that holds that Billing. *)
Theorem builder_finds_serialized_billing (env : Env) (zipNode tmpdir : string)
    (msg : FetchMessageObject) (fs : Files) (cmd : Command) (seen : Files) :
  In (EExec cmd seen) (trace_of (processZipNode env zipNode tmpdir msg fs)) ->
  exists d billing pre post,
    download env (uid_toString msg) zipNode = Ok d /\
    snd (unzip env (content d)) = None /\
    xml (captured tmpdir (fst (unzip env (content d)))) <> None /\
    pdf (captured tmpdir (fst (unzip env (content d)))) <> None /\
    cmd = buildCommand
            (JsString.replace ".xml" ".json"
               (xmlPath (captured tmpdir (fst (unzip env (content d))))))
            (xmlPath (captured tmpdir (fst (unzip env (content d)))))
            (pdfPath (captured tmpdir (fst (unzip env (content d))))) /\
    file_lookup (xmlInputPath cmd)
      (files_of (zip_loop env tmpdir (fst (unzip env (content d))) None zip_init fs))
    <> None /\
    completion_of
      (parse env (xmlInputPath cmd)
         (files_of (zip_loop env tmpdir (fst (unzip env (content d))) None zip_init fs)))
    = Return billing /\
    trace_of (processZipNode env zipNode tmpdir msg fs)
    = pre ++ EExec cmd seen :: post /\
    In (EWriteFile (jsonOutputPath cmd)
                   (JSON_stringify env (Billing_to_val billing))) pre /\
    seen
    = (jsonOutputPath cmd, JSON_stringify env (Billing_to_val billing))
      :: files_of (zip_loop env tmpdir (fst (unzip env (content d))) None zip_init fs) /\
    file_lookup (jsonOutputPath cmd) seen
    = Some (JSON_stringify env (Billing_to_val billing)).
Proof.
  intros Hin.
  assert (Hno : forall t, forallb not_exec t = true -> ~ In (EExec cmd seen) t).
  { intros t Qt Ht. rewrite forallb_forall in Qt. specialize (Qt _ Ht).
    discriminate Qt. }
  destruct (processZipNode_build env zipNode tmpdir msg fs)
    as [Q | [d [Hd [Hzip [Q | [pre [post [billing H]]]]]]]];
    try (exfalso; exact (Hno _ Q Hin)).
  destruct H as [E [Qpre [Qpost [Hx [Hp [Hparse Hw]]]]]].
  assert (Hside : sidecar_ok (captured tmpdir (fst (unzip env (content d))))).
  { apply fold_capture_sidecar. reflexivity. }
  unfold sidecar_ok in Hside.
  rewrite E in Hin. apply in_app_or in Hin.
  destruct Hin as [Hin | [Heq | Hin]];
    [exfalso; exact (Hno _ Qpre Hin) | | exfalso; exact (Hno _ Qpost Hin)].
  injection Heq as Hcmd Hseen.
  exists d, billing, pre, post.
  rewrite <- Hcmd, <- Hside, <- Hseen. cbn [jsonOutputPath xmlInputPath].
  split; [exact Hd |]. split; [exact Hzip |].
  split; [exact Hx |]. split; [exact Hp |]. split; [reflexivity |].
  split.
  { intros Hnone.
    destruct (parse_run env (xmlPath (captured tmpdir (fst (unzip env (content d)))))
                (files_of (zip_loop env tmpdir (fst (unzip env (content d)))
                             None zip_init fs))) as [_ Hrun].
    rewrite Hnone in Hrun. rewrite Hrun in Hparse. discriminate Hparse. }
  split; [exact Hparse |]. split; [exact E |]. split; [exact Hw |].
  split; [reflexivity |].
  cbn [file_lookup]. rewrite String.eqb_refl. reflexivity.
Qed.

Lemma builder_finds_serialized_billing_witness :
  exists d billing pre post,
    download Sample.writable "7" "2" = Ok d /\
    snd (unzip Sample.writable (content d)) = None /\
    xml (captured "/att/202401010000/Ab12Cd" (fst (unzip Sample.writable (content d))))
    <> None /\
    pdf (captured "/att/202401010000/Ab12Cd" (fst (unzip Sample.writable (content d))))
    <> None /\
    buildCommand "/att/202401010000/Ab12Cd/a.json" "/att/202401010000/Ab12Cd/a.xml"
      "/att/202401010000/Ab12Cd/a.pdf"
    = buildCommand
        (JsString.replace ".xml" ".json"
           (xmlPath (captured "/att/202401010000/Ab12Cd"
                       (fst (unzip Sample.writable (content d))))))
        (xmlPath (captured "/att/202401010000/Ab12Cd"
                    (fst (unzip Sample.writable (content d)))))
        (pdfPath (captured "/att/202401010000/Ab12Cd"
                    (fst (unzip Sample.writable (content d))))) /\
    file_lookup "/att/202401010000/Ab12Cd/a.xml"
      (files_of (zip_loop Sample.writable "/att/202401010000/Ab12Cd"
                   (fst (unzip Sample.writable (content d))) None zip_init []))
    <> None /\
    completion_of
      (parse Sample.writable "/att/202401010000/Ab12Cd/a.xml"
         (files_of (zip_loop Sample.writable "/att/202401010000/Ab12Cd"
                      (fst (unzip Sample.writable (content d))) None zip_init [])))
    = Return billing /\
    trace_of (processZipNode Sample.writable "2" "/att/202401010000/Ab12Cd"
                (Sample.message []) [])
    = pre ++ EExec (buildCommand "/att/202401010000/Ab12Cd/a.json"
                      "/att/202401010000/Ab12Cd/a.xml"
                      "/att/202401010000/Ab12Cd/a.pdf")
               [("/att/202401010000/Ab12Cd/a.json", "{json}");
                ("/att/202401010000/Ab12Cd/a.pdf", "%PDF");
                ("/att/202401010000/Ab12Cd/a.xml", "doc")]%string :: post /\
    In (EWriteFile "/att/202401010000/Ab12Cd/a.json"
          (JSON_stringify Sample.writable (Billing_to_val billing))) pre /\
    [("/att/202401010000/Ab12Cd/a.json", "{json}");
     ("/att/202401010000/Ab12Cd/a.pdf", "%PDF");
     ("/att/202401010000/Ab12Cd/a.xml", "doc")]%string
    = ("/att/202401010000/Ab12Cd/a.json"%string,
       JSON_stringify Sample.writable (Billing_to_val billing))
      :: files_of (zip_loop Sample.writable "/att/202401010000/Ab12Cd"
                     (fst (unzip Sample.writable (content d))) None zip_init []) /\
    file_lookup "/att/202401010000/Ab12Cd/a.json"
      [("/att/202401010000/Ab12Cd/a.json", "{json}");
       ("/att/202401010000/Ab12Cd/a.pdf", "%PDF");
       ("/att/202401010000/Ab12Cd/a.xml", "doc")]%string
    = Some (JSON_stringify Sample.writable (Billing_to_val billing)).
Proof.
  apply (builder_finds_serialized_billing Sample.writable "2"
           "/att/202401010000/Ab12Cd" (Sample.message []) []).
  vm_compute. do 10 right. left. reflexivity.
Defined.

(* ================================================================== *)
(** ** The statements at the sample inputs *)

Lemma extractID_follows_chain_witness :
  Js.nullish Sample.null_parent_alt = false /\
  reference_complete Sample.null_parent_alt /\
  extractID Sample.null_parent_alt (VObj []) = Ok (VStr "SETT-1"%string).
Proof.
  split; [reflexivity |]. split; [left; reflexivity |].
  exact (proj2 (extractID_follows_chain Sample.null_parent_alt (VObj [])
                  eq_refl (or_introl eq_refl)) eq_refl).
Defined.

(** C4, the claim as written fails: with ParentDocumentID "null" the chain
    goes on, and the document's own ID, here the string "null", is the
    identifier that comes out. *)
Lemma null_identifier_is_returned :
  field Sample.null_parent ["ParentDocumentID"%string] = VStr "null"%string /\
  extractID Sample.null_parent (VObj []) = Ok (VStr "null"%string).
Proof. split; reflexivity. Qed.

(** A ParentDocumentLineReference without DocumentReference, when the
    chain reaches it, ends the extraction in a TypeError. *)
Lemma reference_without_document_throws :
  extractID (VObj [("ParentDocumentLineReference"%string, VObj []);
                   ("ID"%string, VStr "7"%string)]) (VObj [])
  = Throw (TypeError "Cannot read properties of undefined (reading 'ID')"%string).
Proof. reflexivity. Qed.

Lemma strategy_by_suffixes_witness :
  exists x p,
    last_part ".xml" Sample.two_xml_parts = Some x /\
    last_part ".pdf" Sample.two_xml_parts = Some p /\
    strategy (classify Sample.two_xml_parts) = DirectPair x p /\
    processMessage Sample.writable (Sample.message Sample.two_xml_parts)
      "/att/202401010000/" []
    = (Return tt, [], [ESpawn (XmlPdfTask x p (Sample.message Sample.two_xml_parts))]).
Proof.
  refine (strategy_by_suffixes Sample.writable
            (Sample.message Sample.two_xml_parts) Sample.two_xml_parts
            "/att/202401010000/" [] eq_refl _).
  repeat constructor; discriminate.
Defined.

Lemma idle_cycle_is_a_no_op_witness :
  processMessages Sample.unselected []
  = (Return tt, [], [EMkdir "/att/202401010000/"]).
Proof.
  apply (idle_cycle_is_a_no_op Sample.unselected []);
    [left; reflexivity | reflexivity].
Defined.

(* ================================================================== *)
(** ** Further properties of the Billing Extractor *)

Local Open Scope string_scope.

Lemma coalesce_pair (a b d : val) :
  (Ok a ?? Ok b ?? Ok d) = Ok (first_non_null [a; b]%list d).
Proof. destruct a; destruct b; reflexivity. Qed.

(** A read off a path that ends in a string goes through an object. *)
Lemma get_on_path (v : val) (k : string) (rest : list string) (s : string) :
  field v (k :: rest)%list = VStr s -> Js.nullish v = false.
Proof. destruct v; simpl; intros H; try discriminate H; reflexivity. Qed.

Lemma projection_of_projectable (entity : val) :
  projectable entity -> extractEntityData entity = Ok (projection entity).
Proof.
  unfold projection. intros [He | Hs].
  - destruct entity; try discriminate He; reflexivity.
  - assert (He : Js.nullish entity = false).
    { destruct entity; try reflexivity; discriminate Hs. }
    rewrite (field_cons entity "PartyTaxScheme" ["CompanyID"]%list).
    rewrite (field_cons entity "PartyTaxScheme" ["RegistrationName"]%list).
    unfold extractEntityData, Js.opt. rewrite He, (get_field _ _ He). cbn [rbind].
    rewrite !(get_field _ _ Hs), !coalesce_twice. reflexivity.
Qed.

Lemma cufe_eq (document : val) :
  Js.nullish document = false ->
  extractCUFE document = Ok (cufe_chain document).
Proof.
  intros Hdoc. unfold extractCUFE, cufe_chain.
  rewrite !(get_field _ _ Hdoc). cbn [rbind].
  rewrite opt_field2.
  rewrite <- (field_cons document "ParentDocumentLineReference"
                ["DocumentReference"; "UUID"]%list).
  apply coalesce_pair.
Qed.

Lemma value_eq (attachment : val) :
  Js.nullish attachment = false ->
  extractValue attachment = Ok (value_chain attachment).
Proof.
  intros Ha. unfold extractValue, value_chain.
  rewrite (get_field _ _ Ha). cbn [rbind].
  rewrite !opt_field2.
  rewrite <- (field_cons attachment "Invoice"
                ["LegalMonetaryTotal"; "PayableAmount"]%list).
  apply coalesce_pair.
Qed.

Lemma attachment_eq (xml_parse : val -> result val) (document : val) (s : string) :
  cdata_of document = VStr s ->
  extractAttachment xml_parse document = xml_parse (VStr (strip_cdata s)).
Proof.
  unfold cdata_of. intros H.
  unfold extractAttachment.
  rewrite (get_field _ _ (get_on_path _ _ _ _ H)). cbn [rbind].
  rewrite field_cons in H.
  rewrite (get_field _ _ (get_on_path _ _ _ _ H)). cbn [rbind].
  rewrite field_cons in H.
  rewrite (get_field _ _ (get_on_path _ _ _ _ H)). cbn [rbind].
  rewrite field_cons in H.
  rewrite (get_field _ _ (get_on_path _ _ _ _ H)). cbn [rbind].
  rewrite H. reflexivity.
Qed.

(** X1: on every document that is an object or a primitive,
    [#extractCUFE] never throws: it is the UUID, else the UUID of
    ParentDocumentLineReference.DocumentReference, else the empty string;
    a reference without DocumentReference is passed over. *)
Theorem extractCUFE_chain (document : val) :
  Js.nullish document = false ->
  extractCUFE document = Ok (cufe_chain document).
Proof. exact (cufe_eq document). Qed.

Lemma extractCUFE_chain_witness :
  extractCUFE (VObj [("ParentDocumentLineReference", VObj [])]%list) = Ok (VStr "").
Proof. apply (extractCUFE_chain (VObj [("ParentDocumentLineReference", VObj [])]%list)). reflexivity. Defined.

(** X2: [#extractValue] reads [attachment.Invoice] unguarded: on an
    absent attachment it throws a TypeError; on any other it is the
    PayableAmount under Invoice.LegalMonetaryTotal, else the one under
    LegalMonetaryTotal, else the number 0. *)
Theorem extractValue_chain (attachment : val) :
  if Js.nullish attachment
  then exists m, extractValue attachment = Throw (TypeError m)
  else extractValue attachment = Ok (value_chain attachment).
Proof.
  destruct (Js.nullish attachment) eqn:Ha.
  - destruct attachment; try discriminate Ha; eexists; reflexivity.
  - exact (value_eq attachment Ha).
Qed.

Section EmbeddedDocument.

Variable xml_parse : val -> result val.

(** X3: when the document holds a string at
    Attachment.ExternalReference.Description.__cdata, the embedded
    document is what the XML parser makes of that string once its first
    [<![CDATA[] and then its first []]] are removed. *)
Theorem extractAttachment_reparses_cdata (document : val) (s : string) :
  cdata_of document = VStr s ->
  extractAttachment xml_parse document = xml_parse (VStr (strip_cdata s)).
Proof. exact (attachment_eq xml_parse document s). Qed.

(** X4: when there is no string at that place the extraction ends in a
    TypeError and the XML parser is not called: [#extractBilling] and
    [#extractAttachmentBilling] both start with this step, so neither
    returns a Billing for a document without embedded CDATA. *)
Theorem no_cdata_no_billing (document : val) :
  (forall s, cdata_of document <> VStr s) ->
  (exists m, extractAttachment xml_parse document = Throw (TypeError m)) /\
  (exists m, extractBilling xml_parse document = Throw (TypeError m)) /\
  (exists m, extractAttachmentBilling xml_parse document = Throw (TypeError m)).
Proof.
  intros Hno.
  assert (H : exists m, extractAttachment xml_parse document = Throw (TypeError m)).
  { unfold cdata_of in Hno. unfold extractAttachment.
    destruct (Js.nullish document) eqn:H0;
      [destruct document; try discriminate H0; eexists; reflexivity |].
    rewrite (get_field _ _ H0). cbn [rbind].
    rewrite (field_cons document "Attachment") in Hno.
    remember (field document ["Attachment"]%list) as a eqn:Ea. clear Ea.
    destruct (Js.nullish a) eqn:H1;
      [destruct a; try discriminate H1; eexists; reflexivity |].
    rewrite (get_field _ _ H1). cbn [rbind].
    rewrite (field_cons a "ExternalReference") in Hno.
    remember (field a ["ExternalReference"]%list) as r eqn:Er. clear Er.
    destruct (Js.nullish r) eqn:H2;
      [destruct r; try discriminate H2; eexists; reflexivity |].
    rewrite (get_field _ _ H2). cbn [rbind].
    rewrite (field_cons r "Description") in Hno.
    remember (field r ["Description"]%list) as d eqn:Ed. clear Ed.
    destruct (Js.nullish d) eqn:H3;
      [destruct d; try discriminate H3; eexists; reflexivity |].
    rewrite (get_field _ _ H3). cbn [rbind].
    destruct (field d ["__cdata"]%list) as [| | b | q | s | items | fields] eqn:Ec;
      try (eexists; reflexivity).
    exfalso. apply (Hno s). reflexivity. }
  destruct H as [m Hm]. repeat split; exists m.
  - exact Hm.
  - unfold extractBilling. rewrite Hm. reflexivity.
  - unfold extractAttachmentBilling. rewrite Hm. reflexivity.
Qed.

(** X5: what [#extractBilling] makes of an AttachedDocument whose
    embedded document parses to [attachment] and whose parties are absent
    or carry a PartyTaxScheme: the id is the one [#extractID] finds with
    the attachment, the cufe follows its chain, the date is IssueDate as
    it stands, the value is read off the attachment, and each party is
    SenderParty/ReceiverParty, else the Party of the accounting party. *)
Theorem extractBilling_fields (document attachment : val) (s : string) :
  cdata_of document = VStr s ->
  xml_parse (VStr (strip_cdata s)) = Ok attachment ->
  Js.nullish attachment = false ->
  projectable (party_of document "SenderParty" "AccountingSupplierParty") ->
  projectable (party_of document "ReceiverParty" "AccountingCustomerParty") ->
  extractBilling xml_parse document
  = let? i := extractID document attachment in
    Ok {| id := i;
          cufe := cufe_chain document;
          date := field document ["IssueDate"]%list;
          value := value_chain attachment;
          proveedor :=
            projection (party_of document "SenderParty" "AccountingSupplierParty");
          cliente :=
            projection (party_of document "ReceiverParty" "AccountingCustomerParty") |}.
Proof.
  intros Hc Hp Ha Hs Hr.
  assert (Hdoc : Js.nullish document = false) by exact (get_on_path _ _ _ _ Hc).
  assert (Hparty : forall direct accounting,
    ((document ! direct)
     ?? (let? p := document ! accounting in p ?. (fun p => p ! "Party")))
    = Ok (party_of document direct accounting)).
  { intros direct accounting. unfold party_of.
    rewrite !(get_field _ _ Hdoc). cbn [rbind]. rewrite opt_field.
    rewrite <- (field_cons document accounting ["Party"]%list).
    rewrite coalesce_Ok.
    destruct (Js.nullish (field document [direct]%list)); reflexivity. }
  unfold extractBilling.
  rewrite (attachment_eq _ _ _ Hc), Hp. cbn [rbind].
  destruct (extractID document attachment) as [i | e]; [| reflexivity].
  cbn [rbind].
  rewrite (cufe_eq document Hdoc). cbn [rbind].
  rewrite (get_field _ _ Hdoc). cbn [rbind].
  rewrite (value_eq attachment Ha). cbn [rbind].
  rewrite !Hparty. cbn [rbind].
  rewrite (projection_of_projectable _ Hs), (projection_of_projectable _ Hr).
  reflexivity.
Qed.

End EmbeddedDocument.

Lemma extractAttachment_reparses_cdata_witness :
  extractAttachment Cases.reparse Cases.attached = Ok Cases.embedded.
Proof.
  exact (extractAttachment_reparses_cdata Cases.reparse Cases.attached
           "<Invoice/>" eq_refl).
Defined.

Lemma no_cdata_no_billing_witness :
  exists m,
    extractAttachmentBilling Cases.reparse Sample.minimal_invoice
    = Throw (TypeError m).
Proof.
  apply (no_cdata_no_billing Cases.reparse Sample.minimal_invoice).
  intros s H. vm_compute in H. discriminate H.
Defined.

Lemma extractBilling_fields_witness :
  extractBilling Cases.reparse Cases.attached
  = Ok {| id := VStr "FV-77"; cufe := VStr "cufe-1"; date := VStr "2024-02-03";
          value := VNum (1500 # 1)%Q;
          proveedor := {| nit := VStr "900"; nombre := VStr "ACME" |};
          cliente := {| nit := VStr "800"; nombre := VStr "Buyer" |} |}.
Proof.
  exact (extractBilling_fields Cases.reparse Cases.attached Cases.embedded
           "<Invoice/>" eq_refl eq_refl eq_refl
           (or_intror eq_refl) (or_intror eq_refl)).
Defined.

Section InvoiceVariant.

Variable xml_parse : val -> result val.

(** X6: what [#extractAttachmentBilling] makes of an Invoice or
    CreditNote that has its embedded document and both accounting
    parties: the cufe is UUID as it stands, with no fallback; the value is
    read off the document itself, not off the embedded document; the
    parties are the Party of AccountingSupplierParty and of
    AccountingCustomerParty. *)
Theorem extractAttachmentBilling_fields (document attachment : val) (s : string) :
  cdata_of document = VStr s ->
  xml_parse (VStr (strip_cdata s)) = Ok attachment ->
  Js.nullish (field document ["AccountingSupplierParty"]%list) = false ->
  Js.nullish (field document ["AccountingCustomerParty"]%list) = false ->
  projectable (field document ["AccountingSupplierParty"; "Party"]%list) ->
  projectable (field document ["AccountingCustomerParty"; "Party"]%list) ->
  extractAttachmentBilling xml_parse document
  = let? i := extractID document attachment in
    Ok {| id := i;
          cufe := field document ["UUID"]%list;
          date := field document ["IssueDate"]%list;
          value := value_chain document;
          proveedor :=
            projection (field document ["AccountingSupplierParty"; "Party"]%list);
          cliente :=
            projection (field document ["AccountingCustomerParty"; "Party"]%list) |}.
Proof.
  intros Hc Hp Hs Hr Ps Pr.
  assert (Hdoc : Js.nullish document = false) by exact (get_on_path _ _ _ _ Hc).
  unfold extractAttachmentBilling.
  rewrite (attachment_eq _ _ _ Hc), Hp. cbn [rbind].
  destruct (extractID document attachment) as [i | e]; [| reflexivity].
  cbn [rbind].
  rewrite !(get_field _ _ Hdoc). cbn [rbind].
  rewrite (value_eq document Hdoc). cbn [rbind].
  rewrite (get_field _ _ Hs), (get_field _ _ Hr). cbn [rbind].
  rewrite <- (field_cons document "AccountingSupplierParty" ["Party"]%list).
  rewrite <- (field_cons document "AccountingCustomerParty" ["Party"]%list).
  rewrite (projection_of_projectable _ Ps). cbn [rbind].
  rewrite (projection_of_projectable _ Pr). reflexivity.
Qed.

(** X7: an Invoice or CreditNote without AccountingSupplierParty is not
    given an empty supplier: once the id is found, the unguarded read of
    its Party ends the extraction in a TypeError. *)
Theorem invoice_without_supplier_throws (document attachment : val) (s : string)
    (i : val) :
  cdata_of document = VStr s ->
  xml_parse (VStr (strip_cdata s)) = Ok attachment ->
  extractID document attachment = Ok i ->
  Js.nullish (field document ["AccountingSupplierParty"]%list) = true ->
  exists m, extractAttachmentBilling xml_parse document = Throw (TypeError m).
Proof.
  intros Hc Hp Hi Hs.
  assert (Hdoc : Js.nullish document = false) by exact (get_on_path _ _ _ _ Hc).
  unfold extractAttachmentBilling.
  rewrite (attachment_eq _ _ _ Hc), Hp. cbn [rbind]. rewrite Hi. cbn [rbind].
  rewrite !(get_field _ _ Hdoc). cbn [rbind].
  rewrite (value_eq document Hdoc). cbn [rbind].
  destruct (field document ["AccountingSupplierParty"]%list);
    try discriminate Hs; eexists; reflexivity.
Qed.

End InvoiceVariant.

Lemma extractAttachmentBilling_fields_witness :
  extractAttachmentBilling (fun _ => Ok (VObj []%list)) Sample.invoice_with_attachment
  = Ok Sample.expected_billing.
Proof.
  exact (extractAttachmentBilling_fields (fun _ => Ok (VObj []%list))
           Sample.invoice_with_attachment (VObj []%list) "<a/>"
           eq_refl eq_refl eq_refl eq_refl (or_intror eq_refl) (or_intror eq_refl)).
Defined.

Lemma invoice_without_supplier_throws_witness :
  exists m,
    extractAttachmentBilling (fun _ => Ok (VObj []%list))
      (VObj [("ID", VStr "X");
             ("Attachment",
              VObj [("ExternalReference",
                     VObj [("Description", VObj [("__cdata", VStr "<a/>")])])])]%list)
    = Throw (TypeError m).
Proof.
  apply (invoice_without_supplier_throws (fun _ => Ok (VObj []%list)) _
           (VObj []%list) "<a/>" (VStr "X")); reflexivity.
Defined.

(* ================================================================== *)
(** ** Further properties of [parse] *)

Lemma truthy_not_nullish (v : val) : Js.truthy v = true -> Js.nullish v = false.
Proof. destruct v; simpl; intros H; try discriminate H; reflexivity. Qed.

Lemma falsy_or (a b : val) :
  Js.truthy a = false -> Js.or (Ok a) (Ok b) = Ok b.
Proof. intros Ha. unfold Js.or. rewrite Ha. reflexivity. Qed.

Lemma truthy_or (a : val) (r : result val) :
  Js.truthy a = true -> Js.or (Ok a) r = Ok a.
Proof. intros Ha. unfold Js.or. rewrite Ha. reflexivity. Qed.

Section ParseFacts.

Variable env : Env.

(** X8: [parse] leaves the files as they are.  On a file that is there
    it only looks: whatever the parser answers, it requests nothing but
    the access check, the read and its reports, and does not end the
    process.  On a file that is not there it requests the access check
    and the read and the process ends with code 1, on the rejection of the
    access check that nothing awaits or catches. *)
Theorem parse_only_reads (xmlPath : string) (fs : Files) :
  files_of (parse env xmlPath fs) = fs /\
  match file_lookup xmlPath fs with
  | Some _ =>
      forallb reads_only (trace_of (parse env xmlPath fs)) = true /\
      forall code, completion_of (parse env xmlPath fs) <> Exit code
  | None =>
      parse env xmlPath fs
      = (Exit 1, fs,
         [EAccess xmlPath; EReadFile xmlPath;
          EUnhandledRejection
            (Rejected true
               (Some ("ENOENT: no such file or directory, access '"
                      ++ xmlPath ++ "'")%string)
               None)]%list)
  end.
Proof. apply parse_run. Qed.

(** X9: a Billing that [parse] returns has a truthy id: a record whose id
    is the empty string, the number 0 or absent never comes out. *)
Theorem parse_returns_identified (xmlPath : string) (fs : Files) (b : Billing) :
  completion_of (parse env xmlPath fs) = Return b ->
  Js.truthy (id b) = true.
Proof.
  unfold parse, bind, completion_of.
  destruct (parseXML env xmlPath fs) as [[c fs1] t1].
  destruct c as [[b' |] | e | code]; simpl; try discriminate.
  destruct (Js.truthy (id b')) eqn:Hid; simpl; try discriminate.
  intros H. injection H as <-. exact Hid.
Qed.

(** X10: when the parsed file has a truthy Invoice, the Invoice decides
    alone, whatever CreditNote or AttachedDocument stand beside it: its
    Billing is returned, and any error of its extraction is logged and
    replaced by 'Error al leer los datos de la factura'. *)
Theorem invoice_takes_precedence (xmlPath content : string) (fs : Files) (tree : val) :
  file_lookup xmlPath fs = Some content ->
  xml_parse env (VStr content) = Ok tree ->
  Js.truthy (field tree ["Invoice"]%list) = true ->
  parseXML env xmlPath fs
  = match extractAttachmentBilling (xml_parse env) (field tree ["Invoice"]%list) with
    | Ok b =>
        (Return (Some b), fs,
         [EAccess xmlPath; EReadFile xmlPath; EConsoleLog "Found an Invoice";
          ELog LInfo (Text (VStr "Found an Invoice")) None]%list)
    | Throw e =>
        (Raise (Error "Error al leer los datos de la factura"), fs,
         [EAccess xmlPath; EReadFile xmlPath; EConsoleLog "Found an Invoice";
          ELog LInfo (Text (VStr "Found an Invoice")) None;
          ELog LError (ErrObject e) (Some "Error al leer los datos de la factura")]%list)
    end.
Proof.
  intros Hfile Hxml Hinv.
  assert (Htree : Js.truthy tree = true).
  { destruct tree; try reflexivity; discriminate Hinv. }
  assert (Hnn : Js.nullish tree = false) by exact (truthy_not_nullish _ Htree).
  unfold parseXML, fs_access, parseXML_read, parse_private, fs_readFile,
    console_log, log_info, log_error_exn.
  unfold bind, try_catch, emit, lift, ret, throw.
  repeat (progress
    (rewrite ?Hfile, ?Hxml, ?Htree, ?Hinv, ?(get_field _ _ Hnn),
       ?(truthy_or _ _ Hinv);
     cbn -[Js.get Js.or Js.truthy field extractAttachmentBilling extractBilling])).
  destruct (extractAttachmentBilling (xml_parse env) (field tree ["Invoice"]%list));
    reflexivity.
Qed.

(** X11: a parsed file in which none of Invoice, AttachedDocument and
    CreditNote is truthy is refused with 'El XML no contiene datos
    válidos' before any extraction is tried. *)
Theorem unrecognized_document_is_refused (xmlPath content : string) (fs : Files)
    (tree : val) :
  file_lookup xmlPath fs = Some content ->
  xml_parse env (VStr content) = Ok tree ->
  Js.truthy tree = true ->
  Js.truthy (field tree ["Invoice"]%list) = false ->
  Js.truthy (field tree ["AttachedDocument"]%list) = false ->
  Js.truthy (field tree ["CreditNote"]%list) = false ->
  parse env xmlPath fs
  = (Raise (Error "El XML no contiene datos válidos"), fs,
     [EAccess xmlPath; EReadFile xmlPath]%list).
Proof.
  intros Hfile Hxml Htree Hi Ha Hc.
  assert (Hnn : Js.nullish tree = false) by exact (truthy_not_nullish _ Htree).
  unfold parse, parseXML, fs_access, parseXML_read, parse_private, fs_readFile.
  unfold bind, try_catch, emit, lift, ret, throw.
  repeat (progress
    (rewrite ?Hfile, ?Hxml, ?Htree, ?Hc, ?(get_field _ _ Hnn),
       ?(falsy_or _ _ Hi), ?(falsy_or _ _ Ha);
     cbn -[Js.get Js.or Js.truthy field extractAttachmentBilling extractBilling])).
  reflexivity.
Qed.

(** X12: what the XML parser throws on the file is passed on as it is,
    unlike the errors of extraction: nothing is logged and the error is
    not replaced. *)
Theorem parser_error_is_passed_on (xmlPath content : string) (fs : Files) (e : exn) :
  file_lookup xmlPath fs = Some content ->
  xml_parse env (VStr content) = Throw e ->
  parse env xmlPath fs = (Raise e, fs, [EAccess xmlPath; EReadFile xmlPath]%list).
Proof.
  intros Hfile Hxml.
  unfold parse, parseXML, fs_access, parseXML_read, parse_private, fs_readFile.
  unfold bind, try_catch, emit, lift, ret, throw.
  cbn -[Js.get Js.or Js.truthy field extractAttachmentBilling extractBilling].
  rewrite Hfile.
  cbn -[Js.get Js.or Js.truthy field extractAttachmentBilling extractBilling].
  rewrite Hfile.
  cbn -[Js.get Js.or Js.truthy field extractAttachmentBilling extractBilling].
  rewrite Hxml. reflexivity.
Qed.

End ParseFacts.

Lemma parse_returns_identified_witness :
  Js.truthy (id Sample.expected_billing) = true.
Proof.
  apply (parse_returns_identified Sample.writable "/w/a.xml"
           [("/w/a.xml", "doc")]%list Sample.expected_billing).
  reflexivity.
Defined.

Lemma invoice_takes_precedence_witness :
  parseXML Sample.writable "/w/a.xml" [("/w/a.xml", "doc")]%list
  = (Return (Some Sample.expected_billing), [("/w/a.xml", "doc")]%list,
     [EAccess "/w/a.xml"; EReadFile "/w/a.xml"; EConsoleLog "Found an Invoice";
      ELog LInfo (Text (VStr "Found an Invoice")) None]%list).
Proof.
  exact (invoice_takes_precedence Sample.writable "/w/a.xml" "doc"
           [("/w/a.xml", "doc")]%list
           (VObj [("Invoice", Sample.invoice_with_attachment)]%list)
           eq_refl eq_refl eq_refl).
Defined.

Lemma unrecognized_document_is_refused_witness :
  parse Sample.writable "/w/a.xml" [("/w/a.xml", "<Order/>")]%list
  = (Raise (Error "El XML no contiene datos válidos"),
     [("/w/a.xml", "<Order/>")]%list,
     [EAccess "/w/a.xml"; EReadFile "/w/a.xml"]%list).
Proof.
  apply (unrecognized_document_is_refused Sample.writable "/w/a.xml" "<Order/>"
           [("/w/a.xml", "<Order/>")]%list (VObj []%list)); reflexivity.
Defined.

Lemma parser_error_is_passed_on_witness :
  parse (Cases.unparsable Sample.writable) "/w/a.xml" [("/w/a.xml", "<In")]%list
  = (Raise (Error "Unexpected end of input"), [("/w/a.xml", "<In")]%list,
     [EAccess "/w/a.xml"; EReadFile "/w/a.xml"]%list).
Proof.
  apply (parser_error_is_passed_on (Cases.unparsable Sample.writable) "/w/a.xml"
           "<In" [("/w/a.xml", "<In")]%list); reflexivity.
Defined.

(* ================================================================== *)
(** ** Further properties of the bundle routine *)

Local Open Scope list_scope.

Lemma try_catch_Raise {A : Type} (body : M A) (handler : exn -> M A)
    (fs fs1 : Files) (e : exn) (t1 : list event) :
  body fs = (Raise e, fs1, t1) ->
  try_catch body handler fs
  = (completion_of (handler e fs1), files_of (handler e fs1),
     t1 ++ trace_of (handler e fs1)).
Proof.
  intros Hb. unfold try_catch, completion_of, files_of, trace_of. rewrite Hb.
  destruct (handler e fs1) as [[c fs2] t2]. reflexivity.
Qed.

Lemma autodrained_app (t1 t2 : list event) :
  autodrained (t1 ++ t2) = autodrained t1 ++ autodrained t2.
Proof.
  induction t1 as [| e t1 IH]; [reflexivity |].
  destruct e; simpl; rewrite IH; reflexivity.
Qed.

Lemma written_app (t1 t2 : list event) :
  written (t1 ++ t2) = written t1 ++ written t2.
Proof.
  induction t1 as [| e t1 IH]; [reflexivity |].
  destruct e; simpl; rewrite IH; reflexivity.
Qed.

Section LoopFacts.

Variable env : Env.
Variable tmpdir : string.

Lemma zip_entry_effects (st : ZipLocals) (entry : Entry) (fs : Files) :
  autodrained (trace_of (zip_entry env tmpdir st entry fs)) = [path entry] /\
  written (trace_of (zip_entry env tmpdir st entry fs)) = entry_targets tmpdir entry.
Proof.
  unfold zip_entry, entry_targets.
  remember (tmpdir ++ "/" ++ path entry)%string as p eqn:Ep. clear Ep.
  unfold bind, try_catch, fs_writeFile, bind, emit, ret, console_error,
    log_error_message.
  destruct (JsString.includes ".xml" (path entry));
    destruct (JsString.includes ".pdf" (path entry)); simpl;
    destruct (writeFile_rejects env p) as [e |];
    simpl; try destruct (instanceof_Error e); simpl; split; reflexivity.
Qed.

Lemma zip_loop_effects (entries : list Entry) (stream_error : option exn)
    (st : ZipLocals) (fs : Files) :
  autodrained (trace_of (zip_loop env tmpdir entries stream_error st fs))
  = map path entries /\
  written (trace_of (zip_loop env tmpdir entries stream_error st fs))
  = flat_map (entry_targets tmpdir) entries.
Proof.
  revert st fs. induction entries as [| entry rest IH]; intros st fs.
  - simpl. destruct stream_error; split; reflexivity.
  - destruct (zip_entry_run env tmpdir st entry fs) as [fs1 [t1 [E1 _]]].
    destruct (zip_entry_effects st entry fs) as [D1 W1].
    rewrite E1 in D1, W1. unfold trace_of in D1, W1. simpl in D1, W1.
    destruct (IH (capture tmpdir st entry) fs1) as [D2 W2].
    cbn [zip_loop]. rewrite (bind_Return _ _ _ _ _ _ E1).
    unfold trace_of at 1 3. cbn [snd map flat_map].
    rewrite autodrained_app, written_app, D1, D2, W1, W2. split; reflexivity.
Qed.

(** X13: every entry the archive stream yields is drained exactly once,
    in stream order, whether or not its path matches, whether or not its
    writes are rejected, and also when the stream fails after it. *)
Theorem every_entry_is_drained (entries : list Entry) (stream_error : option exn)
    (fs : Files) :
  autodrained (trace_of (zip_loop env tmpdir entries stream_error zip_init fs))
  = map path entries.
Proof. apply zip_loop_effects. Qed.

(** X14: the loop writes the entries whose path contains [.xml] or [.pdf]
    and nothing else, each to workspace/<entry path>, in stream order; an
    entry whose path contains both is written twice to the same place. *)
Theorem loop_writes_matching_entries (entries : list Entry)
    (stream_error : option exn) (fs : Files) :
  written (trace_of (zip_loop env tmpdir entries stream_error zip_init fs))
  = flat_map (entry_targets tmpdir) entries.
Proof. apply zip_loop_effects. Qed.

End LoopFacts.

Lemma find_rev_none {X : Type} (f : X -> bool) (l : list X) :
  forallb (fun x => negb (f x)) l = true -> find f (rev l) = None.
Proof.
  intros H. destruct (find f (rev l)) as [x |] eqn:Hf; [| reflexivity].
  apply find_some in Hf. destruct Hf as [Hin Hx].
  apply in_rev in Hin. rewrite forallb_forall in H.
  specialize (H x Hin). rewrite Hx in H. discriminate H.
Qed.

Section BundleEdges.

Variable env : Env.
Variables (zipNode tmpdir : string) (msg : FetchMessageObject).

Lemma download_answer (fs : Files) (d : Download) :
  download env (uid_toString msg) zipNode = Ok d ->
  client_download env (uid_toString msg) zipNode fs
  = (Return d, fs, [EDownload (uid_toString msg) zipNode]).
Proof. intros Hd. rewrite download_run, Hd. reflexivity. Qed.


(** X16: an archive whose declared size is over 4 MiB is refused before
    anything is unpacked: after the download the routine only reports
    'Size too big', asks for the removal of the workspace and moves the
    message to the failure mailbox; no file is written. *)
Theorem oversized_bundle_is_refused (fs : Files) (d : Download) :
  download env (uid_toString msg) zipNode = Ok d ->
  (expectedSize (meta d) > 4 * 1024 * 1024)%Z ->
  processZipNode env zipNode tmpdir msg fs
  = (Return tt, fs,
     EDownload (uid_toString msg) zipNode :: failure_trace env tmpdir msg "Size too big").
Proof.
  intros Hd Hsize.
  assert (Htry : processZipNode_try env zipNode tmpdir msg fs
                 = (Raise (Error "Size too big"), fs,
                    [EDownload (uid_toString msg) zipNode])).
  { unfold processZipNode_try.
    rewrite (bind_Return _ _ _ _ _ _ (download_answer fs d Hd)).
    replace (expectedSize (meta d) >? 4 * 1024 * 1024)%Z with true
      by (symmetry; apply Z.gtb_lt, Z.gt_lt; exact Hsize).
    reflexivity. }
  unfold processZipNode.
  rewrite (try_catch_Raise _ _ _ _ _ _ Htry), processZipNode_catch_run.
  reflexivity.
Qed.

(** X17: an archive within the size ceiling, whose stream ends without
    error and in which no entry path contains [.xml], or none contains
    [.pdf], ends with 'No contenía una factura válida': every entry is
    drained first, the builder is not started, and the message is moved
    to the failure mailbox. *)
Theorem bundle_without_pair_is_refused (fs : Files) (d : Download)
    (entries : list Entry) :
  download env (uid_toString msg) zipNode = Ok d ->
  (expectedSize (meta d) <= 4 * 1024 * 1024)%Z ->
  unzip env (content d) = (entries, None) ->
  forallb (fun e => negb (JsString.includes ".xml" (path e))) entries = true \/
  forallb (fun e => negb (JsString.includes ".pdf" (path e))) entries = true ->
  exists fs' t,
    processZipNode env zipNode tmpdir msg fs
    = (Return tt, fs',
       EDownload (uid_toString msg) zipNode
       :: t ++ failure_trace env tmpdir msg "No contenía una factura válida") /\
    autodrained t = map path entries /\
    forallb preparatory t = true.
Proof.
  intros Hd Hsize Hzip Hnone.
  destruct (zip_loop_run env tmpdir entries None zip_init fs)
    as [fs1 [t1 [E1 [Q1 _]]]].
  destruct (zip_loop_effects env tmpdir entries None zip_init fs) as [D1 _].
  rewrite E1 in D1. unfold trace_of in D1. simpl in D1.
  destruct (fold_capture_last tmpdir entries zip_init) as [Hx Hp].
  assert (Hfin : zip_finish env tmpdir msg (fold_left (capture tmpdir) entries zip_init) fs1
                 = (Raise (Error "No contenía una factura válida"), fs1, [])).
  { unfold zip_finish. rewrite Hx, Hp. unfold or_else. simpl xml. simpl pdf.
    destruct Hnone as [Hn | Hn].
    - rewrite (find_rev_none _ _ Hn). reflexivity.
    - rewrite (find_rev_none _ _ Hn).
      destruct (find (fun e => JsString.includes ".xml" (path e)) (rev entries));
        reflexivity. }
  assert (Htry : processZipNode_try env zipNode tmpdir msg fs
                 = (Raise (Error "No contenía una factura válida"), fs1,
                    EDownload (uid_toString msg) zipNode :: t1)).
  { unfold processZipNode_try.
    rewrite (bind_Return _ _ _ _ _ _ (download_answer fs d Hd)).
    replace (expectedSize (meta d) >? 4 * 1024 * 1024)%Z with false
      by (symmetry; rewrite Z.gtb_ltb; apply Z.ltb_ge; exact Hsize).
    rewrite Hzip. cbn [fst snd].
    rewrite (bind_Return _ _ _ _ _ _ E1), Hfin.
    unfold completion_of, files_of, trace_of. simpl. rewrite app_nil_r.
    reflexivity. }
  exists fs1, t1. split; [| split; assumption].
  unfold processZipNode.
  rewrite (try_catch_Raise _ _ _ _ _ _ Htry), processZipNode_catch_run.
  reflexivity.
Qed.

End BundleEdges.

Lemma oversized_bundle_is_refused_witness :
  processZipNode (Cases.oversized Sample.writable) "2" "/att/202401010000/Ab12Cd"
    (Sample.message []) []
  = (Return tt, [],
     EDownload "7" "2"
     :: failure_trace (Cases.oversized Sample.writable) "/att/202401010000/Ab12Cd"
          (Sample.message []) "Size too big").
Proof.
  apply (oversized_bundle_is_refused (Cases.oversized Sample.writable) "2"
           "/att/202401010000/Ab12Cd" (Sample.message []) []
           {| content := "PK";
              meta := {| meta_filename := "big.zip";
                         expectedSize := 4 * 1024 * 1024 + 1 |} |});
    reflexivity.
Defined.

Lemma bundle_without_pair_is_refused_witness :
  exists fs' t,
    processZipNode
      (Cases.with_mail Sample.writable ([], None) ([Cases.readme; Sample.a_pdf], None))
      "2" "/att/202401010000/Ab12Cd" (Sample.message []) []
    = (Return tt, fs',
       EDownload "7" "2"
       :: t ++ failure_trace
                 (Cases.with_mail Sample.writable ([], None)
                    ([Cases.readme; Sample.a_pdf], None))
                 "/att/202401010000/Ab12Cd" (Sample.message [])
                 "No contenía una factura válida") /\
    autodrained t = ["README.txt"; "a.pdf"]%string /\
    forallb preparatory t = true.
Proof.
  apply (bundle_without_pair_is_refused
           (Cases.with_mail Sample.writable ([], None)
              ([Cases.readme; Sample.a_pdf], None))
           "2" "/att/202401010000/Ab12Cd" (Sample.message []) []
           {| content := "PK";
              meta := {| meta_filename := "f.zip"; expectedSize := 10 |} |}
           [Cases.readme; Sample.a_pdf]).
  - reflexivity.
  - vm_compute. discriminate.
  - reflexivity.
  - left. reflexivity.
Defined.

(* ------------------------------------------------------------------ *)
(** *** The sidecar path *)

Lemma prefix_app (p s : string) :
  String.prefix p s = true -> s = (p ++ JsString.skip (String.length p) s)%string.
Proof.
  revert s. induction p as [| a p IH]; intros s H; [reflexivity |].
  destruct s as [| b s]; [discriminate H |].
  simpl in H. destruct (ascii_dec a b) as [-> |]; [| discriminate H].
  simpl. f_equal. apply IH, H.
Qed.

Lemma includes_app_r (sub a b : string) :
  JsString.includes sub b = true -> JsString.includes sub (a ++ b)%string = true.
Proof.
  intros H. induction a as [| c a IH]; [exact H |].
  simpl. rewrite IH. apply orb_true_r.
Qed.

(** Replacing the first [.xml] by [.json] changes a string that has one. *)
Lemma sidecar_changes (s : string) :
  JsString.includes ".xml" s = true ->
  JsString.replace ".xml" ".json" s <> s.
Proof.
  induction s as [| c s IH]; intros H; [discriminate H |].
  cbn [JsString.includes JsString.replace] in *.
  destruct (String.prefix ".xml" (String c s)) eqn:Hp.
  - apply prefix_app in Hp. rewrite Hp at 2. simpl. intros Heq.
    injection Heq as _ Hj. discriminate Hj.
  - simpl in H. intros Heq. injection Heq as Heq. exact (IH H Heq).
Qed.

Lemma capture_xml_path (tmpdir : string) (st : ZipLocals) (entry : Entry) :
  (xml st <> None -> JsString.includes ".xml" (xmlPath st) = true) ->
  xml (capture tmpdir st entry) <> None ->
  JsString.includes ".xml" (xmlPath (capture tmpdir st entry)) = true.
Proof.
  unfold capture. intros Hst.
  destruct (JsString.includes ".xml" (path entry)) eqn:Hx;
    destruct (JsString.includes ".pdf" (path entry)); simpl; intros H;
    try (apply Hst, H);
    apply includes_app_r; apply (includes_app_r ".xml" "/"); exact Hx.
Qed.

Lemma fold_capture_xml_path (tmpdir : string) (entries : list Entry) (st : ZipLocals) :
  (xml st <> None -> JsString.includes ".xml" (xmlPath st) = true) ->
  xml (fold_left (capture tmpdir) entries st) <> None ->
  JsString.includes ".xml" (xmlPath (fold_left (capture tmpdir) entries st)) = true.
Proof.
  revert st. induction entries as [| entry rest IH]; intros st Hst; simpl.
  - exact Hst.
  - apply IH. apply capture_xml_path, Hst.
Qed.

(** X18: whenever an xml entry was captured, the sidecar path differs
    from the xml path: writing the serialized Billing never overwrites
    the xml file that was unpacked. *)
Theorem sidecar_is_not_the_xml (tmpdir : string) (entries : list Entry) :
  xml (captured tmpdir entries) <> None ->
  jsonPath (captured tmpdir entries) <> xmlPath (captured tmpdir entries).
Proof.
  intros Hx.
  assert (Hside : sidecar_ok (captured tmpdir entries)).
  { apply fold_capture_sidecar. reflexivity. }
  rewrite Hside. apply sidecar_changes.
  apply fold_capture_xml_path; [intros H; exfalso; apply H; reflexivity | exact Hx].
Qed.

Lemma sidecar_is_not_the_xml_witness :
  jsonPath (captured "/t" [Sample.a_xml; Sample.a_pdf])
  <> xmlPath (captured "/t" [Sample.a_xml; Sample.a_pdf]).
Proof.
  apply (sidecar_is_not_the_xml "/t" [Sample.a_xml; Sample.a_pdf]).
  vm_compute. discriminate.
Defined.

(* ================================================================== *)
(** ** Further properties of the polling cycle *)

Lemma spawned_app (t1 t2 : list event) :
  spawned (t1 ++ t2) = spawned t1 ++ spawned t2.
Proof.
  induction t1 as [| e t1 IH]; [reflexivity |].
  destruct e; simpl; rewrite IH; reflexivity.
Qed.

Section CycleFacts.

Variable env : Env.
Variable timestampDir : string.

(** [#processMessage] returns or throws, leaves the files alone and
    requests at most a workspace and the start of one routine. *)
Lemma processMessage_run (msg : FetchMessageObject) (fs : Files) :
  exists t,
    forallb routing_only t = true /\
    ((processMessage env msg timestampDir fs = (Return tt, fs, t) /\
      map task_message (spawned t) = (if is_routed msg then [msg] else []) /\
      childNodes (bodyStructure msg) <> None) \/
     exists e,
       processMessage env msg timestampDir fs = (Raise e, fs, t) /\
       spawned t = [] /\
       (childNodes (bodyStructure msg) = None \/
        mkdtemp env timestampDir = Throw e)).
Proof.
  unfold processMessage, is_routed.
  destruct (childNodes (bodyStructure msg)) as [nodes |].
  - destruct (strategy (classify nodes)) as [x p | z |].
    + eexists. split;
        [| left; split; [reflexivity | split; [reflexivity | discriminate]]].
      reflexivity.
    + unfold bind, fs_mkdtemp, emit, lift. simpl.
      destruct (mkdtemp env timestampDir) as [tmpdir | e]; simpl.
      * eexists. split;
          [| left; split; [reflexivity | split; [reflexivity | discriminate]]].
        reflexivity.
      * eexists. split;
          [| right; eexists; split;
             [reflexivity | split; [reflexivity | right; reflexivity]]].
        reflexivity.
    + exists []. split; [reflexivity |]. left.
      split; [reflexivity |]. split; [reflexivity | discriminate].
  - exists []. split; [reflexivity |]. right. eexists.
    split; [reflexivity |]. split; [reflexivity | left; reflexivity].
Qed.

(** Only the direct-pair routine leaves a rejected promise behind. *)
Lemma dropped_rejection_run (msg : FetchMessageObject) (fs : Files) :
  exists rejected,
    dropped_rejection env msg fs = (Return rejected, fs, []) /\
    (is_direct msg = false -> rejected = None) /\
    (rejected <> None -> is_direct msg = true).
Proof.
  unfold dropped_rejection, is_direct.
  destruct (strategy_of msg) as [[x p | z |] |];
    eexists; (split; [reflexivity |]); split;
    try discriminate; try reflexivity; intros H; try reflexivity;
    exfalso; apply H; reflexivity.
Qed.

(** With a rejection pending, a message of the bundle strategy ends the
    process while its workspace is awaited; any other message is
    processed as usual. *)
Lemma processMessage_after_run (pending : option exn) (msg : FetchMessageObject)
    (fs : Files) :
  (exists rejection,
      pending = Some rejection /\
      processMessage_after env pending msg timestampDir fs
      = (Exit 1, fs, [EMkdtemp timestampDir; EUnhandledRejection rejection])) \/
  processMessage_after env pending msg timestampDir fs
  = processMessage env msg timestampDir fs.
Proof.
  unfold processMessage_after.
  destruct pending as [rejection |]; [| right; reflexivity].
  destruct (strategy_of msg) as [[x p | z |] |]; try (right; reflexivity).
  left. exists rejection. split; reflexivity.
Qed.

(** The loop over the messages: what it requests is routing; the routines
    it starts are those of the routed messages, in order, as far as it
    gets; and it is left in one of three ways. *)
Lemma for_await_run (messages : list FetchMessageObject)
    (stream_error : option exn) (pending : option exn) (n : nat) (fs : Files) :
  exists t later,
    forallb routing_only t = true /\
    filter is_routed messages = map task_message (spawned t) ++ later /\
    ((exists p,
         for_await env messages stream_error timestampDir pending n fs
         = (Return (Completed, p), fs, t) /\
         later = [] /\ stream_error = None /\
         (pending = None -> Forall (fun m => is_direct m = false) messages ->
          p = None)) \/
     (exists e p,
         for_await env messages stream_error timestampDir pending n fs
         = (Return (Thrown e, p), fs, t) /\
         (stream_error = Some e \/
          Exists (fun m => childNodes (bodyStructure m) = None) messages \/
          mkdtemp env timestampDir = Throw e) /\
         (pending = None -> Forall (fun m => is_direct m = false) messages ->
          p = None)) \/
     (exists rejection,
         for_await env messages stream_error timestampDir pending n fs
         = (Exit 1, fs, t ++ [EUnhandledRejection rejection]) /\
         (pending = None -> Exists (fun m => is_direct m = true) messages))).
Proof.
  revert pending n.
  induction messages as [| msg rest IH]; intros pending n.
  - exists [], []. split; [reflexivity |]. split; [reflexivity |].
    cbn [for_await].
    destruct pending as [rejection |]; [destruct (fetch_at_hand env n) |].
    + destruct stream_error as [e |].
      * right. left. exists e, (Some rejection).
        split; [reflexivity |]. split; [left; reflexivity | discriminate].
      * left. exists (Some rejection).
        split; [reflexivity |]. split; [reflexivity |].
        split; [reflexivity | discriminate].
    + right. right. exists rejection. split; [reflexivity | discriminate].
    + destruct stream_error as [e |].
      * right. left. exists e, None.
        split; [reflexivity |]. split; [left; reflexivity | reflexivity].
      * left. exists None.
        split; [reflexivity |]. split; [reflexivity |].
        split; reflexivity.
  - assert (Hbody :
      exists t later,
        forallb routing_only t = true /\
        filter is_routed (msg :: rest) = map task_message (spawned t) ++ later /\
        ((exists p,
             (turn <- try_catch (processMessage_after env pending msg timestampDir ;;
                                 ret Completed)
                                (fun e => ret (Thrown e)) ;;
              match turn with
              | Thrown e => ret (Thrown e, pending)
              | Completed =>
                  rejected <- dropped_rejection env msg ;;
                  for_await env rest stream_error timestampDir
                    (match pending with
                     | Some _ => pending
                     | None => rejected
                     end) (S n)
              end) fs
             = (Return (Completed, p), fs, t) /\
             later = [] /\ stream_error = None /\
             (pending = None ->
              Forall (fun m => is_direct m = false) (msg :: rest) -> p = None)) \/
         (exists e p,
             (turn <- try_catch (processMessage_after env pending msg timestampDir ;;
                                 ret Completed)
                                (fun e => ret (Thrown e)) ;;
              match turn with
              | Thrown e => ret (Thrown e, pending)
              | Completed =>
                  rejected <- dropped_rejection env msg ;;
                  for_await env rest stream_error timestampDir
                    (match pending with
                     | Some _ => pending
                     | None => rejected
                     end) (S n)
              end) fs
             = (Return (Thrown e, p), fs, t) /\
             (stream_error = Some e \/
              Exists (fun m => childNodes (bodyStructure m) = None) (msg :: rest) \/
              mkdtemp env timestampDir = Throw e) /\
             (pending = None ->
              Forall (fun m => is_direct m = false) (msg :: rest) -> p = None)) \/
         (exists rejection,
             (turn <- try_catch (processMessage_after env pending msg timestampDir ;;
                                 ret Completed)
                                (fun e => ret (Thrown e)) ;;
              match turn with
              | Thrown e => ret (Thrown e, pending)
              | Completed =>
                  rejected <- dropped_rejection env msg ;;
                  for_await env rest stream_error timestampDir
                    (match pending with
                     | Some _ => pending
                     | None => rejected
                     end) (S n)
              end) fs
             = (Exit 1, fs, t ++ [EUnhandledRejection rejection]) /\
             (pending = None -> Exists (fun m => is_direct m = true) (msg :: rest))))).
    { destruct (processMessage_after_run pending msg fs)
        as [[rejection [Hpending Hdies]] | Hsame].
      - (* the workspace is awaited with a rejection pending *)
        exists [EMkdtemp timestampDir], (filter is_routed (msg :: rest)).
        split; [reflexivity |]. split; [reflexivity |].
        right. right. exists rejection. split.
        + unfold bind at 1. unfold try_catch. unfold bind at 1.
          rewrite Hdies. reflexivity.
        + rewrite Hpending. discriminate.
      - destruct (processMessage_run msg fs)
          as [t1 [Q1 [[E1 [S1 C1]] | [e [E1 [S1 C1]]]]]].
        + (* the message is processed *)
          assert (Hturn :
            try_catch (processMessage_after env pending msg timestampDir ;;
                       ret Completed)
                      (fun e => ret (Thrown e)) fs
            = (Return Completed, fs, t1)).
          { unfold try_catch, bind. rewrite Hsame, E1. cbn.
            rewrite app_nil_r. reflexivity. }
          destruct (dropped_rejection_run msg fs) as [rejected [Hrej [Hnone Hsome]]].
          destruct (IH (match pending with
                        | Some _ => pending
                        | None => rejected
                        end) (S n))
            as [t2 [later [Q2 [Hlater Hcases]]]].
          exists (t1 ++ t2), later.
          split; [rewrite forallb_app, Q1, Q2; reflexivity |].
          split.
          { cbn [filter]. rewrite spawned_app, map_app, S1, <- app_assoc, <- Hlater.
            destruct (is_routed msg); reflexivity. }
          rewrite (bind_Return _ _ _ _ _ _ Hturn).
          rewrite (bind_Return _ _ _ _ _ _ Hrej). cbn [app].
          assert (Hnext : pending = None ->
                          Forall (fun m => is_direct m = false) (msg :: rest) ->
                          match pending with
                          | Some _ => pending
                          | None => rejected
                          end = None /\
                          Forall (fun m => is_direct m = false) rest).
          { intros -> Hall. inversion Hall as [| ? ? Hm Hrest]; subst.
            split; [exact (Hnone Hm) | exact Hrest]. }
          destruct Hcases as [[p [E2 [L2 [X2 P2]]]] | [[e [p [E2 [C2 P2]]]] |
                              [rejection [E2 P2]]]]; rewrite E2.
          * left. exists p. split; [reflexivity |].
            split; [exact L2 |]. split; [exact X2 |].
            intros Hp Hall. destruct (Hnext Hp Hall) as [H1 H2]. exact (P2 H1 H2).
          * right. left. exists e, p. split; [reflexivity |]. split.
            { destruct C2 as [C2 | [C2 | C2]]; auto. }
            intros Hp Hall. destruct (Hnext Hp Hall) as [H1 H2]. exact (P2 H1 H2).
          * right. right. exists rejection. split.
            { unfold completion_of, files_of, trace_of. cbn [fst snd].
              rewrite app_assoc. reflexivity. }
            intros Hp. subst pending.
            destruct rejected as [r |].
            { apply Exists_cons_hd. apply Hsome. discriminate. }
            { apply Exists_cons_tl. apply P2. reflexivity. }
        + (* the message makes [#processMessage] throw *)
          exists t1, (filter is_routed (msg :: rest)).
          split; [exact Q1 |].
          split; [rewrite S1; reflexivity |].
          right. left. exists e, pending. split.
          { unfold bind at 1. unfold try_catch. unfold bind at 1.
            rewrite Hsame, E1. cbn. rewrite !app_nil_r. reflexivity. }
          split.
          { destruct C1 as [C1 | C1]; [right; left; apply Exists_cons_hd, C1 |].
            right. right. exact C1. }
          intros Hp _. exact Hp. }
    cbn [for_await].
    destruct pending as [rejection |]; [destruct (fetch_at_hand env n) |];
      try exact Hbody.
    exists [], (filter is_routed (msg :: rest)).
    split; [reflexivity |]. split; [reflexivity |].
    right. right. exists rejection. split; [reflexivity | discriminate].
Qed.

End CycleFacts.

Section CycleTheorems.

Variable env : Env.

Lemma mkdir_answer (p : string) (fs : Files) :
  mkdir env p = Ok tt -> fs_mkdir env p fs = (Return tt, fs, [EMkdir p]).
Proof.
  intros H. unfold fs_mkdir, bind, emit, lift. simpl. rewrite H. reflexivity.
Qed.

(** The cycle once the guards are passed, told from how the loop over
    the messages is left. *)
Lemma cycle_after_guards (fs : Files) :
  mailbox_is_boolean env = false ->
  usable env = true ->
  mkdir env (env_string (ATTACHMENTS_PATH env) ++ "/" ++ now env ++ "/")%string = Ok tt ->
  processMessages env fs
  = match for_await env (fst (fetch env)) (snd (fetch env))
            (env_string (ATTACHMENTS_PATH env) ++ "/" ++ now env ++ "/")%string
            None 0 fs with
    | (Return (Completed, _), fs1, t) =>
        (Return tt, fs1,
         EMkdir (env_string (ATTACHMENTS_PATH env) ++ "/" ++ now env ++ "/")%string
         :: EFetch :: t)
    | (Return (Thrown e, Some rejection), fs1, t) =>
        if logout_at_hand env
        then (shutdown_completion env, fs1,
              EMkdir (env_string (ATTACHMENTS_PATH env) ++ "/" ++ now env ++ "/")%string
              :: EFetch :: t ++ shutdown_trace env e)
        else (Exit 1, fs1,
              EMkdir (env_string (ATTACHMENTS_PATH env) ++ "/" ++ now env ++ "/")%string
              :: EFetch
              :: t ++ fatal_report e
                   ++ [ELockRelease; ELogout; EUnhandledRejection rejection])
    | (Return (Thrown e, None), fs1, t) =>
        (shutdown_completion env, fs1,
         EMkdir (env_string (ATTACHMENTS_PATH env) ++ "/" ++ now env ++ "/")%string
         :: EFetch :: t ++ shutdown_trace env e)
    | (Raise e, fs1, t) =>
        (Raise e, fs1,
         EMkdir (env_string (ATTACHMENTS_PATH env) ++ "/" ++ now env ++ "/")%string
         :: EFetch :: t)
    | (Exit code, fs1, t) =>
        (Exit code, fs1,
         EMkdir (env_string (ATTACHMENTS_PATH env) ++ "/" ++ now env ++ "/")%string
         :: EFetch :: t)
    end.
Proof.
  intros Hsel Huse Hmk.
  unfold processMessages, fetchMessages.
  set (ts := (env_string (ATTACHMENTS_PATH env) ++ "/" ++ now env ++ "/")%string) in *.
  unfold bind at 1. rewrite (mkdir_answer ts fs Hmk).
  rewrite Hsel, Huse. cbn [negb].
  unfold bind at 1. unfold emit at 1. unfold bind at 1.
  destruct (for_await env (fst (fetch env)) (snd (fetch env)) ts None 0 fs)
    as [[c fs1] t].
  destruct c as [[[| e] p] | e | code]; cbn [fst snd]; try reflexivity.
  - unfold ret. cbn. rewrite app_nil_r. reflexivity.
  - unfold shutdown_completion, shutdown_trace, fatal_report, unhandled.
    unfold bind, console_error, log_error_message, emit, ret, lift, process_exit,
      throw, completion_of, files_of, trace_of.
    destruct p as [rejection |]; [destruct (logout_at_hand env) |];
      destruct (instanceof_Error e); destruct (logout env) as [[] | e'];
      cbn; rewrite <- ?app_assoc; reflexivity.
Qed.

Lemma shutdown_spawns_nothing (e : exn) :
  spawned (shutdown_trace env e) = [].
Proof.
  unfold shutdown_trace, fatal_report.
  destruct (instanceof_Error e); destruct (logout env); reflexivity.
Qed.

Lemma report_spawns_nothing (e rejection : exn) :
  spawned (fatal_report e ++ [ELockRelease; ELogout; EUnhandledRejection rejection])
  = [].
Proof. unfold fatal_report. destruct (instanceof_Error e); reflexivity. Qed.

(** X19: once the guards are passed and the timestamp directory exists,
    a cycle requests only workspaces and routine starts until it ends, in
    one of four ways.  It returns.  Or a routine it started has left a
    rejected promise that nothing handles, and the process ends with code
    1 when the loop waits.  Or it meets an error: it reports it, releases
    the lock once, asks for the logout once, and ends the process with
    code 1 (or fails with the error of the logout).  Or, having met the
    error, reported it and asked for the logout, it ends on the unhandled
    rejection while the logout is awaited.  Nothing is requested after
    that.  When no message is routed to the direct pair only the first
    and the third way are left. *)
Theorem failed_cycle_shuts_down_once (fs : Files) :
  mailbox_is_boolean env = false ->
  usable env = true ->
  mkdir env (env_string (ATTACHMENTS_PATH env) ++ "/" ++ now env ++ "/")%string = Ok tt ->
  exists t tail,
    forallb routing_only t = true /\
    trace_of (processMessages env fs)
    = EMkdir (env_string (ATTACHMENTS_PATH env) ++ "/" ++ now env ++ "/")%string
      :: EFetch :: t ++ tail /\
    cycle_end env (completion_of (processMessages env fs)) tail /\
    (Forall (fun m => is_direct m = false) (fst (fetch env)) ->
     (completion_of (processMessages env fs) = Return tt /\ tail = []) \/
     exists e,
       completion_of (processMessages env fs) = shutdown_completion env /\
       tail = shutdown_trace env e).
Proof.
  intros Hsel Huse Hmk.
  rewrite (cycle_after_guards fs Hsel Huse Hmk).
  destruct (for_await_run env
              (env_string (ATTACHMENTS_PATH env) ++ "/" ++ now env ++ "/")%string
              (fst (fetch env)) (snd (fetch env)) None 0 fs)
    as [t [later [Q [_ [[p [E _]] | [[e [p [E [_ P]]]] | [rejection [E P]]]]]]]];
    rewrite E; exists t.
  - exists []. split; [exact Q |]. split; [rewrite app_nil_r; reflexivity |].
    split; [constructor |]. intros _. left. split; reflexivity.
  - destruct p as [rejection |]; [destruct (logout_at_hand env) eqn:Hout |].
    + exists (shutdown_trace env e). split; [exact Q |]. split; [reflexivity |].
      split; [constructor |]. intros _. right. exists e. split; reflexivity.
    + exists (fatal_report e ++ [ELockRelease; ELogout; EUnhandledRejection rejection]).
      split; [exact Q |]. split; [reflexivity |].
      split; [constructor; exact Hout |].
      intros Hall. discriminate (P eq_refl Hall).
    + exists (shutdown_trace env e). split; [exact Q |]. split; [reflexivity |].
      split; [constructor |]. intros _. right. exists e. split; reflexivity.
  - exists [EUnhandledRejection rejection]. split; [exact Q |].
    split; [reflexivity |]. split; [constructor |].
    intros Hall. exfalso. specialize (P eq_refl).
    apply Exists_exists in P. destruct P as [m [Hin Hm]].
    rewrite Forall_forall in Hall. rewrite (Hall m Hin) in Hm. discriminate Hm.
Qed.


(** X21: the routines are started in the order of the enumeration, one
    for each message that is not skipped, as far as the cycle gets: the
    messages of the routines started are a prefix of the messages that
    are routed, and all of them when the cycle returns.  It does return
    when every message has a part list, workspaces can be made, the
    enumeration ends without error and no message is routed to the direct
    pair. *)
Theorem routines_start_in_enumeration_order (fs : Files) (tmpdir : string) :
  mailbox_is_boolean env = false ->
  usable env = true ->
  mkdir env (env_string (ATTACHMENTS_PATH env) ++ "/" ++ now env ++ "/")%string = Ok tt ->
  exists later,
    filter is_routed (fst (fetch env))
    = map task_message (spawned (trace_of (processMessages env fs))) ++ later /\
    (completion_of (processMessages env fs) = Return tt -> later = []) /\
    (mkdtemp env (env_string (ATTACHMENTS_PATH env) ++ "/" ++ now env ++ "/")%string
     = Ok tmpdir ->
     snd (fetch env) = None ->
     Forall (fun m => childNodes (bodyStructure m) <> None) (fst (fetch env)) ->
     Forall (fun m => is_direct m = false) (fst (fetch env)) ->
     completion_of (processMessages env fs) = Return tt).
Proof.
  intros Hsel Huse Hmk.
  rewrite (cycle_after_guards fs Hsel Huse Hmk).
  destruct (for_await_run env
              (env_string (ATTACHMENTS_PATH env) ++ "/" ++ now env ++ "/")%string
              (fst (fetch env)) (snd (fetch env)) None 0 fs)
    as [t [later [Q [L [[p [E [L0 _]]] | [[e [p [E [C P]]]] | [rejection [E P]]]]]]]];
    rewrite E; exists later.
  - unfold trace_of, completion_of. cbn [fst snd spawned].
    split; [exact L |]. split; [intros _; exact L0 | intros; reflexivity].
  - assert (Hstop : forall tmp, mkdtemp env
                      (env_string (ATTACHMENTS_PATH env) ++ "/" ++ now env ++ "/")%string
                    = Ok tmp ->
                    snd (fetch env) = None ->
                    Forall (fun m => childNodes (bodyStructure m) <> None)
                           (fst (fetch env)) -> False).
    { intros tmp Htmp Herr Hall. destruct C as [C | [C | C]].
      - rewrite Herr in C. discriminate C.
      - apply Exists_exists in C. destruct C as [m [Hin Hm]].
        rewrite Forall_forall in Hall. exact (Hall m Hin Hm).
      - rewrite Htmp in C. discriminate C. }
    destruct p as [rejection |]; [destruct (logout_at_hand env) |];
      unfold trace_of, completion_of; cbn [fst snd spawned];
      rewrite spawned_app, ?shutdown_spawns_nothing, ?report_spawns_nothing,
        app_nil_r;
      (split; [exact L |]); split;
      try (intros; exfalso; eapply Hstop; eassumption);
      try discriminate;
      unfold shutdown_completion; destruct (logout env); discriminate.
  - unfold trace_of, completion_of. cbn [fst snd spawned].
    rewrite spawned_app. cbn [spawned]. rewrite app_nil_r.
    split; [exact L |]. split; [discriminate |].
    intros _ _ _ Hall. exfalso. specialize (P eq_refl).
    apply Exists_exists in P. destruct P as [m [Hin Hm]].
    rewrite Forall_forall in Hall. rewrite (Hall m Hin) in Hm. discriminate Hm.
Qed.

End CycleTheorems.

Lemma failed_cycle_shuts_down_once_witness :
  exists t tail,
    forallb routing_only t = true /\
    trace_of (processMessages
                (Cases.with_mail Sample.writable
                   ([Sample.message Sample.two_xml_parts],
                    Some (Error "Connection closed")) ([], None)) [])
    = EMkdir "/att/202401010000/" :: EFetch :: t ++ tail /\
    cycle_end
      (Cases.with_mail Sample.writable
         ([Sample.message Sample.two_xml_parts],
          Some (Error "Connection closed")) ([], None))
      (completion_of
         (processMessages
            (Cases.with_mail Sample.writable
               ([Sample.message Sample.two_xml_parts],
                Some (Error "Connection closed")) ([], None)) []))
      tail /\
    (Forall (fun m => is_direct m = false) [Sample.message Sample.two_xml_parts] ->
     (completion_of
        (processMessages
           (Cases.with_mail Sample.writable
              ([Sample.message Sample.two_xml_parts],
               Some (Error "Connection closed")) ([], None)) [])
      = Return tt /\ tail = []) \/
     exists e,
       completion_of
         (processMessages
            (Cases.with_mail Sample.writable
               ([Sample.message Sample.two_xml_parts],
                Some (Error "Connection closed")) ([], None)) [])
       = shutdown_completion
           (Cases.with_mail Sample.writable
              ([Sample.message Sample.two_xml_parts],
               Some (Error "Connection closed")) ([], None)) /\
       tail = shutdown_trace
                (Cases.with_mail Sample.writable
                   ([Sample.message Sample.two_xml_parts],
                    Some (Error "Connection closed")) ([], None)) e).
Proof.
  apply (failed_cycle_shuts_down_once
           (Cases.with_mail Sample.writable
              ([Sample.message Sample.two_xml_parts],
               Some (Error "Connection closed")) ([], None)) []);
    reflexivity.
Defined.


Lemma routines_start_in_enumeration_order_witness :
  exists later,
    [Sample.message [Sample.named "1" "all.ZIP"];
     Sample.message [Sample.named "1" "b.zip"]]
    = map task_message
        (spawned (trace_of
           (processMessages
              (Cases.with_mail Sample.writable
                 ([Sample.message [Sample.named "1" "all.ZIP"];
                   Sample.message [Sample.named "1" "notes.txt"];
                   Sample.message [Sample.named "1" "b.zip"]], None) ([], None))
              [])))
      ++ later /\
    later = [] /\
    completion_of
      (processMessages
         (Cases.with_mail Sample.writable
            ([Sample.message [Sample.named "1" "all.ZIP"];
              Sample.message [Sample.named "1" "notes.txt"];
              Sample.message [Sample.named "1" "b.zip"]], None) ([], None))
         [])
    = Return tt.
Proof.
  destruct (routines_start_in_enumeration_order
              (Cases.with_mail Sample.writable
                 ([Sample.message [Sample.named "1" "all.ZIP"];
                   Sample.message [Sample.named "1" "notes.txt"];
                   Sample.message [Sample.named "1" "b.zip"]], None) ([], None))
              [] "/att/202401010000/Ab12Cd" eq_refl eq_refl eq_refl)
    as [later [Hprefix [Hall Hreturns]]].
  assert (Hret : completion_of
                   (processMessages
                      (Cases.with_mail Sample.writable
                         ([Sample.message [Sample.named "1" "all.ZIP"];
                           Sample.message [Sample.named "1" "notes.txt"];
                           Sample.message [Sample.named "1" "b.zip"]], None)
                         ([], None))
                      [])
                 = Return tt).
  { apply Hreturns; try reflexivity; repeat constructor; discriminate. }
  exists later. split; [exact Hprefix |]. split; [exact (Hall Hret) | exact Hret].
Defined.

(** The routine of a message routed to the direct pair leaves a rejected
    promise behind; with a message of the bundle strategy after it, the
    process ends while the workspace is awaited, and the bundle routine is
    never started. *)
Lemma direct_pair_then_bundle_ends_the_process :
  let out :=
    processMessages
      (Cases.with_mail Sample.writable
         ([Sample.message Sample.two_xml_parts;
           Sample.message [Sample.named "1" "all.zip"]], None) ([], None))
      [] in
  completion_of out = Exit 1 /\
  trace_of out
  = [EMkdir "/att/202401010000/"; EFetch;
     ESpawn (XmlPdfTask "2" "3" (Sample.message Sample.two_xml_parts));
     EMkdtemp "/att/202401010000/";
     EUnhandledRejection (ReferenceError "msg is not defined")].
Proof. split; reflexivity. Qed.

(** When the next answer of the enumeration takes a turn of the event
    loop, the process ends right after the direct-pair routine is
    started. *)
Lemma direct_pair_ends_a_slow_cycle :
  let out :=
    processMessages
      (Cases.slow
         (Cases.with_mail Sample.writable
            ([Sample.message Sample.two_xml_parts;
              Sample.message [Sample.named "1" "notes.txt"]], None) ([], None)))
      [] in
  completion_of out = Exit 1 /\
  trace_of out
  = [EMkdir "/att/202401010000/"; EFetch;
     ESpawn (XmlPdfTask "2" "3" (Sample.message Sample.two_xml_parts));
     EUnhandledRejection (ReferenceError "msg is not defined")].
Proof. split; reflexivity. Qed.

(** Without a direct-pair routine nothing is left behind: a failure of
    the enumeration after a bundle routine was started shuts the session
    down to the end. *)
Lemma bundle_then_error_shuts_down :
  let out :=
    processMessages
      (Cases.with_mail Sample.writable
         ([Sample.message [Sample.named "1" "all.zip"]],
          Some (Error "Connection closed")) ([], None))
      [] in
  completion_of out = Exit 1 /\
  trace_of out
  = [EMkdir "/att/202401010000/"; EFetch;
     EMkdtemp "/att/202401010000/";
     ESpawn (ZipTask "1" "/att/202401010000/Ab12Cd"
               (Sample.message [Sample.named "1" "all.zip"]));
     EConsoleError (Error "Connection closed");
     ELog LError (Text (VStr "Connection closed")) None;
     ELockRelease; ELogout; EProcessExit 1].
Proof. split; reflexivity. Qed.

(** With a rejected promise left behind, the shutdown of a failed cycle
    is cut short while the logout is awaited. *)
Lemma pending_rejection_cuts_the_shutdown :
  let out :=
    processMessages
      (Cases.with_mail Sample.writable
         ([Sample.message Sample.two_xml_parts], Some (Error "Connection closed"))
         ([], None))
      [] in
  completion_of out = Exit 1 /\
  trace_of out
  = [EMkdir "/att/202401010000/"; EFetch;
     ESpawn (XmlPdfTask "2" "3" (Sample.message Sample.two_xml_parts));
     EConsoleError (Error "Connection closed");
     ELog LError (Text (VStr "Connection closed")) None;
     ELockRelease; ELogout;
     EUnhandledRejection (ReferenceError "msg is not defined")].
Proof. split; reflexivity. Qed.

(* ================================================================== *)
(** ** The success path of the bundle routine *)

Lemma try_catch_Return {A : Type} (body : M A) (handler : exn -> M A)
    (fs fs1 : Files) (a : A) (t1 : list event) :
  body fs = (Return a, fs1, t1) -> try_catch body handler fs = (Return a, fs1, t1).
Proof. intros Hb. unfold try_catch. rewrite Hb. reflexivity. Qed.

Section BundleSuccess.

Variable env : Env.
Variables (zipNode tmpdir : string) (msg : FetchMessageObject).

(** X22: an archive within the size ceiling from which an xml and a pdf
    entry are captured, whose xml [parse] accepts, and for which the
    sidecar write and the builder succeed, goes through: the routine
    writes the serialized Billing, starts the builder with (jsonPath,
    xmlPath, pdfPath), moves the message to the success mailbox, asks for
    the removal of the workspace and returns; the failure mailbox is not
    used. *)
Theorem bundle_success_path (fs : Files) (d : Download) (entries : list Entry)
    (billing : Billing) :
  download env (uid_toString msg) zipNode = Ok d ->
  (expectedSize (meta d) <= 4 * 1024 * 1024)%Z ->
  unzip env (content d) = (entries, None) ->
  xml (captured tmpdir entries) <> None ->
  pdf (captured tmpdir entries) <> None ->
  completion_of
    (parse env (xmlPath (captured tmpdir entries))
       (files_of (zip_loop env tmpdir entries None zip_init fs)))
  = Return billing ->
  writeFile_rejects env (jsonPath (captured tmpdir entries)) = None ->
  exec env
    (buildCommand (jsonPath (captured tmpdir entries))
       (xmlPath (captured tmpdir entries)) (pdfPath (captured tmpdir entries)))
    ((jsonPath (captured tmpdir entries),
      JSON_stringify env (Billing_to_val billing))
     :: files_of (zip_loop env tmpdir entries None zip_init fs))
  = Ok tt ->
  exists t,
    forallb preparatory t = true /\
    processZipNode env zipNode tmpdir msg fs
    = (Return tt,
       (jsonPath (captured tmpdir entries),
        JSON_stringify env (Billing_to_val billing))
       :: files_of (zip_loop env tmpdir entries None zip_init fs),
       EDownload (uid_toString msg) zipNode
       :: t
       ++ [EWriteFile (jsonPath (captured tmpdir entries))
             (JSON_stringify env (Billing_to_val billing));
           EExec (buildCommand (jsonPath (captured tmpdir entries))
                    (xmlPath (captured tmpdir entries))
                    (pdfPath (captured tmpdir entries)))
                 ((jsonPath (captured tmpdir entries),
                   JSON_stringify env (Billing_to_val billing))
                  :: files_of (zip_loop env tmpdir entries None zip_init fs))]
       ++ move_trace env (uid_toString msg) (GOOD_MAILBOX env)
       ++ [ERm tmpdir]).
Proof.
  intros Hd Hsize Hzip Hx Hpdf Hparse Hw Hexec.
  destruct (zip_loop_run env tmpdir entries None zip_init fs)
    as [fs1 [t1 [E1 [Q1 _]]]].
  rewrite E1 in *. unfold files_of in Hparse, Hexec |- *. cbn [fst snd] in *.
  fold (captured tmpdir entries) in E1.
  set (st := captured tmpdir entries) in *.
  set (content := JSON_stringify env (Billing_to_val billing)) in *.
  destruct (parse_run env (xmlPath st) fs1) as [Fp Rp].
  assert (Qp : forallb preparatory (trace_of (parse env (xmlPath st) fs1)) = true).
  { destruct (file_lookup (xmlPath st) fs1) as [c |].
    - apply (forallb_weaken _ _ _ reads_only_preparatory), Rp.
    - rewrite Rp in Hparse. discriminate Hparse. }
  clear Rp.
  pose proof (outcome_eta (parse env (xmlPath st) fs1)) as Hp.
  rewrite Fp, Hparse in Hp.
  set (tp := trace_of (parse env (xmlPath st) fs1)) in *.
  pose proof (writeFile_run env (jsonPath st) content fs1) as Hwr.
  rewrite Hw in Hwr.
  pose proof (exec_run env (buildCommand (jsonPath st) (xmlPath st) (pdfPath st))
                ((jsonPath st, content) :: fs1)) as Hex.
  rewrite Hexec in Hex.
  assert (Hfin : zip_finish env tmpdir msg st fs1
                 = (Return tt, (jsonPath st, content) :: fs1,
                    tp ++ [EWriteFile (jsonPath st) content;
                           EExec (buildCommand (jsonPath st) (xmlPath st) (pdfPath st))
                                 ((jsonPath st, content) :: fs1)]
                    ++ move_trace env (uid_toString msg) (GOOD_MAILBOX env)
                    ++ [ERm tmpdir])).
  { unfold zip_finish.
    destruct (xml st); [| exfalso; apply Hx; reflexivity].
    destruct (pdf st); [| exfalso; apply Hpdf; reflexivity].
    rewrite (bind_Return _ _ _ _ _ _ Hp).
    change (negb (Js.truthy (Billing_to_val billing))) with false. cbv iota.
    fold content.
    rewrite (bind_Return _ _ _ _ _ _ Hwr).
    rewrite (bind_Return _ _ _ _ _ _ Hex).
    rewrite (bind_Return _ _ _ _ _ _ (moveMessage_run env _ _ _)).
    unfold completion_of, files_of, trace_of, fs_rm, emit. simpl. reflexivity. }
  exists (t1 ++ tp). split.
  - rewrite forallb_app, Q1, Qp. reflexivity.
  - unfold processZipNode. apply try_catch_Return.
    unfold processZipNode_try.
    rewrite (bind_Return _ _ _ _ _ _ (download_answer env zipNode msg fs d Hd)).
    replace (expectedSize (meta d) >? 4 * 1024 * 1024)%Z with false
      by (symmetry; rewrite Z.gtb_ltb; apply Z.ltb_ge; exact Hsize).
    rewrite Hzip. cbn [fst snd].
    rewrite (bind_Return _ _ _ _ _ _ E1), Hfin.
    unfold completion_of, files_of, trace_of. simpl.
    rewrite <- !app_assoc. reflexivity.
Qed.

End BundleSuccess.

Lemma bundle_success_path_witness :
  exists t,
    forallb preparatory t = true /\
    processZipNode Sample.writable "2" "/w" (Sample.message []) []
    = (Return tt,
       [("/w/a.json", "{json}"); ("/w/a.pdf", "%PDF"); ("/w/a.xml", "doc")]%string,
       EDownload "7" "2"
       :: t
       ++ [EWriteFile "/w/a.json" "{json}";
           EExec (buildCommand "/w/a.json" "/w/a.xml" "/w/a.pdf")
                 [("/w/a.json", "{json}"); ("/w/a.pdf", "%PDF");
                  ("/w/a.xml", "doc")]%string]
       ++ move_trace Sample.writable "7" (Some "GOOD"%string)
       ++ [ERm "/w"]).
Proof.
  apply (bundle_success_path Sample.writable "2" "/w" (Sample.message []) []
           {| content := "PK";
              meta := {| meta_filename := "f.zip"; expectedSize := 10 |} |}
           [Sample.a_xml; Sample.a_pdf] Sample.expected_billing);
    try reflexivity; vm_compute; discriminate.
Defined.

(** An entry whose path holds both [.xml] and [.pdf] is written twice to
    the same place: the second write finds the stream read to its end and
    leaves the file empty.  What is parsed is the empty file, and the
    message goes to the failure mailbox. *)
Lemma entry_named_for_both_is_emptied :
  let unpacked := files_of (zip_loop Sample.writable "/w" [Cases.both] None zip_init []) in
  let out := processZipNode
               (Cases.with_mail Sample.writable ([], None) ([Cases.both], None))
               "2" "/w" (Sample.message []) [] in
  written (trace_of (zip_loop Sample.writable "/w" [Cases.both] None zip_init []))
  = ["/w/f.xml.pdf"; "/w/f.xml.pdf"]%string /\
  file_lookup "/w/f.xml.pdf" unpacked = Some ""%string /\
  completion_of out = Return tt /\
  processing_errors (trace_of out) = [VStr "El XML no contiene datos válidos"] /\
  In (EMessageMove "7" (Some "BAD"%string)) (trace_of out).
Proof. vm_compute. repeat split. do 10 right. left. reflexivity. Qed.

(* ================================================================== *)
(** ** Matching by containment *)

Local Open Scope string_scope.

Lemma includes_head (sub s : string) :
  JsString.includes sub s
  = String.prefix sub s
    || match s with
       | EmptyString => false
       | String _ s' => JsString.includes sub s'
       end.
Proof. destruct s; reflexivity. Qed.

Lemma prefix_self_app (p b : string) : String.prefix p (p ++ b) = true.
Proof.
  induction p as [| a p IH]; [destruct b; reflexivity |].
  simpl. destruct (ascii_dec a a) as [_ | Hn]; [exact IH | exfalso; apply Hn; reflexivity].
Qed.

Lemma includes_decompose (sub s : string) :
  JsString.includes sub s = true <-> exists a b, s = a ++ sub ++ b.
Proof.
  split.
  - induction s as [| c s IH]; rewrite includes_head; intros H.
    + rewrite orb_false_r in H. apply prefix_app in H.
      exists "", (JsString.skip (String.length sub) ""). exact H.
    + apply orb_true_iff in H. destruct H as [H | H].
      * apply prefix_app in H.
        exists "", (JsString.skip (String.length sub) (String c s)). exact H.
      * destruct (IH H) as [a [b E]]. exists (String c a), b.
        simpl. rewrite <- E. reflexivity.
  - intros [a [b E]]. subst s. apply includes_app_r.
    rewrite includes_head, prefix_self_app. reflexivity.
Qed.

(** X23: a part is taken for a type when its filename, in lower case,
    contains the suffix anywhere, not only at its end. *)
Theorem router_matches_anywhere (suffix filename : string) :
  names suffix filename = true <->
  exists a b, JsString.toLowerCase filename = a ++ suffix ++ b.
Proof. unfold names. apply includes_decompose. Qed.

Lemma router_matches_anywhere_witness :
  names ".xml" "Factura.XML.bak" = true.
Proof.
  apply (proj2 (router_matches_anywhere ".xml" "Factura.XML.bak")).
  exists "factura", ".bak". reflexivity.
Defined.

(* ================================================================== *)
(** ** Where the sidecar goes *)

(** [.xml] cannot begin in a path and end beyond the [/] that follows it. *)
Lemma prefix_before_slash (a b : string) :
  String.prefix ".xml" (a ++ "/" ++ b) = true -> String.prefix ".xml" a = true.
Proof.
  destruct a as [| c1 [| c2 [| c3 [| c4 a]]]];
    cbn [String.prefix String.append];
    repeat match goal with
           | |- context [ascii_dec ?x ?y] =>
               destruct (ascii_dec x y) as [e | ne];
               [try discriminate e; try subst | ]; cbv beta iota
           end;
    intros H; try discriminate H; try reflexivity.
  destruct a; reflexivity.
Qed.

Lemma replace_past_directory (a b : string) :
  JsString.includes ".xml" a = false ->
  JsString.replace ".xml" ".json" (a ++ "/" ++ b)
  = a ++ "/" ++ JsString.replace ".xml" ".json" b.
Proof.
  induction a as [| c a IH]; intros H.
  - reflexivity.
  - rewrite includes_head in H. apply orb_false_iff in H. destruct H as [Hp Hi].
    change (String c a ++ "/" ++ b) with (String c (a ++ "/" ++ b)).
    cbn [JsString.replace].
    destruct (String.prefix ".xml" (String c (a ++ "/" ++ b))) eqn:Hq.
    + apply (prefix_before_slash (String c a) b) in Hq. rewrite Hq in Hp.
      discriminate Hp.
    + rewrite (IH Hi). reflexivity.
Qed.

Lemma prefix_length (p s : string) :
  String.prefix p s = true -> (String.length p <= String.length s)%nat.
Proof.
  revert s. induction p as [| a p IH]; intros s H; simpl; [apply Nat.le_0_l |].
  destruct s as [| b s]; [discriminate H |].
  simpl in H. destruct (ascii_dec a b); [| discriminate H].
  simpl. apply le_n_S, IH, H.
Qed.

Lemma includes_length (p s : string) :
  JsString.includes p s = true -> (String.length p <= String.length s)%nat.
Proof.
  induction s as [| c s IH]; rewrite includes_head; intros H.
  - rewrite orb_false_r in H. apply prefix_length, H.
  - apply orb_true_iff in H. destruct H as [H | H].
    + apply prefix_length, H.
    + simpl. apply Nat.le_trans with (String.length s); [apply IH, H | apply Nat.le_succ_diag_r].
Qed.

Lemma prefix_app_same (p a b : string) :
  (String.length p <= String.length a)%nat ->
  String.prefix p (a ++ b) = String.prefix p a.
Proof.
  revert a. induction p as [| x p IH]; intros a H.
  - destruct a; destruct b; reflexivity.
  - destruct a as [| y a]; [simpl in H; inversion H |].
    simpl. destruct (ascii_dec x y); [| reflexivity].
    apply IH. simpl in H. apply le_S_n, H.
Qed.

Lemma skip_app (n : nat) (a b : string) :
  (n <= String.length a)%nat -> JsString.skip n (a ++ b) = JsString.skip n a ++ b.
Proof.
  revert a. induction n as [| n IH]; intros a H; [reflexivity |].
  destruct a as [| c a]; [simpl in H; inversion H |].
  simpl. apply IH. simpl in H. apply le_S_n, H.
Qed.

Lemma append_assoc (a b c : string) : (a ++ b) ++ c = a ++ (b ++ c).
Proof. induction a as [| x a IH]; simpl; [reflexivity | rewrite IH; reflexivity]. Qed.

Lemma replace_within (a b : string) :
  JsString.includes ".xml" a = true ->
  JsString.replace ".xml" ".json" (a ++ b)
  = JsString.replace ".xml" ".json" a ++ b.
Proof.
  induction a as [| c a IH]; intros H; [discriminate H |].
  pose proof (includes_length _ _ H) as Hlen.
  change (String c a ++ b) with (String c (a ++ b)).
  cbn [JsString.replace].
  change (String c (a ++ b)) with (String c a ++ b).
  rewrite (prefix_app_same ".xml" (String c a) b Hlen).
  destruct (String.prefix ".xml" (String c a)) eqn:Hp.
  - rewrite (skip_app _ (String c a) b Hlen). reflexivity.
  - rewrite includes_head, Hp in H. cbn [orb] in H.
    change (String c a ++ b) with (String c (a ++ b)).
    cbn [String.append]. rewrite (IH H). reflexivity.
Qed.

Lemma fold_capture_xml_entry (tmpdir : string) (entries : list Entry)
    (st : ZipLocals) (e : Entry) :
  (forall e', xml st = Some e' -> xmlPath st = tmpdir ++ "/" ++ path e') ->
  xml (fold_left (capture tmpdir) entries st) = Some e ->
  xmlPath (fold_left (capture tmpdir) entries st) = tmpdir ++ "/" ++ path e.
Proof.
  revert st. induction entries as [| entry rest IH]; intros st Hst; simpl.
  - apply Hst.
  - apply IH. unfold capture.
    destruct (JsString.includes ".xml" (path entry));
      destruct (JsString.includes ".pdf" (path entry)); simpl; intros e' He';
      try (apply Hst, He'); injection He' as <-; reflexivity.
Qed.

(** X24: where the sidecar is written.  When the workspace path has no
    [.xml] in it, the sidecar lies in the workspace, under the entry path
    with its first [.xml] replaced by [.json]; when the workspace path
    itself contains [.xml], it is that occurrence that is replaced, and
    the sidecar path leaves the workspace. *)
Theorem sidecar_location (tmpdir : string) (entries : list Entry) (e : Entry) :
  xml (captured tmpdir entries) = Some e ->
  jsonPath (captured tmpdir entries)
  = if JsString.includes ".xml" tmpdir
    then JsString.replace ".xml" ".json" tmpdir ++ "/" ++ path e
    else tmpdir ++ "/" ++ JsString.replace ".xml" ".json" (path e).
Proof.
  intros Hx.
  assert (Hside : sidecar_ok (captured tmpdir entries)).
  { apply fold_capture_sidecar. reflexivity. }
  rewrite Hside. unfold captured in *.
  rewrite (fold_capture_xml_entry tmpdir entries zip_init e);
    [| intros e' He'; discriminate He' | exact Hx].
  destruct (JsString.includes ".xml" tmpdir) eqn:Ht.
  - apply replace_within, Ht.
  - apply replace_past_directory, Ht.
Qed.

Lemma sidecar_location_witness :
  jsonPath (captured "/scratch.xml/Ab12Cd" [Sample.a_xml])
  = "/scratch.json/Ab12Cd/a.xml".
Proof.
  exact (sidecar_location "/scratch.xml/Ab12Cd" [Sample.a_xml] Sample.a_xml eq_refl).
Defined.

(* ================================================================== *)
(** ** The identifier, when the attachment carries one *)

(** X25: when the embedded document carries an identifier (its ID, else
    its Invoice.ID, else its CreditNote.ID), that identifier is the
    result and the primary document is not read at all: it wins over
    ParentDocumentID, AltID and the document's own ID, and no shape of
    the primary document can make the extraction of the id throw. *)
Theorem attachment_identifier_wins (document attachment : val) :
  Js.nullish
    (first_non_null
       [field attachment ["ID"]; field attachment ["Invoice"; "ID"];
        field attachment ["CreditNote"; "ID"]]%list VUndefined) = false ->
  extractID document attachment
  = Ok (first_non_null
          [field attachment ["ID"]; field attachment ["Invoice"; "ID"];
           field attachment ["CreditNote"; "ID"]]%list VUndefined).
Proof.
  unfold extractID.
  rewrite opt_field, !opt_field2, !coalesce_assoc.
  do 3 rewrite first_non_null_cons. rewrite !coalesce_Ok.
  destruct (Js.nullish (field attachment ["ID"]%list)); [| reflexivity].
  destruct (Js.nullish (field attachment ["Invoice"; "ID"]%list)); [| reflexivity].
  destruct (Js.nullish (field attachment ["CreditNote"; "ID"]%list));
    [| reflexivity].
  intros H. discriminate H.
Qed.

Lemma attachment_identifier_wins_witness :
  extractID VUndefined Cases.embedded = Ok (VStr "FV-77").
Proof.
  exact (attachment_identifier_wins VUndefined Cases.embedded eq_refl).
Defined.
